(** * PAYROLL: the route handlers of [app/routes.py]

    A shallow embedding of the handlers that read and write staff records,
    monthly salary records and professional-tax slabs, together with the
    properties of the salary breakdown they persist.

    Modelling conventions.
    - A Python [str] is held as the bytes of its UTF-8 encoding.
    - A Python [float] is idealised as an exact rational ([Q]); the handlers
      perform a single addition on floats ([base_salary + allowances]) and
      otherwise only move values around.
    - The Python built-ins [int(str)], [float(str)] and
      [datetime.strptime(str, '%Y-%m-%d')] are parameters of the development:
      [None] stands for the [ValueError] they raise.
    - [utils.calculate_salary_components] is imported by [routes.py] but is
      defined in another module; the handlers take it as a parameter.  The
      statements about what the engine returns instantiate it with the
      engine of the specification ([Engine.compute]).
    - A column that [routes.py] tests for [None] is nullable ([option]);
      the LOP days of a salary record are.
    - A database table is the list of its rows in insertion order.  The
      SQLAlchemy session is a list of pending statements over the committed
      database; [commit] flushes them, [rollback] drops them. *)

From Stdlib Require Import ZArith QArith Qround List String Ascii Bool Lia.
From Stdlib Require Import Sorted Permutation DecimalString.
Import ListNotations.

Open Scope string_scope.
Open Scope Z_scope.

(** ** Python values *)

Module Py.

(** Exceptions the handlers can meet. *)
Inductive exn :=
| KeyError (key : string)
| ValueError
| DatabaseError
| EngineError.

(** A [str] is held as its UTF-8 encoding.  One character is a byte that
    does not continue a sequence, with the continuation bytes that follow
    it. *)
Definition is_continuation (c : ascii) : bool :=
  let n := nat_of_ascii c in ((128 <=? n) && (n <? 192))%nat.

(** The characters of a string, each as the bytes that encode it. *)
Fixpoint chars (s : string) : list string :=
  match s with
  | EmptyString => []
  | String c s' =>
      match chars s' with
      | String c' w :: ws =>
          if is_continuation c' then String c (String c' w) :: ws
          else String c "" :: String c' w :: ws
      | ws => String c "" :: ws
      end
  end.

Definition byte (c : ascii) : Z := Z.of_nat (nat_of_ascii c).

(** The code point a character encodes; [None] for bytes that are not the
    shortest encoding of a code point. *)
Definition code_point (c : string) : option Z :=
  match c with
  | String a "" => if byte a <? 128 then Some (byte a) else None
  | String a (String b "") =>
      let n := (byte a - 192) * 64 + (byte b - 128) in
      if (192 <=? byte a) && (byte a <? 224) && is_continuation b
         && (128 <=? n)
      then Some n else None
  | String a (String b (String c "")) =>
      let n := (byte a - 224) * 4096 + (byte b - 128) * 64 + (byte c - 128) in
      if (224 <=? byte a) && (byte a <? 240) && is_continuation b
         && is_continuation c && (2048 <=? n)
      then Some n else None
  | String a (String b (String c (String d ""))) =>
      let n := (byte a - 240) * 262144 + (byte b - 128) * 4096
               + (byte c - 128) * 64 + (byte d - 128) in
      if (240 <=? byte a) && (byte a <? 248) && is_continuation b
         && is_continuation c && is_continuation d
         && (65536 <=? n) && (n <=? 1114111)
      then Some n else None
  | _ => None
  end.

(** The code points for which [str.isspace] holds, those [str.strip]
    removes: the ASCII blanks and separators, NEL, the no-break space and
    the Unicode spaces and line separators. *)
Definition is_space_code (n : Z) : bool :=
  ((9 <=? n) && (n <=? 13)) || ((28 <=? n) && (n <=? 32))
  || (n =? 133) || (n =? 160) || (n =? 5760)
  || ((8192 <=? n) && (n <=? 8202))
  || (n =? 8232) || (n =? 8233) || (n =? 8239) || (n =? 8287)
  || (n =? 12288).

(** [c.isspace()] on one character. *)
Definition is_space (c : string) : bool :=
  match code_point c with
  | Some n => is_space_code n
  | None => false
  end.

Fixpoint lstrip (l : list string) : list string :=
  match l with
  | c :: l' => if is_space c then lstrip l' else l
  | [] => []
  end.

(** [s.strip()] *)
Definition strip (s : string) : string :=
  String.concat "" (rev (lstrip (rev (lstrip (chars s))))).

(** Truth value of a [str]. *)
Definition truthy (s : string) : bool :=
  match s with EmptyString => false | _ => true end.

(** Truth value of an optional [str] ([None] is false). *)
Definition truthy_opt (o : option string) : bool :=
  match o with Some s => truthy s | None => false end.

(** [a or b] on optional strings. *)
Definition or_else (a b : option string) : option string :=
  if truthy_opt a then a else b.

(** [x or 0] on an optional float: [None] and [0.0] both give [0]. *)
Definition or_zero (x : option Q) : Q :=
  match x with
  | Some a => if Qeq_bool a 0 then 0%Q else a
  | None => 0%Q
  end.

(** [s.split(sep)] for a one-character separator. *)
Fixpoint split (sep : ascii) (s : string) : list string :=
  match s with
  | EmptyString => [EmptyString]
  | String c s' =>
      if Ascii.eqb c sep then EmptyString :: split sep s'
      else match split sep s' with
           | w :: ws => String c w :: ws
           | [] => [String c EmptyString]
           end
  end.

(** [str(n)] for an [int]. *)
Definition str (n : Z) : string := NilZero.string_of_int (Z.to_int n).

(** [f"{n:02d}"] *)
Definition fmt_02d (n : Z) : string :=
  if (0 <=? n) && (n <? 10) then "0" ++ str n else str n.

(** [calendar.isleap] *)
Definition isleap (year : Z) : bool :=
  (year mod 4 =? 0) && (negb (year mod 100 =? 0) || (year mod 400 =? 0)).

(** [calendar.monthrange(year, month)[1]]; [None] is [IllegalMonthError]. *)
Definition days_in_month (year month : Z) : option Z :=
  if (1 <=? month) && (month <=? 12) then
    Some (if month =? 2 then (if isleap year then 29 else 28)
          else if (month =? 4) || (month =? 6) || (month =? 9) || (month =? 11)
               then 30 else 31)
  else None.

End Py.

(** ** Query helpers *)

Section OrderBy.
Context {A : Type} (leb : A -> A -> bool).

Fixpoint insert_sorted (x : A) (l : list A) : list A :=
  match l with
  | [] => [x]
  | y :: l' => if leb x y then x :: l else y :: insert_sorted x l'
  end.

(** [query.order_by(key.asc()).all()] *)
Definition order_by (l : list A) : list A :=
  fold_right insert_sorted [] l.

(** [query.filter(p).first()], with the position of the row found. *)
Fixpoint find_row (p : A -> bool) (i : nat) (l : list A) : option (nat * A) :=
  match l with
  | [] => None
  | x :: l' => if p x then Some (i, x) else find_row p (S i) l'
  end.

Fixpoint remove_nth (n : nat) (l : list A) : list A :=
  match n, l with
  | _, [] => []
  | O, _ :: l' => l'
  | S n', x :: l' => x :: remove_nth n' l'
  end.

Fixpoint update_nth (n : nat) (f : A -> A) (l : list A) : list A :=
  match n, l with
  | _, [] => []
  | O, x :: l' => f x :: l'
  | S n', x :: l' => x :: update_nth n' f l'
  end.
End OrderBy.

(** ** The request *)

(** [werkzeug]'s [MultiDict]: the submitted fields in order, keys may repeat. *)
Definition MultiDict := list (string * string).

Fixpoint form_get (f : MultiDict) (k : string) : option string :=
  match f with
  | [] => None
  | (k', v) :: f' => if String.eqb k' k then Some v else form_get f' k
  end.

Fixpoint form_getlist (f : MultiDict) (k : string) : list string :=
  match f with
  | [] => []
  | (k', v) :: f' =>
      if String.eqb k' k then v :: form_getlist f' k else form_getlist f' k
  end.

(** [request.form[k]] *)
Definition form_index (f : MultiDict) (k : string) : Py.exn + string :=
  match form_get f k with
  | Some v => inr v
  | None => inl (Py.KeyError k)
  end.

Inductive http_method := GET | POST.

Record User := {
  is_authenticated : bool;
  is_admin : bool;
  is_hr : bool;
  is_accounts : bool
}.

Record Request := {
  method : http_method;
  form : MultiDict;
  args : MultiDict;
  current_user : User;
  (** [date.today()] as (year, month, day) *)
  today : Z * Z * Z;
  (** What each successive [db.session.commit()] of this request meets:
      [true] commits, [false] makes the database raise.  Commits beyond the
      list succeed. *)
  commit_outcomes : list bool
}.

(** ** The tables *)

Definition datetime := (Z * Z * Z)%type.

Module Staff.
Record t := {
  id : Z;
  staff_id : Z;
  name : string;
  category : string;
  department : string;
  designation : string;
  base_salary : Q;
  allowances : option Q;
  deductions : option Q;
  date_joined : datetime;
  bank_account : string;
  aadhar : string;
  pf_number : option string;
  esi_number : option string;
  active : bool
}.

(** The row with its [deductions] column blanked. *)
Definition without_deductions (s : t) : t :=
  {| id := id s; staff_id := staff_id s; name := name s;
     category := category s; department := department s;
     designation := designation s; base_salary := base_salary s;
     allowances := allowances s; deductions := None;
     date_joined := date_joined s; bank_account := bank_account s;
     aadhar := aadhar s; pf_number := pf_number s;
     esi_number := esi_number s; active := active s |}.

Definition with_id (i : Z) (s : t) : t :=
  {| id := i; staff_id := staff_id s; name := name s; category := category s;
     department := department s; designation := designation s;
     base_salary := base_salary s; allowances := allowances s;
     deductions := deductions s; date_joined := date_joined s;
     bank_account := bank_account s; aadhar := aadhar s;
     pf_number := pf_number s; esi_number := esi_number s;
     active := active s |}.
End Staff.

(** A row of [SalaryRecord].  Both constructor calls in [routes.py] supply
    [gross_salary]; the other amounts are left to the column default
    ([None]) by [lop_page].  [lop_days] is supplied by both as well, but
    the column can hold NULL: [api_get_lop] tests it for [None]. *)
Module SalaryRecord.
Record t := {
  staff_id : Z;
  month : Z;
  year : Z;
  gross_salary : Q;
  lop_days : option Q;
  lop_amount : option Q;
  epf : option Q;
  esi : option Q;
  it : option Q;
  loan : option Q;
  advance : option Q;
  uniform : option Q;
  cd : option Q;
  hostel : option Q;
  misc : option Q;
  total_deductions : option Q;
  total_reimbursements : option Q;
  net_salary : option Q
}.

(** [record.lop_days = v] *)
Definition set_lop_days (v : Q) (r : t) : t :=
  {| staff_id := staff_id r; month := month r; year := year r;
     gross_salary := gross_salary r; lop_days := Some v;
     lop_amount := lop_amount r; epf := epf r; esi := esi r; it := it r;
     loan := loan r; advance := advance r; uniform := uniform r;
     cd := cd r; hostel := hostel r; misc := misc r;
     total_deductions := total_deductions r;
     total_reimbursements := total_reimbursements r;
     net_salary := net_salary r |}.

(** [filter_by(staff_id=s, month=m, year=y)] *)
Definition has_key (s m y : Z) (r : t) : bool :=
  (staff_id r =? s) && (month r =? m) && (year r =? y).
End SalaryRecord.

Module ProfessionalTax.
Record t := {
  range_from : Q;
  range_to : Q;
  tax_amount : Q
}.
End ProfessionalTax.

Record Database := {
  staff : list Staff.t;
  salary_records : list SalaryRecord.t;
  tax_slabs : list ProfessionalTax.t
}.

Definition empty_db : Database :=
  {| staff := []; salary_records := []; tax_slabs := [] |}.

(** The database with the [deductions] column of every staff row blanked. *)
Definition forget_deductions (db : Database) : Database :=
  {| staff := map Staff.without_deductions (staff db);
     salary_records := salary_records db;
     tax_slabs := tax_slabs db |}.

(** ** The salary engine's interface *)

(** The [deductions] dict built by [d_r_page]. *)
Module Deductions.
Record t := {
  it : Q;
  loan : Q;
  advance : Q;
  uniform : Q;
  cd : Q;
  hostel : Q;
  misc : Q
}.

Definition total (d : t) : Q :=
  (it d + loan d + advance d + uniform d + cd d + hostel d + misc d)%Q.
End Deductions.

(** The keyword arguments of [calculate_salary_components].  [lop_days] is
    what [d_r_page] read from the stored row, [None] for NULL. *)
Module Args.
Record t := {
  gross_salary : Q;
  lop_days : option Q;
  deductions : Deductions.t;
  reimbursements : list Q;
  month : Z;
  year : Z
}.
End Args.

(** The keys of the result dict that [d_r_page] reads. *)
Module Components.
Record t := {
  gross_salary : Q;
  lop_amount : Q;
  epf : Q;
  esi : Q;
  total_deductions : Q;
  total_reimbursements : Q;
  net_salary : Q
}.
End Components.

(** ** The database session *)

(** The statements a flush can emit.  A row of [salary_record] loaded by a
    query is designated by its position in the table. *)
Inductive stmt :=
| InsertStaff (s : Staff.t)
| InsertSalaryRecord (r : SalaryRecord.t)
| UpdateLopDays (row : nat) (v : Q)
| DeleteSalaryRecord (row : nat)
| InsertProfessionalTax (t : ProfessionalTax.t).

(** The primary key the database gives a new staff row. *)
Definition next_pk (l : list Staff.t) : Z :=
  fold_right (fun s m => Z.max (Staff.id s) m) 0 l + 1.

Definition apply_stmt (db : Database) (st : stmt) : Database :=
  match st with
  | InsertStaff s =>
      {| staff := staff db ++ [Staff.with_id (next_pk (staff db)) s];
         salary_records := salary_records db; tax_slabs := tax_slabs db |}
  | InsertSalaryRecord r =>
      {| staff := staff db; salary_records := salary_records db ++ [r];
         tax_slabs := tax_slabs db |}
  | UpdateLopDays row v =>
      {| staff := staff db;
         salary_records :=
           update_nth row (SalaryRecord.set_lop_days v) (salary_records db);
         tax_slabs := tax_slabs db |}
  | DeleteSalaryRecord row =>
      {| staff := staff db;
         salary_records := remove_nth row (salary_records db);
         tax_slabs := tax_slabs db |}
  | InsertProfessionalTax t =>
      {| staff := staff db; salary_records := salary_records db;
         tax_slabs := tax_slabs db ++ [t] |}
  end.

Inductive message :=
| AccessDenied (who : string)
| MissingSelection
| InvalidStaff
| SalarySaved (name : string) (staff_id : Z) (month_str : string)
| ErrorSavingSalary (e : Py.exn)
| LopUpdated (month_str : string)
| ErrorUpdatingLop (e : Py.exn)
| StaffAdded (name : string) (staff_id : Z)
| SlabAdded (range_from range_to : Q).

(** [flash(message, category)] *)
Record Flash := { msg : message; category : string }.

(** The locals of [d_r_page] that are assigned inside its [try] block and
    read after it. *)
Record Frame := {
  result : option Components.t;
  selected_staff_id : option Z;
  selected_month : option string
}.

Definition empty_frame : Frame :=
  {| result := None; selected_staff_id := None; selected_month := None |}.

Record Session := {
  committed : Database;
  pending : list stmt;
  (** statements flushed by successful commits, oldest first *)
  executed : list stmt;
  (** arguments of the calls to the salary engine, oldest first *)
  calls : list Args.t;
  flashed : list Flash;
  frame : Frame;
  outcomes : list bool
}.

(** What a query sees: the committed rows with the pending statements
    flushed (the session autoflushes before a query). *)
Definition view (s : Session) : Database :=
  fold_left apply_stmt (pending s) (committed s).

Definition with_pending (s : Session) (p : list stmt) : Session :=
  {| committed := committed s; pending := p; executed := executed s;
     calls := calls s; flashed := flashed s; frame := frame s;
     outcomes := outcomes s |}.

(** [s'] is [s] with the statements [new] added to the pending ones. *)
Definition adds_pending (s s' : Session) (new : list stmt) : Prop :=
  committed s' = committed s
  /\ pending s' = (pending s ++ new)%list
  /\ executed s' = executed s
  /\ calls s' = calls s
  /\ outcomes s' = outcomes s.

(** Two sessions that hold the same salary records and the same pending
    statements. *)
Definition agree (s' s : Session) : Prop :=
  salary_records (committed s') = salary_records (committed s)
  /\ pending s' = pending s
  /\ outcomes s' = outcomes s.

(** A sequence of statements, each satisfying [P] on the database the
    earlier ones have produced. *)
Inductive trace (P : Database -> stmt -> Prop) : Database -> list stmt -> Prop :=
| trace_nil db : trace P db []
| trace_cons db st l :
    P db st -> trace P (apply_stmt db st) l -> trace P db (st :: l).

(** No two salary records share (staff, month, year). *)
Definition unique_keys (db : Database) : Prop :=
  forall s m y,
    (List.length (filter (SalaryRecord.has_key s m y) (salary_records db))
     <= 1)%nat.

(** Primary keys of staff rows are positive and distinct. *)
Definition staff_pks_distinct (db : Database) : Prop :=
  NoDup (map Staff.id (staff db)).

(** Staff ids grow strictly along the staff table, which is in creation
    order. *)
Definition staff_ids_increasing (db : Database) : Prop :=
  StronglySorted Z.lt (map Staff.staff_id (staff db)).

(** The invariants of the tables. *)
Definition tables_ok (db : Database) : Prop :=
  unique_keys db /\ staff_pks_distinct db /\ staff_ids_increasing db.

(** A handler body: it may raise, and it threads the session. *)
Definition M (A : Type) : Type := Session -> (Py.exn + A) * Session.

Definition ret {A} (a : A) : M A := fun s => (inr a, s).

Definition raise {A} (e : Py.exn) : M A := fun s => (inl e, s).

Definition bind {A B} (m : M A) (k : A -> M B) : M B :=
  fun s => match m s with
           | (inr a, s') => k a s'
           | (inl e, s') => (inl e, s')
           end.

Declare Scope handler_scope.
Delimit Scope handler_scope with handler.
Notation "x <- m ;; k" := (bind m (fun x => k))
  (at level 100, m at next level, right associativity) : handler_scope.
Notation "' pat <- m ;; k" := (bind m (fun x => match x with pat => k end))
  (at level 100, pat pattern, m at next level, right associativity)
  : handler_scope.
Notation "m ;; k" := (bind m (fun _ => k))
  (at level 100, right associativity) : handler_scope.
Open Scope handler_scope.

(** [try: body  except Exception as e: handler(e)] *)
Definition try_except {A} (body : M A) (handler : Py.exn -> M A) : M A :=
  fun s => match body s with
           | (inr a, s') => (inr a, s')
           | (inl e, s') => handler e s'
           end.

Definition lift {A} (x : Py.exn + A) : M A :=
  match x with inr a => ret a | inl e => raise e end.

Definition value_error {A} (x : option A) : M A :=
  match x with Some a => ret a | None => raise Py.ValueError end.

Definition query {A} (q : Database -> A) : M A :=
  fun s => (inr (q (view s)), s).

(** [db.session.add], [db.session.delete] or an attribute assignment on a
    loaded row: the statement waits for the next flush. *)
Definition execute (st : stmt) : M unit :=
  fun s => (inr tt, with_pending s (pending s ++ [st])).

(** [db.session.commit()] *)
Definition commit : M unit :=
  fun s =>
    match outcomes s with
    | false :: o =>
        (inl Py.DatabaseError,
         {| committed := committed s; pending := pending s;
            executed := executed s; calls := calls s; flashed := flashed s;
            frame := frame s; outcomes := o |})
    | o =>
        (inr tt,
         {| committed := view s; pending := [];
            executed := executed s ++ pending s; calls := calls s;
            flashed := flashed s; frame := frame s; outcomes := tl o |})
    end.

(** [db.session.rollback()] *)
Definition rollback : M unit :=
  fun s => (inr tt, with_pending s []).

Definition flash (m : message) (c : string) : M unit :=
  fun s => (inr tt,
            {| committed := committed s; pending := pending s;
               executed := executed s; calls := calls s;
               flashed := flashed s ++ [{| msg := m; category := c |}];
               frame := frame s; outcomes := outcomes s |}).

Definition set_frame (f : Frame -> Frame) : M unit :=
  fun s => (inr tt,
            {| committed := committed s; pending := pending s;
               executed := executed s; calls := calls s;
               flashed := flashed s; frame := f (frame s);
               outcomes := outcomes s |}).

Definition get_frame : M Frame := fun s => (inr (frame s), s).

Fixpoint for_each {A} (body : A -> M unit) (l : list A) : M unit :=
  match l with
  | [] => ret tt
  | x :: l' => body x ;; for_each body l'
  end.

Fixpoint map_m {A B} (f : A -> M B) (l : list A) : M (list B) :=
  match l with
  | [] => ret []
  | x :: l' => y <- f x ;; ys <- map_m f l' ;; ret (y :: ys)
  end.

(** What a handler returns to Flask. *)
Inductive Page :=
| Redirect (endpoint : string)
| NewStaffPage (next_staff_id : Z)
| LopPage (staff_list : list Staff.t) (selected_month : string)
          (selected_year selected_month_int : Z)
| DRPage (staff_list : list Staff.t) (result : option Components.t)
         (selected_staff_id : option Z) (selected_month : option string)
| ProfessionalTaxPage (tax_slabs : list ProfessionalTax.t).

(** One request served: the response (an exception that escapes the handler
    is a server error), the flashed messages, the database as committed when
    the request ends, the statements flushed and the engine calls made. *)
Record Outcome := {
  response : Py.exn + Page;
  flashes : list Flash;
  database : Database;
  statements : list stmt;
  engine_calls : list Args.t
}.

(** The session a request starts with. *)
Definition start_session (req : Request) (db : Database) : Session :=
  {| committed := db; pending := []; executed := []; calls := [];
     flashed := []; frame := empty_frame; outcomes := commit_outcomes req |}.

(** What is left when the request ends: pending statements are dropped with
    the session. *)
Definition finish (run : (Py.exn + Page) * Session) : Outcome :=
  {| response := fst run; flashes := flashed (snd run);
     database := committed (snd run); statements := executed (snd run);
     engine_calls := calls (snd run) |}.

Definition serve (handler : Request -> M Page) (req : Request) (db : Database)
  : Outcome :=
  finish (handler req (start_session req db)).

(** [@login_required] *)
Definition login_required (handler : Request -> M Page) (req : Request)
  : M Page :=
  if is_authenticated (current_user req) then handler req
  else ret (Redirect "routes.login").

(** ** The handlers *)

(** What the handlers take from their environment. *)
Class Runtime := {
  (** [int(s)], [float(s)] and [datetime.strptime(s, '%Y-%m-%d')] on a
      string; [None] when Python raises [ValueError]. *)
  py_int : string -> option Z;
  py_float : string -> option Q;
  py_strptime : string -> option datetime;
  (** [utils.calculate_salary_components]; [inl] when it raises. *)
  calculate_salary_components : Args.t -> Py.exn + Components.t
}.

Section Handlers.

Context {rt : Runtime}.

(** [float(x or 0)] for a submitted string [x]. *)
Definition float_or_zero (x : string) : M Q :=
  if Py.truthy x then value_error (py_float x) else ret 0%Q.

(** [float(request.form.get(k, 0))] *)
Definition float_field (f : MultiDict) (k : string) : M Q :=
  match form_get f k with
  | Some v => value_error (py_float v)
  | None => ret 0%Q
  end.

(** [float(request.form.get(k, 0) or 0)] *)
Definition float_field_or_zero (f : MultiDict) (k : string) : M Q :=
  match form_get f k with
  | Some v => float_or_zero v
  | None => ret 0%Q
  end.

(** [year, month = map(int, s.split('-'))] *)
Definition parse_year_month (s : string) : option (Z * Z) :=
  match map py_int (Py.split "-" s) with
  | [Some y; Some m] => Some (y, m)
  | _ => None
  end.

Definition call_engine (a : Args.t) : M Components.t :=
  fun s => (calculate_salary_components a,
            {| committed := committed s; pending := pending s;
               executed := executed s; calls := calls s ++ [a];
               flashed := flashed s; frame := frame s;
               outcomes := outcomes s |}).

(** [Staff.query.filter_by(active=True).order_by(Staff.name.asc()).all()] *)
Definition active_staff_by_name (db : Database) : list Staff.t :=
  order_by (fun a b => String.leb (Staff.name a) (Staff.name b))
           (filter Staff.active (staff db)).

(** [Staff.query.order_by(Staff.staff_id.desc()).first()] *)
Definition last_staff (db : Database) : option Staff.t :=
  hd_error (order_by (fun a b => Staff.staff_id b <=? Staff.staff_id a)
                     (staff db)).

(** [Staff.query.get(i)] *)
Definition staff_get (i : Z) (db : Database) : option Staff.t :=
  find (fun s => Staff.id s =? i) (staff db).

(** [SalaryRecord.query.filter_by(staff_id=s, month=m, year=y).first()] *)
Definition salary_record_first (s m y : Z) (db : Database)
  : option (nat * SalaryRecord.t) :=
  find_row (SalaryRecord.has_key s m y) O (salary_records db).

(** [staff.base_salary + (staff.allowances or 0)] *)
Definition gross_of (s : Staff.t) : Q :=
  (Staff.base_salary s + Py.or_zero (Staff.allowances s))%Q.

(** *** [new_staff] *)

Definition next_staff_id_of (last : option Staff.t) : Z :=
  match last with
  | Some s => Staff.staff_id s + 1
  | None => 1001
  end.

Definition new_staff (req : Request) : M Page :=
  let u := current_user req in
  if negb (is_admin u) && negb (is_accounts u) then
    flash (AccessDenied "Only authorized users can add staff.") "error" ;;
    ret (Redirect "routes.dashboard")
  else
    last <- query last_staff ;;
    let next_staff_id := next_staff_id_of last in
    match method req with
    | POST =>
        let f := form req in
        name <- lift (form_index f "name") ;;
        category <- lift (form_index f "category") ;;
        department <- lift (form_index f "department") ;;
        designation <- lift (form_index f "designation") ;;
        base_str <- lift (form_index f "base_salary") ;;
        base_salary <- float_or_zero base_str ;;
        allowances <- float_field_or_zero f "allowances" ;;
        deductions <- float_field_or_zero f "deductions" ;;
        joined_str <- lift (form_index f "date_joined") ;;
        date_joined <- value_error (py_strptime joined_str) ;;
        bank_account <- lift (form_index f "bank_account") ;;
        aadhar <- lift (form_index f "aadhar") ;;
        let s :=
          {| Staff.id := 0;
             Staff.staff_id := next_staff_id;
             Staff.name := name;
             Staff.category := category;
             Staff.department := department;
             Staff.designation := designation;
             Staff.base_salary := base_salary;
             Staff.allowances := Some allowances;
             Staff.deductions := Some deductions;
             Staff.date_joined := date_joined;
             Staff.bank_account := bank_account;
             Staff.aadhar := aadhar;
             Staff.pf_number := form_get f "pf_number";
             Staff.esi_number := form_get f "esi_number";
             Staff.active :=
               match form_get f "active" with
               | Some v => String.eqb v "on"
               | None => false
               end |} in
        execute (InsertStaff s) ;;
        commit ;;
        flash (StaffAdded name next_staff_id) "success" ;;
        ret (Redirect "routes.staff_details")
    | GET => ret (NewStaffPage next_staff_id)
    end.

(** *** [lop_page] *)

(** The row [lop_page] adds for a staff member without one. *)
Definition new_lop_record (s : Staff.t) (month year : Z) (lop_days : Q)
  : SalaryRecord.t :=
  {| SalaryRecord.staff_id := Staff.id s;
     SalaryRecord.month := month;
     SalaryRecord.year := year;
     SalaryRecord.gross_salary := gross_of s;
     SalaryRecord.lop_days := Some lop_days;
     SalaryRecord.lop_amount := None; SalaryRecord.epf := None;
     SalaryRecord.esi := None; SalaryRecord.it := None;
     SalaryRecord.loan := None; SalaryRecord.advance := None;
     SalaryRecord.uniform := None; SalaryRecord.cd := None;
     SalaryRecord.hostel := None; SalaryRecord.misc := None;
     SalaryRecord.total_deductions := None;
     SalaryRecord.total_reimbursements := None;
     SalaryRecord.net_salary := None |}.

(** The body of the loop over [staff_list]. *)
Definition lop_entry (f : MultiDict) (month year : Z) (s : Staff.t)
  : M unit :=
  match form_get f ("lop_" ++ Py.str (Staff.id s)) with
  | Some lop_value =>
      if Py.truthy lop_value
         && negb (String.eqb (Py.strip lop_value) "") then
        lop_days <- value_error (py_float lop_value) ;;
        record <- query (salary_record_first (Staff.id s) month year) ;;
        match record with
        | Some (row, _) => execute (UpdateLopDays row lop_days)
        | None =>
            execute (InsertSalaryRecord (new_lop_record s month year lop_days))
        end
      else ret tt
  | None => ret tt
  end.

Definition lop_page (req : Request) : M Page :=
  let u := current_user req in
  if negb (is_hr u) && negb (is_admin u) then
    flash (AccessDenied "HR users only.") "error" ;;
    ret (Redirect "routes.dashboard")
  else
    staff_list <- query active_staff_by_name ;;
    let '(today_year, today_month, _) := today req in
    let selected :=
      Py.or_else (form_get (form req) "lop_month")
                 (form_get (args req) "month") in
    '(year, month, selected_month_str) <-
      match selected with
      | Some s =>
          if Py.truthy s then
            '(y, m) <- value_error (parse_year_month s) ;; ret (y, m, s)
          else ret (today_year, today_month,
                    Py.str today_year ++ "-" ++ Py.fmt_02d today_month)
      | None => ret (today_year, today_month,
                     Py.str today_year ++ "-" ++ Py.fmt_02d today_month)
      end ;;
    match method req with
    | POST =>
        try_except
          (for_each (lop_entry (form req) month year) staff_list ;;
           commit ;;
           flash (LopUpdated selected_month_str) "success")
          (fun e =>
             rollback ;;
             flash (ErrorUpdatingLop e) "error")
    | GET => ret tt
    end ;;
    ret (LopPage staff_list selected_month_str year month).

(** *** [d_r_page] *)

(** The row [d_r_page] saves. *)
Definition new_salary_record (s : Staff.t) (month year : Z)
           (lop_days : option Q) (d : Deductions.t) (r : Components.t) : SalaryRecord.t :=
  {| SalaryRecord.staff_id := Staff.id s;
     SalaryRecord.month := month;
     SalaryRecord.year := year;
     SalaryRecord.gross_salary := Components.gross_salary r;
     SalaryRecord.lop_days := lop_days;
     SalaryRecord.lop_amount := Some (Components.lop_amount r);
     SalaryRecord.epf := Some (Components.epf r);
     SalaryRecord.esi := Some (Components.esi r);
     SalaryRecord.it := Some (Deductions.it d);
     SalaryRecord.loan := Some (Deductions.loan d);
     SalaryRecord.advance := Some (Deductions.advance d);
     SalaryRecord.uniform := Some (Deductions.uniform d);
     SalaryRecord.cd := Some (Deductions.cd d);
     SalaryRecord.hostel := Some (Deductions.hostel d);
     SalaryRecord.misc := Some (Deductions.misc d);
     SalaryRecord.total_deductions := Some (Components.total_deductions r);
     SalaryRecord.total_reimbursements :=
       Some (Components.total_reimbursements r);
     SalaryRecord.net_salary := Some (Components.net_salary r) |}.

(** The [deductions] dict read from the form. *)
Definition read_deductions (f : MultiDict) : M Deductions.t :=
  it <- float_field f "income_tax" ;;
  loan <- float_field f "loan" ;;
  advance <- float_field f "advance" ;;
  uniform <- float_field f "uniform" ;;
  cd <- float_field f "cd" ;;
  hostel <- float_field f "hostel" ;;
  misc <- float_field f "misc" ;;
  ret {| Deductions.it := it; Deductions.loan := loan;
         Deductions.advance := advance; Deductions.uniform := uniform;
         Deductions.cd := cd; Deductions.hostel := hostel;
         Deductions.misc := misc |}.

(** The [reimbursements] list read from the form. *)
Definition read_reimbursements (f : MultiDict) : M (list Q) :=
  map_m float_or_zero
        (filter (fun x => Py.truthy x && Py.truthy (Py.strip x))
                (form_getlist f "reimbursement_amount[]")).

(** The body of the [try] block. *)
Definition d_r_post (req : Request) (staff_list : list Staff.t) : M Page :=
  let missing :=
    flash MissingSelection "error" ;; ret (Redirect "routes.d_r_page") in
  match form_get (form req) "employee_name",
        form_get (form req) "salary_month" with
  | Some staff_db_id, Some month_str =>
      if Py.truthy staff_db_id && Py.truthy month_str then
        '(year, month) <- value_error (parse_year_month month_str) ;;
        set_frame (fun fr => {| result := result fr;
                                selected_staff_id := selected_staff_id fr;
                                selected_month := Some month_str |}) ;;
        staff_pk <- value_error (py_int staff_db_id) ;;
        set_frame (fun fr => {| result := result fr;
                                selected_staff_id := Some staff_pk;
                                selected_month := selected_month fr |}) ;;
        found <- query (staff_get staff_pk) ;;
        match found with
        | None =>
            flash InvalidStaff "error" ;; ret (Redirect "routes.d_r_page")
        | Some s =>
            existing_record <-
              query (salary_record_first (Staff.id s) month year) ;;
            let lop_days :=
              match existing_record with
              | Some (_, r) => SalaryRecord.lop_days r
              | None => Some 0%Q
              end in
            let gross := gross_of s in
            deductions <- read_deductions (form req) ;;
            reimbursements <- read_reimbursements (form req) ;;
            res <- call_engine
                     {| Args.gross_salary := gross;
                        Args.lop_days := lop_days;
                        Args.deductions := deductions;
                        Args.reimbursements := reimbursements;
                        Args.month := month;
                        Args.year := year |} ;;
            set_frame (fun fr => {| result := Some res;
                                    selected_staff_id := selected_staff_id fr;
                                    selected_month := selected_month fr |}) ;;
            match existing_record with
            | Some (row, _) => execute (DeleteSalaryRecord row) ;; commit
            | None => ret tt
            end ;;
            execute (InsertSalaryRecord
                       (new_salary_record s month year lop_days
                                          deductions res)) ;;
            commit ;;
            flash (SalarySaved (Staff.name s) (Staff.staff_id s) month_str)
                  "success" ;;
            ret (DRPage staff_list (Some res) (Some staff_pk)
                        (Some month_str))
        end
      else missing
  | _, _ => missing
  end.

Definition d_r_page (req : Request) : M Page :=
  let u := current_user req in
  if negb (is_accounts u) && negb (is_admin u) then
    flash (AccessDenied "Accounts users only.") "error" ;;
    ret (Redirect "routes.dashboard")
  else
    staff_list <- query active_staff_by_name ;;
    returned <-
      match method req with
      | POST =>
          try_except
            (p <- d_r_post req staff_list ;; ret (Some p))
            (fun e =>
               rollback ;;
               flash (ErrorSavingSalary e) "error" ;;
               ret None)
      | GET => ret None
      end ;;
    match returned with
    | Some p => ret p
    | None =>
        fr <- get_frame ;;
        ret (DRPage staff_list (result fr) (selected_staff_id fr)
                    (selected_month fr))
    end.

(** *** [professional_tax] *)

(** [ProfessionalTax.query.order_by(ProfessionalTax.range_from.asc()).all()] *)
Definition slabs_by_range_from (db : Database) : list ProfessionalTax.t :=
  order_by (fun a b => Qle_bool (ProfessionalTax.range_from a)
                                (ProfessionalTax.range_from b))
           (tax_slabs db).

Definition professional_tax (req : Request) : M Page :=
  let u := current_user req in
  if negb (is_admin u) && negb (is_accounts u) then
    flash (AccessDenied "Admins only.") "error" ;;
    ret (Redirect "routes.dashboard")
  else
    match method req with
    | POST =>
        from_str <- lift (form_index (form req) "range_from") ;;
        range_from <- value_error (py_float from_str) ;;
        to_str <- lift (form_index (form req) "range_to") ;;
        range_to <- value_error (py_float to_str) ;;
        tax_str <- lift (form_index (form req) "tax_amount") ;;
        tax_amount <- value_error (py_float tax_str) ;;
        execute (InsertProfessionalTax
                   {| ProfessionalTax.range_from := range_from;
                      ProfessionalTax.range_to := range_to;
                      ProfessionalTax.tax_amount := tax_amount |}) ;;
        commit ;;
        flash (SlabAdded range_from range_to) "success" ;;
        ret (Redirect "routes.professional_tax")
    | GET =>
        slabs <- query slabs_by_range_from ;;
        ret (ProfessionalTaxPage slabs)
    end.

(** *** What [d_r_page] has gathered when it calls the engine *)

Record Prepared := {
  prep_staff : Staff.t;
  prep_staff_pk : Z;
  prep_month_str : string;
  prep_month : Z;
  prep_year : Z;
  prep_existing : option (nat * SalaryRecord.t);
  prep_deductions : Deductions.t;
  prep_reimbursements : list Q
}.

Definition prep_lop_days (p : Prepared) : option Q :=
  match prep_existing p with
  | Some (_, r) => SalaryRecord.lop_days r
  | None => Some 0%Q
  end.

Definition prep_args (p : Prepared) : Args.t :=
  {| Args.gross_salary := gross_of (prep_staff p);
     Args.lop_days := prep_lop_days p;
     Args.deductions := prep_deductions p;
     Args.reimbursements := prep_reimbursements p;
     Args.month := prep_month p;
     Args.year := prep_year p |}.

Definition prep_record (p : Prepared) (res : Components.t)
  : SalaryRecord.t :=
  new_salary_record (prep_staff p) (prep_month p) (prep_year p)
                    (prep_lop_days p) (prep_deductions p) res.

(** The statements of a save: the old row, if any, is deleted first. *)
Definition prep_delete (p : Prepared) : list stmt :=
  match prep_existing p with
  | Some (row, _) => [DeleteSalaryRecord row]
  | None => []
  end.

(** A deduction field of the form holds [v]: the submitted string reads as
    [v], or the field is absent and [v] is 0. *)
Definition field_reads (f : MultiDict) (k : string) (v : Q) : Prop :=
  match form_get f k with
  | Some x => py_float x = Some v
  | None => v = 0%Q
  end.

Definition deductions_read (f : MultiDict) (d : Deductions.t) : Prop :=
  field_reads f "income_tax" (Deductions.it d)
  /\ field_reads f "loan" (Deductions.loan d)
  /\ field_reads f "advance" (Deductions.advance d)
  /\ field_reads f "uniform" (Deductions.uniform d)
  /\ field_reads f "cd" (Deductions.cd d)
  /\ field_reads f "hostel" (Deductions.hostel d)
  /\ field_reads f "misc" (Deductions.misc d).

(** The reimbursement entries that are not blank, each read as a float. *)
Definition reimbursements_read (f : MultiDict) (l : list Q) : Prop :=
  Forall2 (fun x v => py_float x = Some v)
          (filter (fun x => Py.truthy x && Py.truthy (Py.strip x))
                  (form_getlist f "reimbursement_amount[]"))
          l.

Definition prepares (req : Request) (db : Database) (p : Prepared) : Prop :=
  (exists staff_db_id,
      form_get (form req) "employee_name" = Some staff_db_id
      /\ py_int staff_db_id = Some (prep_staff_pk p))
  /\ form_get (form req) "salary_month" = Some (prep_month_str p)
  /\ parse_year_month (prep_month_str p) = Some (prep_year p, prep_month p)
  /\ staff_get (prep_staff_pk p) db = Some (prep_staff p)
  /\ salary_record_first (Staff.id (prep_staff p)) (prep_month p)
                         (prep_year p) db = prep_existing p
  /\ deductions_read (form req) (prep_deductions p)
  /\ reimbursements_read (form req) (prep_reimbursements p).

(** How a request to [d_r_page] can end. *)
Inductive d_r_case (req : Request) (db : Database) (out : Outcome) : Prop :=
| dr_no_call :
    engine_calls out = [] ->
    statements out = [] ->
    database out = db ->
    d_r_case req db out
| dr_not_saved p e :
    prepares req db p ->
    engine_calls out = [prep_args p] ->
    statements out = [] ->
    database out = db ->
    response out = inr (DRPage (active_staff_by_name db)
                               (match calculate_salary_components (prep_args p)
                                with inr res => Some res | inl _ => None end)
                               (Some (prep_staff_pk p))
                               (Some (prep_month_str p))) ->
    flashes out = [{| msg := ErrorSavingSalary e; category := "error" |}] ->
    d_r_case req db out
| dr_deleted p res row old :
    prepares req db p ->
    engine_calls out = [prep_args p] ->
    calculate_salary_components (prep_args p) = inr res ->
    prep_existing p = Some (row, old) ->
    statements out = [DeleteSalaryRecord row] ->
    database out = apply_stmt db (DeleteSalaryRecord row) ->
    response out = inr (DRPage (active_staff_by_name db) (Some res)
                               (Some (prep_staff_pk p))
                               (Some (prep_month_str p))) ->
    flashes out = [{| msg := ErrorSavingSalary Py.DatabaseError;
                      category := "error" |}] ->
    d_r_case req db out
| dr_saved p res :
    prepares req db p ->
    engine_calls out = [prep_args p] ->
    calculate_salary_components (prep_args p) = inr res ->
    statements out
    = (prep_delete p ++ [InsertSalaryRecord (prep_record p res)])%list ->
    database out = fold_left apply_stmt (statements out) db ->
    response out = inr (DRPage (active_staff_by_name db) (Some res)
                               (Some (prep_staff_pk p))
                               (Some (prep_month_str p))) ->
    flashes out
    = [{| msg := SalarySaved (Staff.name (prep_staff p))
                             (Staff.staff_id (prep_staff p))
                             (prep_month_str p);
          category := "success" |}] ->
    d_r_case req db out.

(** *** The statements the handlers flush *)

(** A statement [lop_page] can flush on the database [db]. *)
Inductive lop_stmt (db : Database) : stmt -> Prop :=
| lop_update row v :
    lop_stmt db (UpdateLopDays row v)
| lop_insert s month year v :
    In s (staff db) ->
    salary_record_first (Staff.id s) month year db = None ->
    lop_stmt db (InsertSalaryRecord (new_lop_record s month year v)).

(** A statement [lop_page] can flush on the database [db] when it works on
    [month] and [year]: the record its query found is updated, or a record
    is added when the query found none. *)
Inductive lop_stmt_at (month year : Z) (db : Database) : stmt -> Prop :=
| lop_update_at s row old v :
    In s (staff db) ->
    salary_record_first (Staff.id s) month year db = Some (row, old) ->
    lop_stmt_at month year db (UpdateLopDays row v)
| lop_insert_at s v :
    In s (staff db) ->
    salary_record_first (Staff.id s) month year db = None ->
    lop_stmt_at month year db
                (InsertSalaryRecord (new_lop_record s month year v)).

(** A statement some handler can flush on the database [db]. *)
Inductive app_stmt (db : Database) : stmt -> Prop :=
| st_new_staff s :
    Staff.staff_id s = next_staff_id_of (last_staff db) ->
    app_stmt db (InsertStaff s)
| st_lop st :
    lop_stmt db st ->
    app_stmt db st
| st_delete row :
    app_stmt db (DeleteSalaryRecord row)
| st_save s month year lop_days d a res :
    In s (staff db) ->
    salary_record_first (Staff.id s) month year db = None ->
    Args.gross_salary a = gross_of s ->
    calculate_salary_components a = inr res ->
    app_stmt db (InsertSalaryRecord
                   (new_salary_record s month year lop_days d res))
| st_new_slab t :
    app_stmt db (InsertProfessionalTax t).

(** What a request leaves: the statements flushed, applied in order. *)
Definition flushed (P : Database -> stmt -> Prop) (db : Database)
           (out : Outcome) : Prop :=
  trace P db (statements out)
  /\ database out = fold_left apply_stmt (statements out) db.

(** Every salary record carries the gross pay of its staff member. *)
Definition gross_from_staff (db : Database) : Prop :=
  forall r, In r (salary_records db) ->
            exists s, In s (staff db)
                      /\ Staff.id s = SalaryRecord.staff_id r
                      /\ SalaryRecord.gross_salary r = gross_of s.

(** The engine returns the gross salary it was given. *)
Definition echoes_gross : Prop :=
  forall a res, calculate_salary_components a = inr res ->
                Components.gross_salary res = Args.gross_salary a.

(** *** The application *)

Inductive route := RNewStaff | RLop | RDeductions | RProfessionalTax.

Definition handler_of (r : route) : Request -> M Page :=
  match r with
  | RNewStaff => login_required new_staff
  | RLop => login_required lop_page
  | RDeductions => login_required d_r_page
  | RProfessionalTax => login_required professional_tax
  end.

Definition handle (r : route) (req : Request) (db : Database) : Outcome :=
  serve (handler_of r) req db.

(** The databases the application can reach from an empty one. *)
Inductive reachable : Database -> Prop :=
| reach_empty : reachable empty_db
| reach_step r req db :
    reachable db -> reachable (database (handle r req db)).

End Handlers.

(** ** The core contracts of the specification *)

Module Engine.

(** Python's [sum] over floats. *)
Definition sum (l : list Q) : Q := fold_left Qplus l 0%Q.

(** Round half to even, to an integer. *)
Definition round_half_even (x : Q) : Z :=
  let f := Qfloor x in
  match Qcompare (x - inject_Z f) (1 # 2) with
  | Lt => f
  | Gt => f + 1
  | Eq => if Z.even f then f else f + 1
  end.

(** The two-decimal rounding policy. *)
Definition round2 (x : Q) : Q :=
  (inject_Z (round_half_even (x * 100)) / 100)%Q.

Section Compute.
(** The statutory rates and the ESI ceiling are configuration; the base
    of EPF and ESI is the gross salary, less the LOP amount when
    [base_after_lop] is set. *)
Variables rate_epf rate_esi esi_ceiling : Q.
Variable base_after_lop : bool.

(** Modelled from the spec: [utils.calculate_salary_components], the
    salary computation engine of section 4.1, which [routes.py] imports
    and whose source is not part of the files at hand.  Inputs outside
    the stated bounds, and LOP days that are not a number, are rejected. *)
Definition compute (a : Args.t) : Py.exn + Components.t :=
  let gross := Args.gross_salary a in
  match Py.days_in_month (Args.year a) (Args.month a) with
  | None => inl Py.ValueError
  | Some days =>
      match Args.lop_days a with
      | None => inl Py.ValueError
      | Some lop_days =>
          if Qle_bool 0 gross && Qle_bool 0 lop_days
             && Qle_bool lop_days (inject_Z days) then
            let per_day_rate := (gross / inject_Z days)%Q in
            let lop_amount := round2 (per_day_rate * lop_days) in
            let base :=
              if base_after_lop then (gross - lop_amount)%Q else gross in
            let epf := (rate_epf * base)%Q in
            let esi :=
              if Qle_bool base esi_ceiling then (rate_esi * base)%Q
              else 0%Q in
            let total_deductions :=
              (lop_amount + epf + esi
               + Deductions.total (Args.deductions a))%Q in
            let total_reimbursements := sum (Args.reimbursements a) in
            inr {| Components.gross_salary := gross;
                   Components.lop_amount := lop_amount;
                   Components.epf := epf;
                   Components.esi := esi;
                   Components.total_deductions := total_deductions;
                   Components.total_reimbursements := total_reimbursements;
                   Components.net_salary :=
                     (gross - total_deductions + total_reimbursements)%Q |}
          else inl Py.ValueError
      end
  end.

(** The inputs section 4.1 calls valid. *)
Definition valid (a : Args.t) : Prop :=
  exists days lop_days,
    Py.days_in_month (Args.year a) (Args.month a) = Some days
    /\ Args.lop_days a = Some lop_days
    /\ (0 <= Args.gross_salary a)%Q
    /\ (0 <= lop_days)%Q
    /\ (lop_days <= inject_Z days)%Q.
End Compute.

Section Slabs.
(** The bound convention: is [range_to] itself inside the slab? *)
Variable upper_inclusive : bool.

Definition contains (s : ProfessionalTax.t) (amount : Q) : bool :=
  Qle_bool (ProfessionalTax.range_from s) amount
  && (if upper_inclusive
      then Qle_bool amount (ProfessionalTax.range_to s)
      else negb (Qle_bool (ProfessionalTax.range_to s) amount)).

(** The scan of section 4.2: the tax amount of the first slab that
    contains the amount, 0 when none does. *)
Fixpoint scan (amount : Q) (slabs : list ProfessionalTax.t) : Q :=
  match slabs with
  | [] => 0%Q
  | s :: rest =>
      if contains s amount then ProfessionalTax.tax_amount s
      else scan amount rest
  end.

(** Modelled from the spec: [find_slab], the professional-tax slab
    resolver of section 4.2; [routes.py] only builds the ordered slab
    list it scans.  A negative amount is invalid input and is rejected
    (sections 7 and 8: [find_slab(-5)] is rejected as invalid input). *)
Definition find_slab (amount : Q) (slabs : list ProfessionalTax.t)
  : Py.exn + Q :=
  if Qle_bool 0 amount then inr (scan amount slabs) else inl Py.ValueError.
End Slabs.

(** Slabs in ascending [range_from] order. *)
Definition ascending (slabs : list ProfessionalTax.t) : Prop :=
  StronglySorted
    (fun a b => (ProfessionalTax.range_from a
                 <= ProfessionalTax.range_from b)%Q)
    slabs.

(** The handlers' environment with the engine of the specification: the
    readers of strings are left open, [calculate_salary_components] is
    [compute]. *)
Definition runtime (read_int : string -> option Z)
           (read_float : string -> option Q)
           (read_date : string -> option datetime)
           (rate_epf rate_esi esi_ceiling : Q) (base_after_lop : bool)
  : Runtime :=
  {| py_int := read_int;
     py_float := read_float;
     py_strptime := read_date;
     calculate_salary_components :=
       compute rate_epf rate_esi esi_ceiling base_after_lop |}.

End Engine.

(** ** Decimal literals

    Concrete readers for the examples: [int] and [float] on plain decimal
    literals (an optional sign, digits, and for [float] an optional
    fractional part) and [strptime] on [YYYY-MM-DD].  Any other string
    raises. *)

Module Literal.

Definition digit (c : ascii) : option Z :=
  let n := Z.of_nat (nat_of_ascii c) in
  if (48 <=? n) && (n <=? 57) then Some (n - 48) else None.

(** Reads digits into [acc]; the second component counts them. *)
Fixpoint digits (acc : Z) (count : nat) (s : string) : option (Z * nat) :=
  match s with
  | EmptyString => Some (acc, count)
  | String c s' =>
      match digit c with
      | Some d => digits (10 * acc + d) (S count) s'
      | None => None
      end
  end.

Definition unsigned (s : string) : option Z :=
  match digits 0 O s with
  | Some (n, S _) => Some n
  | _ => None
  end.

Definition signed {A} (read : string -> option A) (neg : A -> A)
           (s : string) : option A :=
  match s with
  | String "-" s' => option_map neg (read s')
  | String "+" s' => read s'
  | _ => read s
  end.

Definition int (s : string) : option Z := signed unsigned Z.opp s.

Definition unsigned_float (s : string) : option Q :=
  match Py.split "." s with
  | [whole] => option_map inject_Z (unsigned whole)
  | [whole; frac] =>
      match unsigned whole, digits 0 O frac with
      | Some w, Some (f, S k) =>
          Some (inject_Z w + inject_Z f / inject_Z (10 ^ Z.of_nat (S k)))%Q
      | _, _ => None
      end
  | _ => None
  end.

Definition float (s : string) : option Q := signed unsigned_float Qopp s.

Definition strptime (s : string) : option datetime :=
  match map unsigned (Py.split "-" s) with
  | [Some y; Some m; Some d] =>
      if (1 <=? m) && (m <=? 12) && (1 <=? d) && (d <=? 31)
      then Some (y, m, d) else None
  | _ => None
  end.

End Literal.

(** ** The words of the statements *)

Section Statements.
Context {rt : Runtime}.

(** A submitted text is blank when it is empty or made of whitespace
    characters only. *)
Definition blank (x : string) : bool := forallb Py.is_space (Py.chars x).

(** The key of a salary record. *)
Definition key_of (r : SalaryRecord.t) : Z * Z * Z :=
  (SalaryRecord.staff_id r, SalaryRecord.month r, SalaryRecord.year r).

(** [r] is the row at position [row] of the salary records, and the first
    row with the key [k]. *)
Definition first_with_key (db : Database) (k : Z * Z * Z) (row : nat)
           (r : SalaryRecord.t) : Prop :=
  exists before after,
    salary_records db = (before ++ r :: after)%list
    /\ List.length before = row
    /\ key_of r = k
    /\ forall r', In r' before -> key_of r' <> k.

Definition no_record_with_key (db : Database) (k : Z * Z * Z) : Prop :=
  forall r, In r (salary_records db) -> key_of r <> k.

(** The LOP days stored for a key: the column of the first record with the
    key, and 0 when no record has the key. *)
Definition stored_lop_days (db : Database) (k : Z * Z * Z) (v : option Q)
  : Prop :=
  (exists row r, first_with_key db k row r /\ v = SalaryRecord.lop_days r)
  \/ (no_record_with_key db k /\ v = Some 0%Q).

(** Two rows that differ at most in their LOP days. *)
Definition same_but_lop_days (r' r : SalaryRecord.t) : Prop :=
  SalaryRecord.staff_id r' = SalaryRecord.staff_id r
  /\ SalaryRecord.month r' = SalaryRecord.month r
  /\ SalaryRecord.year r' = SalaryRecord.year r
  /\ SalaryRecord.gross_salary r' = SalaryRecord.gross_salary r
  /\ SalaryRecord.lop_amount r' = SalaryRecord.lop_amount r
  /\ SalaryRecord.epf r' = SalaryRecord.epf r
  /\ SalaryRecord.esi r' = SalaryRecord.esi r
  /\ SalaryRecord.it r' = SalaryRecord.it r
  /\ SalaryRecord.loan r' = SalaryRecord.loan r
  /\ SalaryRecord.advance r' = SalaryRecord.advance r
  /\ SalaryRecord.uniform r' = SalaryRecord.uniform r
  /\ SalaryRecord.cd r' = SalaryRecord.cd r
  /\ SalaryRecord.hostel r' = SalaryRecord.hostel r
  /\ SalaryRecord.misc r' = SalaryRecord.misc r
  /\ SalaryRecord.total_deductions r' = SalaryRecord.total_deductions r
  /\ SalaryRecord.total_reimbursements r'
     = SalaryRecord.total_reimbursements r
  /\ SalaryRecord.net_salary r' = SalaryRecord.net_salary r.

(** The staff row a request to [d_r_page] selects: the first row of the
    staff table whose primary key is the integer submitted as
    [employee_name]. *)
Definition selected_staff (req : Request) (db : Database) (s : Staff.t)
  : Prop :=
  exists staff_db_id before after,
    form_get (form req) "employee_name" = Some staff_db_id
    /\ py_int staff_db_id = Some (Staff.id s)
    /\ staff db = (before ++ s :: after)%list
    /\ forall s', In s' before -> Staff.id s' <> Staff.id s.

(** The month a request to [d_r_page] selects: [salary_month] holds one
    hyphen, the year is the integer before it and the month the integer
    after it. *)
Definition selected_period (req : Request) (year month : Z) : Prop :=
  exists before after,
    form_get (form req) "salary_month" = Some (before ++ "-" ++ after)
    /\ ~ In "-"%char (list_ascii_of_string before)
    /\ ~ In "-"%char (list_ascii_of_string after)
    /\ py_int before = Some year
    /\ py_int after = Some month.

(** What [lop_page] may write when it works on [month] and [year]: it sets
    the LOP days of the first record of a staff member's key, or it adds a
    record for a staff member's key that has none. *)
Inductive lop_write (month year : Z) (db : Database) : stmt -> Prop :=
| lop_sets s row old v :
    In s (staff db) ->
    first_with_key db (Staff.id s, month, year) row old ->
    lop_write month year db (UpdateLopDays row v)
| lop_adds s r :
    In s (staff db) ->
    no_record_with_key db (Staff.id s, month, year) ->
    key_of r = (Staff.id s, month, year) ->
    lop_write month year db (InsertSalaryRecord r).

(** What a save by [d_r_page] does to the salary records: the first record
    stored for the key of the new record [r], if there is one, is deleted,
    and [r] is added at the end. *)
Definition supersedes (db : Database) (out : Outcome) (r : SalaryRecord.t)
  : Prop :=
  (exists before old after,
      salary_records db = (before ++ old :: after)%list
      /\ key_of old = key_of r
      /\ (forall r', In r' before -> key_of r' <> key_of r)
      /\ statements out
         = [DeleteSalaryRecord (List.length before); InsertSalaryRecord r]
      /\ salary_records (database out) = (before ++ after ++ [r])%list)
  \/ (no_record_with_key db (key_of r)
      /\ statements out = [InsertSalaryRecord r]
      /\ salary_records (database out) = (salary_records db ++ [r])%list).

(** The record [r] holds what the engine returned as [res] for the
    arguments [a]: the amounts of [res], the deductions and the LOP days
    and period of [a]. *)
Definition holds_computation (r : SalaryRecord.t) (a : Args.t)
           (res : Components.t) : Prop :=
  SalaryRecord.month r = Args.month a
  /\ SalaryRecord.year r = Args.year a
  /\ SalaryRecord.lop_days r = Args.lop_days a
  /\ SalaryRecord.gross_salary r = Components.gross_salary res
  /\ SalaryRecord.lop_amount r = Some (Components.lop_amount res)
  /\ SalaryRecord.epf r = Some (Components.epf res)
  /\ SalaryRecord.esi r = Some (Components.esi res)
  /\ SalaryRecord.it r = Some (Deductions.it (Args.deductions a))
  /\ SalaryRecord.loan r = Some (Deductions.loan (Args.deductions a))
  /\ SalaryRecord.advance r = Some (Deductions.advance (Args.deductions a))
  /\ SalaryRecord.uniform r = Some (Deductions.uniform (Args.deductions a))
  /\ SalaryRecord.cd r = Some (Deductions.cd (Args.deductions a))
  /\ SalaryRecord.hostel r = Some (Deductions.hostel (Args.deductions a))
  /\ SalaryRecord.misc r = Some (Deductions.misc (Args.deductions a))
  /\ SalaryRecord.total_deductions r
     = Some (Components.total_deductions res)
  /\ SalaryRecord.total_reimbursements r
     = Some (Components.total_reimbursements res)
  /\ SalaryRecord.net_salary r = Some (Components.net_salary res).

End Statements.

(** ** The claims that do not hold as worded *)

Section Claims.
Context {rt : Runtime}.

(** No handler flushes an update of a stored salary record. *)
Definition never_updated_in_place : Prop :=
  forall r req db,
    reachable db ->
    forall row v, ~ In (UpdateLopDays row v) (statements (handle r req db)).

(** Every call to the engine has a non-negative gross salary and LOP days
    within the days of the month. *)
Definition engine_inputs_validated : Prop :=
  forall r req db a,
    reachable db ->
    In a (engine_calls (handle r req db)) ->
    (0 <= Args.gross_salary a)%Q
    /\ exists days lop_days,
        Py.days_in_month (Args.year a) (Args.month a) = Some days
        /\ Args.lop_days a = Some lop_days
        /\ (0 <= lop_days)%Q
        /\ (lop_days <= inject_Z days)%Q.

(** A negative net salary is saved as computed and the handler flashes
    something other than a success message. *)
Definition negative_net_flagged : Prop :=
  forall req db a res,
    reachable db ->
    In a (engine_calls (handle RDeductions req db)) ->
    calculate_salary_components a = inr res ->
    (Components.net_salary res < 0)%Q ->
    (forall r,
        In (InsertSalaryRecord r) (statements (handle RDeductions req db)) ->
        SalaryRecord.net_salary r = Some (Components.net_salary res))
    /\ exists f, In f (flashes (handle RDeductions req db))
                 /\ category f <> "success".

(** The seven deductions are 0 when their field is absent and no
    reimbursement field gives the empty list. *)
Definition zero_defaults (f : MultiDict) (a : Args.t) : Prop :=
  let d := Args.deductions a in
  (form_get f "income_tax" = None -> Deductions.it d = 0%Q)
  /\ (form_get f "loan" = None -> Deductions.loan d = 0%Q)
  /\ (form_get f "advance" = None -> Deductions.advance d = 0%Q)
  /\ (form_get f "uniform" = None -> Deductions.uniform d = 0%Q)
  /\ (form_get f "cd" = None -> Deductions.cd d = 0%Q)
  /\ (form_get f "hostel" = None -> Deductions.hostel d = 0%Q)
  /\ (form_get f "misc" = None -> Deductions.misc d = 0%Q)
  /\ (form_getlist f "reimbursement_amount[]" = [] ->
      Args.reimbursements a = []).

(** The zero defaults apply and nothing else is defaulted: the LOP days
    passed to the engine are those of a stored record. *)
Definition only_zero_defaults : Prop :=
  forall req db a,
    reachable db ->
    In a (engine_calls (handle RDeductions req db)) ->
    zero_defaults (form req) a
    /\ exists s row r,
        In s (staff db)
        /\ salary_record_first (Staff.id s) (Args.month a) (Args.year a) db
           = Some (row, r)
        /\ Args.lop_days a = SalaryRecord.lop_days r.
End Claims.

(** The resolver answers for every amount: the tax amount of the first
    containing slab of an ascending list, or 0 when no slab contains the
    amount. *)
Definition find_slab_answers_every_amount (upper_inclusive : bool) : Prop :=
  forall amount slabs,
    Engine.ascending slabs ->
    (exists before s after,
        slabs = (before ++ s :: after)%list
        /\ (forall s', In s' before ->
                       Engine.contains upper_inclusive s' amount = false)
        /\ Engine.contains upper_inclusive s amount = true
        /\ Engine.find_slab upper_inclusive amount slabs
           = inr (ProfessionalTax.tax_amount s))
    \/ ((forall s', In s' slabs ->
                    Engine.contains upper_inclusive s' amount = false)
        /\ Engine.find_slab upper_inclusive amount slabs = inr 0%Q).

(** ** Examples *)

Module Sample.

(** Sample configuration of the engine: EPF 12%, ESI 0.75% up to a base
    of 21000, both on the gross salary. *)
Definition engine : Args.t -> Py.exn + Components.t :=
  Engine.compute (12 # 100) (3 # 400) 21000 false.

Definition runtime : Runtime :=
  Engine.runtime Literal.int Literal.float Literal.strptime
                 (12 # 100) (3 # 400) 21000 false.

Definition admin : User :=
  {| is_authenticated := true; is_admin := true; is_hr := false;
     is_accounts := false |}.

Definition post (f : MultiDict) (commits : list bool) : Request :=
  {| method := POST; form := f; args := []; current_user := admin;
     today := (2024, 3, 1); commit_outcomes := commits |}.

Definition serve_on (r : route) (req : Request) (db : Database) : Outcome :=
  handle (rt := runtime) r req db.

Definition staff_form : MultiDict :=
  [("name", "Asha"); ("category", "Teaching"); ("department", "CS");
   ("designation", "Lecturer"); ("base_salary", "30000");
   ("allowances", ""); ("deductions", "900");
   ("date_joined", "2020-01-15"); ("bank_account", "001");
   ("aadhar", "1234"); ("active", "on")].

(** One staff member, no salary record. *)
Definition db_staff : Database :=
  database (serve_on RNewStaff (post staff_form []) empty_db).

Definition hd_default (db : Database) : Staff.t :=
  hd {| Staff.id := 0; Staff.staff_id := 0; Staff.name := "";
        Staff.category := ""; Staff.department := "";
        Staff.designation := ""; Staff.base_salary := 0;
        Staff.allowances := None; Staff.deductions := None;
        Staff.date_joined := (0, 0, 0); Staff.bank_account := "";
        Staff.aadhar := ""; Staff.pf_number := None;
        Staff.esi_number := None; Staff.active := false |}
     (staff db).

(** HR enters [days] LOP days for February 2024. *)
Definition lop_request (days : string) : Request :=
  post [("lop_month", "2024-02"); ("lop_1", days)] [].

Definition db_lop (days : string) : Database :=
  database (serve_on RLop (lop_request days) db_staff).

(** Accounts submit a loan deduction for February 2024. *)
Definition d_r_request (loan : string) (commits : list bool) : Request :=
  post [("employee_name", "1"); ("salary_month", "2024-02");
        ("loan", loan)] commits.

(** The breakdown saved over the LOP entry of two days. *)
Definition db_saved : Database :=
  database (serve_on RDeductions (d_r_request "500" []) (db_lop "2")).

(** What [d_r_page] passes to the engine for February 2024 when [lop_days]
    are stored and [loan] is submitted. *)
Definition args_for (lop_days loan : Q) : Args.t :=
  {| Args.gross_salary := 30000 + 0; Args.lop_days := Some lop_days;
     Args.deductions :=
       {| Deductions.it := 0; Deductions.loan := loan;
          Deductions.advance := 0; Deductions.uniform := 0;
          Deductions.cd := 0; Deductions.hostel := 0;
          Deductions.misc := 0 |};
     Args.reimbursements := [];
     Args.month := 2; Args.year := 2024 |}.

(** The record saved for February 2024 when [lop_days] are stored and
    [loan] is submitted, given the amounts expected of the engine. *)
Definition saved_record (lop_days loan lop_amount total_deductions
                         net_salary : Q) : SalaryRecord.t :=
  {| SalaryRecord.staff_id := 1;
     SalaryRecord.month := 2;
     SalaryRecord.year := 2024;
     SalaryRecord.gross_salary := 30000;
     SalaryRecord.lop_days := Some lop_days;
     SalaryRecord.lop_amount := Some lop_amount;
     SalaryRecord.epf := Some 3600.00%Q;
     SalaryRecord.esi := Some 0%Q;
     SalaryRecord.it := Some 0%Q;
     SalaryRecord.loan := Some loan;
     SalaryRecord.advance := Some 0%Q;
     SalaryRecord.uniform := Some 0%Q;
     SalaryRecord.cd := Some 0%Q;
     SalaryRecord.hostel := Some 0%Q;
     SalaryRecord.misc := Some 0%Q;
     SalaryRecord.total_deductions := Some total_deductions;
     SalaryRecord.total_reimbursements := Some 0%Q;
     SalaryRecord.net_salary := Some net_salary |}.

(** Two LOP days of February 2024 cost 30000 / 29 * 2, rounded to 2068.97;
    EPF is 3600 and the gross salary is above the ESI ceiling. *)
Definition first_record : SalaryRecord.t :=
  saved_record 2 500 2068.97 6168.9700 23831.0300.

Definition second_record : SalaryRecord.t :=
  saved_record 2 700 2068.97 6368.9700 23631.0300.

(** A loan larger than the pay: the net salary is negative. *)
Definition negative_record : SalaryRecord.t :=
  saved_record 0 50000 0.00 53600.0000 (-23600.0000).

Definition unchecked_args : Args.t := Eval vm_compute in args_for 45 500.

Definition defaulted_args : Args.t := Eval vm_compute in args_for 0 500.

Definition negative_args : Args.t := Eval vm_compute in args_for 0 50000.

(** The slabs of the specification's example. *)
Definition slabs : list ProfessionalTax.t :=
  [{| ProfessionalTax.range_from := 0; ProfessionalTax.range_to := 10000;
      ProfessionalTax.tax_amount := 0 |};
   {| ProfessionalTax.range_from := 10001; ProfessionalTax.range_to := 20000;
      ProfessionalTax.tax_amount := 150 |};
   {| ProfessionalTax.range_from := 20001;
      ProfessionalTax.range_to := 100000000;
      ProfessionalTax.tax_amount := 200 |}].

(** The scenario of the specification: 30000 gross, two LOP days in a
    thirty-day month, 500 income tax, one reimbursement of 200. *)
Definition scenario : Args.t :=
  {| Args.gross_salary := 30000; Args.lop_days := Some 2%Q;
     Args.deductions :=
       {| Deductions.it := 500; Deductions.loan := 0;
          Deductions.advance := 0; Deductions.uniform := 0;
          Deductions.cd := 0; Deductions.hostel := 0;
          Deductions.misc := 0 |};
     Args.reimbursements := [200%Q];
     Args.month := 4; Args.year := 2024 |}.

End Sample.

(** ** The read-only handlers *)

Section ReadHandlers.
Context {rt : Runtime}.

(** [@login_required] on a handler with any kind of response; [login] is the
    redirect to the login page. *)
Definition require_login {A} (login : A) (handler : Request -> M A)
           (req : Request) : M A :=
  if is_authenticated (current_user req) then handler req else ret login.

(** A request served by a handler of any kind of response: what it returns
    and the session it ends with. *)
Definition run_request {A} (handler : Request -> M A) (req : Request)
           (db : Database) : (Py.exn + A) * Session :=
  handler req (start_session req db).

(** [request.args.get(k, type=int)]: [None] when the key is absent or its
    value is not an integer. *)
Definition arg_int (a : MultiDict) (k : string) : option Z :=
  match form_get a k with
  | Some v => py_int v
  | None => None
  end.

(** Truth value of an optional [int]: [None] and [0] are false. *)
Definition truthy_int (o : option Z) : bool :=
  match o with
  | Some n => negb (n =? 0)
  | None => false
  end.

(** *** [api_get_lop] *)

(** [jsonify(...)] with its status code, or the redirect to the login
    page. *)
Inductive ApiResponse :=
| ApiLogin
| ApiError (error : string) (status : Z)
| ApiLop (lop_days : Q) (message : option string) (status : Z).

Definition api_get_lop (req : Request) : M ApiResponse :=
  let u := current_user req in
  if negb (is_accounts u || is_hr u || is_admin u) then
    ret (ApiError "Access denied" 403)
  else
    let staff_id := arg_int (args req) "staff_id" in
    let month := arg_int (args req) "month" in
    let year := arg_int (args req) "year" in
    match staff_id, month, year with
    | Some s, Some m, Some y =>
        if truthy_int staff_id && truthy_int month && truthy_int year then
          rec <- query (salary_record_first s m y) ;;
          ret (ApiLop match rec with
                      | Some (_, r) =>
                          match SalaryRecord.lop_days r with
                          | Some lop_days => lop_days
                          | None => 0%Q
                          end
                      | None => 0%Q
                      end
                      None 200)
        else ret (ApiLop 0 (Some "missing params") 200)
    | _, _, _ => ret (ApiLop 0 (Some "missing params") 200)
    end.

(** *** [salary_overview] *)

Inductive OverviewResponse :=
| OverviewRedirect (endpoint : string)
| OverviewPage (records : list (SalaryRecord.t * Z))
               (selected_month selected_year : option Z).

(** [SalaryRecord.query.join(Staff)]: a record once for each staff row whose
    primary key it references. *)
Definition joined_records (db : Database) : list SalaryRecord.t :=
  flat_map
    (fun r => map (fun _ => r)
                  (filter (fun s => Staff.id s =? SalaryRecord.staff_id r)
                          (staff db)))
    (salary_records db).

(** [query.filter(column == v)] applied only [if v:]. *)
Definition filter_if (column : SalaryRecord.t -> Z) (v : option Z)
           (l : list SalaryRecord.t) : list SalaryRecord.t :=
  if truthy_int v
  then filter (fun r => match v with
                        | Some n => column r =? n
                        | None => false
                        end) l
  else l.

(** The order of [order_by(SalaryRecord.year.desc(),
    SalaryRecord.month.desc())]: [a] comes no later than [b]. *)
Definition period_desc (a b : SalaryRecord.t) : bool :=
  (SalaryRecord.year b <? SalaryRecord.year a)
  || ((SalaryRecord.year b =? SalaryRecord.year a)
      && (SalaryRecord.month b <=? SalaryRecord.month a)).

Definition overview_records (month year : option Z) (db : Database)
  : list SalaryRecord.t :=
  order_by period_desc
           (filter_if SalaryRecord.year year
                      (filter_if SalaryRecord.month month
                                 (joined_records db))).

(** [r.days_in_month = calendar.monthrange(r.year, r.month)[1]] *)
Definition with_days_in_month (r : SalaryRecord.t) : M (SalaryRecord.t * Z) :=
  days <- value_error (Py.days_in_month (SalaryRecord.year r)
                                        (SalaryRecord.month r)) ;;
  ret (r, days).

Definition salary_overview (req : Request) : M OverviewResponse :=
  let u := current_user req in
  if negb (is_accounts u) && negb (is_admin u) then
    flash (AccessDenied "Accounts users only.") "error" ;;
    ret (OverviewRedirect "routes.dashboard")
  else
    let month := arg_int (args req) "month" in
    let year := arg_int (args req) "year" in
    records <- query (overview_records month year) ;;
    listed <- map_m with_days_in_month records ;;
    ret (OverviewPage listed month year).

(** *** [fixer] *)

(** What [fixer] flashes besides the access message. *)
Inductive fixer_flash :=
| FillRequiredFields
| IncrementApplied (increment_value : Q) (staff_id : string)
                   (effective_date : option string).

Inductive FixerResponse :=
| FixerRedirect (endpoint : string) (flashed : option fixer_flash)
| FixerPage (departments designations : list string)
            (staff_list : list Staff.t).

(** [db.session.query(column).distinct()]: each value once, in the order of
    first appearance. *)
Fixpoint distinct (l : list string) : list string :=
  match l with
  | [] => []
  | x :: l' =>
      x :: filter (fun y => negb (String.eqb x y)) (distinct l')
  end.

Definition fixer (req : Request) : M FixerResponse :=
  let u := current_user req in
  if negb (is_admin u) then
    flash (AccessDenied "Admins only.") "error" ;;
    ret (FixerRedirect "routes.dashboard" None)
  else
    departments <- query (fun db => distinct (map Staff.department (staff db))) ;;
    designations <-
      query (fun db => distinct (map Staff.designation (staff db))) ;;
    staff_list <-
      query (fun db =>
               order_by (fun a b => String.leb (Staff.name a) (Staff.name b))
                        (staff db)) ;;
    match method req with
    | POST =>
        let staff_id := form_get (form req) "staff_id" in
        increment_value <- float_field_or_zero (form req) "increment_value" ;;
        let effective_date := form_get (form req) "effective_date" in
        match staff_id with
        | Some sid =>
            if negb (Py.truthy sid) || Qle_bool increment_value 0 then
              ret (FixerRedirect "routes.fixer" (Some FillRequiredFields))
            else
              ret (FixerRedirect
                     "routes.fixer"
                     (Some (IncrementApplied increment_value sid
                                             effective_date)))
        | None => ret (FixerRedirect "routes.fixer" (Some FillRequiredFields))
        end
    | GET => ret (FixerPage departments designations staff_list)
    end.

(** *** What [lop_page] does, as functions of the database *)

(** The non-blank LOP value submitted for a staff member. *)
Definition lop_target (f : MultiDict) (x : Staff.t) : option string :=
  match form_get f ("lop_" ++ Py.str (Staff.id x)) with
  | Some lop_value =>
      if Py.truthy lop_value && negb (String.eqb (Py.strip lop_value) "")
      then Some lop_value else None
  | None => None
  end.

(** The statement that records [v] LOP days for a staff member. *)
Definition lop_effect (month year : Z) (x : Staff.t) (v : Q) (db : Database)
  : stmt :=
  match salary_record_first (Staff.id x) month year db with
  | Some (row, _) => UpdateLopDays row v
  | None => InsertSalaryRecord (new_lop_record x month year v)
  end.

(** The statements of the loop over the staff list; [None] when a submitted
    value is not a float. *)
Fixpoint lop_stmts (f : MultiDict) (month year : Z) (l : list Staff.t)
         (db : Database) : option (list stmt) :=
  match l with
  | [] => Some []
  | x :: l' =>
      match lop_target f x with
      | None => lop_stmts f month year l' db
      | Some lop_value =>
          match py_float lop_value with
          | None => None
          | Some v =>
              let st := lop_effect month year x v db in
              option_map (cons st)
                         (lop_stmts f month year l' (apply_stmt db st))
          end
      end
  end.

(** The month [lop_page] works on: (year, month, text); [None] when the
    submitted month does not read as two integers. *)
Definition lop_selection (req : Request) : option (Z * Z * string) :=
  let '(today_year, today_month, _) := today req in
  let default :=
    Some (today_year, today_month,
          Py.str today_year ++ "-" ++ Py.fmt_02d today_month) in
  match Py.or_else (form_get (form req) "lop_month")
                   (form_get (args req) "month") with
  | Some s =>
      if Py.truthy s then
        match parse_year_month s with
        | Some (y, m) => Some (y, m, s)
        | None => None
        end
      else default
  | None => default
  end.

(** The roles a route asks for. *)
Definition authorized (r : route) (u : User) : bool :=
  is_authenticated u
  && match r with
     | RNewStaff => is_admin u || is_accounts u
     | RLop => is_hr u || is_admin u
     | RDeductions => is_accounts u || is_admin u
     | RProfessionalTax => is_admin u || is_accounts u
     end.

(** [float(x or 0)] of an optional submitted string gives [v]. *)
Definition reads_or_zero (o : option string) (v : Q) : Prop :=
  match o with
  | Some x => if Py.truthy x then py_float x = Some v else v = 0%Q
  | None => v = 0%Q
  end.

(** The responses of the read-only handlers, behind [@login_required]. *)
Definition lop_api_response (req : Request) (db : Database)
  : Py.exn + ApiResponse :=
  fst (run_request (require_login ApiLogin api_get_lop) req db).

Definition overview_response (req : Request) (db : Database)
  : Py.exn + OverviewResponse :=
  fst (run_request
         (require_login (OverviewRedirect "routes.login") salary_overview)
         req db).

Definition fixer_response (req : Request) (db : Database)
  : Py.exn + FixerResponse :=
  fst (run_request
         (require_login (FixerRedirect "routes.login" None) fixer) req db).

(** Every salary record references a staff row. *)
Definition records_have_staff (db : Database) : Prop :=
  forall r, In r (salary_records db) ->
            exists s, In s (staff db) /\ Staff.id s = SalaryRecord.staff_id r.

End ReadHandlers.

(** ** More examples *)

Module Cases.

(** A logged-in user without any role. *)
Definition visitor : User :=
  {| is_authenticated := true; is_admin := false; is_hr := false;
     is_accounts := false |}.

Definition post_by (u : User) (f : MultiDict) : Request :=
  {| method := POST; form := f; args := []; current_user := u;
     today := (2024, 3, 1); commit_outcomes := [] |}.

Definition get_with (a : MultiDict) : Request :=
  {| method := GET; form := []; args := a; current_user := Sample.admin;
     today := (2024, 3, 1); commit_outcomes := [] |}.

(** The query of the front end for staff 1 in February 2024. *)
Definition lop_query : Request :=
  get_with [("staff_id", "1"); ("month", "2"); ("year", "2024")].

(** The staff form without its last required field. *)
Definition short_staff_form : MultiDict :=
  [("name", "Asha"); ("category", "Teaching"); ("department", "CS");
   ("designation", "Lecturer"); ("base_salary", "30000");
   ("date_joined", "2020-01-15"); ("bank_account", "001")].

(** The staff row the sample form stores. *)
Definition asha : Staff.t := Sample.hd_default Sample.db_staff.

Definition slab_form : MultiDict :=
  [("range_from", "10001"); ("range_to", "20000"); ("tax_amount", "150")].

(** U+00A0, the no-break space, as its two bytes. *)
Definition nbsp : string :=
  String (ascii_of_nat 194) (String (ascii_of_nat 160) "").

(** Accounts submit a loan and four reimbursement entries, three of them
    blank: empty, a no-break space and a space. *)
Definition reimbursed_request : Request :=
  Sample.post [("employee_name", "1"); ("salary_month", "2024-02");
               ("loan", "500");
               ("reimbursement_amount[]", "");
               ("reimbursement_amount[]", nbsp);
               ("reimbursement_amount[]", " ");
               ("reimbursement_amount[]", "200")] [].

(** What [d_r_page] then passes to the engine. *)
Definition reimbursed_args : Args.t :=
  {| Args.gross_salary := 30000; Args.lop_days := Some 0%Q;
     Args.deductions :=
       {| Deductions.it := 0; Deductions.loan := 500;
          Deductions.advance := 0; Deductions.uniform := 0;
          Deductions.cd := 0; Deductions.hostel := 0;
          Deductions.misc := 0 |};
     Args.reimbursements := [200%Q];
     Args.month := 2; Args.year := 2024 |}.

(** HR enters LOP days for a month that does not exist. *)
Definition db_month_13 : Database :=
  database (Sample.serve_on RLop
              (Sample.post [("lop_month", "2024-13"); ("lop_1", "2")] [])
              Sample.db_staff).

End Cases.

(** * Properties *)

(** ** Ordered queries *)

Section OrderByFacts.
Context {A : Type} (leb : A -> A -> bool).
Hypothesis leb_total : forall a b, leb a b = true \/ leb b a = true.
Hypothesis leb_trans :
  forall a b c, leb a b = true -> leb b c = true -> leb a c = true.

Let le (a b : A) : Prop := leb a b = true.

Lemma insert_sorted_perm (x : A) (l : list A) :
  Permutation (insert_sorted leb x l) (x :: l).
Proof.
  induction l as [|y l IH]; simpl.
  - apply Permutation_refl.
  - destruct (leb x y).
    + apply Permutation_refl.
    + eapply perm_trans; [apply perm_skip, IH | apply perm_swap].
Qed.

Lemma order_by_perm (l : list A) : Permutation (order_by leb l) l.
Proof.
  induction l as [|x l IH]; simpl.
  - apply perm_nil.
  - eapply perm_trans; [apply insert_sorted_perm | apply perm_skip, IH].
Qed.

Lemma order_by_In (l : list A) (x : A) : In x (order_by leb l) <-> In x l.
Proof.
  split; apply Permutation_in;
    [apply order_by_perm | apply Permutation_sym, order_by_perm].
Qed.

Lemma insert_sorted_sorted (x : A) (l : list A) :
  StronglySorted le l -> StronglySorted le (insert_sorted leb x l).
Proof.
  induction 1 as [|y l Hs IH Hall]; simpl.
  - constructor; [constructor | constructor].
  - destruct (leb x y) eqn:Hxy.
    + constructor; [constructor; assumption |].
      constructor; [exact Hxy |].
      rewrite Forall_forall in *. intros z Hz.
      eapply leb_trans; [exact Hxy | apply Hall, Hz].
    + constructor; [exact IH |].
      rewrite Forall_forall in *. intros z Hz.
      apply (Permutation_in _ (insert_sorted_perm x l)) in Hz.
      destruct Hz as [<- | Hz].
      * destruct (leb_total x y) as [H | H]; [congruence | exact H].
      * apply Hall, Hz.
Qed.

Lemma order_by_sorted (l : list A) : StronglySorted le (order_by leb l).
Proof.
  induction l as [|x l IH]; simpl.
  - constructor.
  - apply insert_sorted_sorted, IH.
Qed.

(** The first row of an ordered query is a least one. *)
Lemma order_by_first (l : list A) (x : A) :
  hd_error (order_by leb l) = Some x ->
  In x l /\ forall y, In y l -> leb x y = true.
Proof.
  intros Hhd.
  pose proof (order_by_sorted l) as Hs.
  pose proof (order_by_In l) as Hin.
  destruct (order_by leb l) as [|z rest]; [discriminate |].
  injection Hhd as ->.
  split; [apply Hin; left; reflexivity |].
  intros y Hy. apply Hin in Hy.
  inversion Hs as [|? ? _ Hall]; subst.
  destruct Hy as [<- | Hy].
  - destruct (leb_total x x); assumption.
  - rewrite Forall_forall in Hall. apply Hall, Hy.
Qed.

Lemma order_by_first_none (l : list A) :
  hd_error (order_by leb l) = None -> l = [].
Proof.
  intros Hhd.
  pose proof (order_by_perm l) as Hp.
  destruct (order_by leb l); [| discriminate].
  apply Permutation_nil in Hp. exact Hp.
Qed.
End OrderByFacts.

Lemma StronglySorted_weaken {A} (R1 R2 : A -> A -> Prop) (l : list A) :
  (forall a b, R1 a b -> R2 a b) ->
  StronglySorted R1 l -> StronglySorted R2 l.
Proof.
  intros Himp. induction 1 as [|x l Hs IH Hall]; constructor.
  - exact IH.
  - eapply Forall_impl; [| exact Hall]. intros b. apply Himp.
Qed.

(** ** The slab resolver *)

Lemma slabs_by_range_from_ascending (db : Database) :
  Engine.ascending (slabs_by_range_from db).
Proof.
  unfold Engine.ascending, slabs_by_range_from.
  eapply StronglySorted_weaken; [| apply order_by_sorted].
  - intros a b H. apply Qle_bool_iff, H.
  - intros a b.
    destruct (Qlt_le_dec (ProfessionalTax.range_from b)
                         (ProfessionalTax.range_from a)) as [H | H].
    + right. apply Qle_bool_iff, Qlt_le_weak, H.
    + left. apply Qle_bool_iff, H.
  - intros a b c H1 H2. apply Qle_bool_iff.
    apply Qle_bool_iff in H1, H2. eapply Qle_trans; eassumption.
Qed.

Lemma slabs_by_range_from_perm (db : Database) :
  Permutation (slabs_by_range_from db) (tax_slabs db).
Proof. apply order_by_perm. Qed.

(** The scan returns the tax amount of the first containing slab, which is
    a containing slab of least [range_from], or 0 when no slab contains the
    amount. *)
Lemma scan_first_match
      (upper_inclusive : bool) (amount : Q) (slabs : list ProfessionalTax.t) :
  Engine.ascending slabs ->
  (exists before s after,
      slabs = (before ++ s :: after)%list
      /\ (forall s', In s' before ->
                     Engine.contains upper_inclusive s' amount = false)
      /\ Engine.contains upper_inclusive s amount = true
      /\ Engine.scan upper_inclusive amount slabs
         = ProfessionalTax.tax_amount s
      /\ (forall s', In s' slabs ->
                     Engine.contains upper_inclusive s' amount = true ->
                     (ProfessionalTax.range_from s
                      <= ProfessionalTax.range_from s')%Q))
  \/ ((forall s', In s' slabs ->
                  Engine.contains upper_inclusive s' amount = false)
      /\ Engine.scan upper_inclusive amount slabs = 0%Q).
Proof.
  induction 1 as [|s rest Hs IH Hall]; simpl.
  - right. split; [intros s' [] | reflexivity].
  - destruct (Engine.contains upper_inclusive s amount) eqn:Hc.
    + left. exists [], s, rest. repeat split; try assumption.
      * intros s' [].
      * intros s' [<- | Hin] _; [apply Qle_refl |].
        rewrite Forall_forall in Hall. apply Hall, Hin.
    + destruct IH as [(before & s0 & after & -> & Hb & Hc0 & Hf & Hmin)
                     | [Hnone Hf]].
      * left. exists (s :: before), s0, after. repeat split; try assumption.
        -- intros s' [<- | Hin]; [exact Hc | apply Hb, Hin].
        -- intros s' [<- | Hin] Hc'; [congruence | apply Hmin; assumption].
      * right. split; [| exact Hf].
        intros s' [<- | Hin]; [exact Hc | apply Hnone, Hin].
Qed.

(** C7 (amended): for a non-negative amount and a slab list in ascending
    [range_from] order, [find_slab] returns the tax amount of the first
    slab of the list whose range contains the amount, which is a containing
    slab of least [range_from]; when no slab contains the amount it returns
    0.  A negative amount is rejected as invalid input.  This holds for
    either bound convention. *)
Theorem find_slab_first_match
        (upper_inclusive : bool) (amount : Q)
        (slabs : list ProfessionalTax.t) :
  Engine.ascending slabs ->
  ((amount < 0)%Q ->
   Engine.find_slab upper_inclusive amount slabs = inl Py.ValueError)
  /\ ((0 <= amount)%Q ->
      (exists before s after,
          slabs = (before ++ s :: after)%list
          /\ (forall s', In s' before ->
                         Engine.contains upper_inclusive s' amount = false)
          /\ Engine.contains upper_inclusive s amount = true
          /\ Engine.find_slab upper_inclusive amount slabs
             = inr (ProfessionalTax.tax_amount s)
          /\ (forall s', In s' slabs ->
                         Engine.contains upper_inclusive s' amount = true ->
                         (ProfessionalTax.range_from s
                          <= ProfessionalTax.range_from s')%Q))
      \/ ((forall s', In s' slabs ->
                      Engine.contains upper_inclusive s' amount = false)
          /\ Engine.find_slab upper_inclusive amount slabs = inr 0%Q)).
Proof.
  intros Hasc. unfold Engine.find_slab. split.
  - intros Hneg.
    destruct (Qle_bool 0 amount) eqn:Hle; [| reflexivity].
    apply Qle_bool_iff in Hle. exfalso.
    apply (Qlt_irrefl 0). eapply Qle_lt_trans; eassumption.
  - intros Hpos. apply Qle_bool_iff in Hpos. rewrite Hpos.
    destruct (scan_first_match upper_inclusive amount slabs Hasc)
      as [(before & s & after & Hsplit & Hb & Hc & Hf & Hmin) | [Hnone Hf]].
    + left. exists before, s, after. rewrite Hf. auto.
    + right. rewrite Hf. auto.
Qed.

(** ** Rows of a table *)

Section Rows.
Context {A : Type} (p : A -> bool).

Lemma find_row_none (l : list A) (i : nat) :
  find_row p i l = None -> filter p l = [].
Proof.
  revert i. induction l as [|x l IH]; intros i; simpl; [reflexivity |].
  destruct (p x); [discriminate | apply IH].
Qed.

Lemma find_row_some (l : list A) (i row : nat) (x : A) :
  find_row p i l = Some (row, x) ->
  (i <= row)%nat
  /\ nth_error l (row - i) = Some x
  /\ p x = true
  /\ filter p (remove_nth (row - i) l) = tl (filter p l).
Proof.
  revert i. induction l as [|y l IH]; intros i; simpl; [discriminate |].
  destruct (p y) eqn:Hy.
  - intros H. injection H as <- <-.
    rewrite Nat.sub_diag. simpl. auto.
  - intros H. destruct (IH _ H) as (Hle & Hnth & Hp & Hf).
    replace (row - i)%nat with (S (row - S i)) by lia.
    simpl. rewrite Hy. repeat split; try assumption. lia.
Qed.

Lemma filter_update_nth (f : A -> A) (n : nat) (l : list A) :
  (forall x, p (f x) = p x) ->
  List.length (filter p (update_nth n f l)) = List.length (filter p l).
Proof.
  intros Hf. revert n. induction l as [|x l IH]; intros [|n]; simpl;
    try reflexivity.
  - rewrite Hf. destruct (p x); reflexivity.
  - destruct (p x); simpl; rewrite IH; reflexivity.
Qed.
End Rows.

Lemma find_row_filter_nil {A} (p : A -> bool) (l : list A) (i : nat) :
  filter p l = [] -> find_row p i l = None.
Proof.
  revert i. induction l as [|x l IH]; intros i; simpl; [reflexivity |].
  destruct (p x); [discriminate | apply IH].
Qed.

Lemma filter_remove_nth_length {A} (p : A -> bool) (n : nat) (l : list A) :
  (List.length (filter p (remove_nth n l)) <= List.length (filter p l))%nat.
Proof.
  revert n. induction l as [|x l IH]; intros [|n]; simpl; try lia.
  - destruct (p x); simpl; lia.
  - specialize (IH n). destruct (p x); simpl; lia.
Qed.

Lemma StronglySorted_snoc {A} (R : A -> A -> Prop) (l : list A) (a : A) :
  StronglySorted R l -> Forall (fun x => R x a) l ->
  StronglySorted R (l ++ [a]).
Proof.
  induction 1 as [|x l Hs IH Hall]; intros Hlt; simpl.
  - constructor; constructor.
  - inversion Hlt; subst. constructor; [apply IH; assumption |].
    apply Forall_app. split; [assumption | constructor; [assumption | constructor]].
Qed.

Lemma In_remove_nth {A} (n : nat) (l : list A) (x : A) :
  In x (remove_nth n l) -> In x l.
Proof.
  revert n. induction l as [|y l IH]; intros [|n]; simpl; auto.
  intros [H | H]; [left; exact H | right; eapply IH, H].
Qed.

Lemma In_update_nth {A} (f : A -> A) (n : nat) (l : list A) (x : A) :
  In x (update_nth n f l) -> exists x0, In x0 l /\ (x = x0 \/ x = f x0).
Proof.
  revert n. induction l as [|y l IH]; intros [|n]; simpl; try tauto.
  - intros [H | H]; [exists y | exists x]; auto.
  - intros [H | H]; [exists y; auto |].
    destruct (IH _ H) as (x0 & Hin & Hx). exists x0; auto.
Qed.

Lemma nth_error_update_nth {A} (f : A -> A) (n k : nat) (l : list A) :
  nth_error (update_nth n f l) k
  = if Nat.eqb k n then option_map f (nth_error l k) else nth_error l k.
Proof.
  revert n k. induction l as [|y l IH]; intros [|n] [|k]; simpl;
    try reflexivity.
  - destruct (Nat.eqb k n); reflexivity.
  - apply IH.
Qed.

(** ** Traces of statements *)

Lemma staff_kept (db : Database) (st : stmt) (x : Staff.t) :
  In x (staff db) -> In x (staff (apply_stmt db st)).
Proof.
  destruct st; simpl; auto. intros H. apply in_or_app. left. exact H.
Qed.

Lemma staff_kept_fold (l : list stmt) (db : Database) (x : Staff.t) :
  In x (staff db) -> In x (staff (fold_left apply_stmt l db)).
Proof.
  revert db. induction l as [|st l IH]; intros db H; simpl;
    [exact H | apply IH, staff_kept, H].
Qed.

Lemma adds_pending_view (s s' : Session) (new : list stmt) :
  adds_pending s s' new -> view s' = fold_left apply_stmt new (view s).
Proof.
  intros (Hc & Hp & _). unfold view. rewrite Hc, Hp. apply fold_left_app.
Qed.

Lemma adds_pending_refl (s : Session) : adds_pending s s [].
Proof. unfold adds_pending. rewrite app_nil_r. auto. Qed.

Lemma adds_pending_trans (s1 s2 s3 : Session) (n1 n2 : list stmt) :
  adds_pending s1 s2 n1 -> adds_pending s2 s3 n2 ->
  adds_pending s1 s3 (n1 ++ n2).
Proof.
  unfold adds_pending. intros (A1 & A2 & A3 & A4 & A5) (B1 & B2 & B3 & B4 & B5).
  rewrite B1, B2, B3, B4, B5, A2, app_assoc. auto.
Qed.


Lemma trace_app (P : Database -> stmt -> Prop) (l1 l2 : list stmt) :
  forall db,
    trace P db l1 -> trace P (fold_left apply_stmt l1 db) l2 ->
    trace P db (l1 ++ l2).
Proof.
  induction l1 as [|st l1 IH]; intros db H1 H2; simpl in *.
  - exact H2.
  - inversion H1; subst. constructor; [assumption | apply IH; assumption].
Qed.

Lemma trace_preserves (P : Database -> stmt -> Prop) (Inv : Database -> Prop) :
  (forall db st, Inv db -> P db st -> Inv (apply_stmt db st)) ->
  forall l db, Inv db -> trace P db l -> Inv (fold_left apply_stmt l db).
Proof.
  intros Hstep. induction l as [|st l IH]; intros db Hinv Ht; simpl.
  - exact Hinv.
  - inversion Ht; subst. apply IH; [apply Hstep; assumption | assumption].
Qed.

Lemma trace_weaken (P Q : Database -> stmt -> Prop) :
  (forall db st, P db st -> Q db st) ->
  forall l db, trace P db l -> trace Q db l.
Proof.
  intros Himp. induction l as [|st l IH]; intros db Ht.
  - constructor.
  - inversion Ht; subst. constructor; [apply Himp; assumption | apply IH; assumption].
Qed.

(** ** Splitting a string *)

Lemma split_nonempty (sep : ascii) (s : string) : Py.split sep s <> [].
Proof.
  destruct s as [|c s]; cbn; [discriminate |].
  destruct (Ascii.eqb c sep); [discriminate |].
  destruct (Py.split sep s); discriminate.
Qed.

(** Joining the parts of a split with the separator gives the string back,
    and no part holds the separator. *)
Lemma split_join (sep : ascii) (s : string) :
  String.concat (String sep "") (Py.split sep s) = s
  /\ Forall (fun part => ~ In sep (list_ascii_of_string part))
            (Py.split sep s).
Proof.
  induction s as [|c s IH]; cbn [Py.split].
  - split; [reflexivity | constructor; [intros [] | constructor]].
  - destruct IH as [IHj IHp].
    destruct (Ascii.eqb c sep) eqn:Hc.
    + apply Ascii.eqb_eq in Hc. subst c. split.
      * pose proof (split_nonempty sep s) as Hne.
        cbn [String.concat].
        destruct (Py.split sep s) as [|w ws]; [congruence |].
        cbn. f_equal. exact IHj.
      * constructor; [intros [] | exact IHp].
    + apply Ascii.eqb_neq in Hc.
      pose proof (split_nonempty sep s) as Hne.
      destruct (Py.split sep s) as [|w ws]; [congruence |].
      pose proof (Forall_inv IHp) as Hw.
      pose proof (Forall_inv_tail IHp) as Hws. split.
      * rewrite <- IHj. destruct ws; reflexivity.
      * constructor; [| exact Hws].
        cbn. intros [H | H]; [congruence | exact (Hw H)].
Qed.

Lemma split_no_sep (sep : ascii) (s : string) :
  ~ In sep (list_ascii_of_string s) -> Py.split sep s = [s].
Proof.
  induction s as [|c s IH]; cbn; intros Hno; [reflexivity |].
  destruct (Ascii.eqb c sep) eqn:Hc.
  - apply Ascii.eqb_eq in Hc. exfalso. apply Hno. left. exact Hc.
  - rewrite IH; [reflexivity |]. intros H. apply Hno. right. exact H.
Qed.

Lemma split_at_sep (sep : ascii) (a b : string) :
  ~ In sep (list_ascii_of_string a) ->
  Py.split sep (a ++ String sep b) = a :: Py.split sep b.
Proof.
  induction a as [|c a IH]; cbn; intros Hno.
  - rewrite Ascii.eqb_refl. reflexivity.
  - destruct (Ascii.eqb c sep) eqn:Hc.
    + apply Ascii.eqb_eq in Hc. exfalso. apply Hno. left. exact Hc.
    + rewrite IH; [reflexivity |]. intros H. apply Hno. right. exact H.
Qed.

(** ** Stripping a string *)

Lemma chars_nonempty (s : string) :
  Forall (fun c => c <> ""%string) (Py.chars s).
Proof.
  induction s as [|c s IH]; cbn [Py.chars]; [constructor |].
  destruct (Py.chars s) as [|[|c' w] ws].
  - constructor; [discriminate | constructor].
  - constructor; [discriminate | exact IH].
  - destruct (Py.is_continuation c').
    + constructor; [discriminate | exact (Forall_inv_tail IH)].
    + constructor; [discriminate | exact IH].
Qed.

Lemma lstrip_all (l : list string) :
  forallb Py.is_space l = true -> Py.lstrip l = [].
Proof.
  induction l as [|c l IH]; cbn; [reflexivity |].
  destruct (Py.is_space c); [exact IH | discriminate].
Qed.

Lemma lstrip_some (l : list string) :
  forallb Py.is_space l = false ->
  exists c l', Py.lstrip l = c :: l' /\ Py.is_space c = false.
Proof.
  induction l as [|c l IH]; cbn; [discriminate |].
  destruct (Py.is_space c) eqn:Hc; [exact IH |].
  intros _. exists c, l. split; [reflexivity | exact Hc].
Qed.

Lemma lstrip_In (l : list string) (y : string) :
  In y (Py.lstrip l) -> In y l.
Proof.
  induction l as [|c l IH]; cbn; [tauto |].
  destruct (Py.is_space c); [right; apply IH; assumption | tauto].
Qed.

Lemma concat_nonempty (l : list string) :
  l <> [] -> Forall (fun c => c <> ""%string) l ->
  Py.truthy (String.concat "" l) = true.
Proof.
  destruct l as [|c l]; [congruence |].
  intros _ Hall. pose proof (Forall_inv Hall) as Hc.
  destruct c as [|a w]; [congruence |].
  cbn. destruct l; reflexivity.
Qed.

(** Stripping leaves nothing exactly when every character is a whitespace
    character. *)
Lemma strip_blank (x : string) :
  Py.truthy (Py.strip x) = negb (blank x).
Proof.
  unfold Py.strip, blank.
  destruct (forallb Py.is_space (Py.chars x)) eqn:E.
  - rewrite (lstrip_all (Py.chars x)) by exact E. reflexivity.
  - destruct (lstrip_some _ E) as (c & l' & El & Hc).
    destruct (lstrip_some (rev (Py.lstrip (Py.chars x))))
      as (c2 & l2 & El2 & Hc2).
    { rewrite El. cbn [rev]. rewrite forallb_app. cbn. rewrite Hc.
      apply andb_false_iff. right. reflexivity. }
    rewrite El2. cbn [negb]. apply concat_nonempty.
    + cbn [rev]. intros H. apply app_eq_nil in H as [_ H]. discriminate.
    + apply Forall_forall. intros y Hy.
      apply in_rev in Hy. rewrite <- El2 in Hy.
      apply lstrip_In, in_rev, lstrip_In in Hy.
      pose proof (chars_nonempty x) as Hne.
      rewrite Forall_forall in Hne. apply Hne, Hy.
Qed.

(** The two tests the handlers make on a submitted entry. *)
Lemma kept_iff_not_blank (x : string) :
  Py.truthy x && Py.truthy (Py.strip x) = negb (blank x).
Proof.
  rewrite strip_blank. destruct x; reflexivity.
Qed.

Lemma entered_iff_not_blank (x : string) :
  Py.truthy x && negb (String.eqb (Py.strip x) "") = negb (blank x).
Proof.
  rewrite <- kept_iff_not_blank. f_equal.
  destruct (Py.strip x); reflexivity.
Qed.

(** ** Keys and first rows *)

Lemma has_key_iff (s m y : Z) (r : SalaryRecord.t) :
  SalaryRecord.has_key s m y r = true <-> key_of r = (s, m, y).
Proof.
  unfold SalaryRecord.has_key, key_of.
  rewrite !andb_true_iff, !Z.eqb_eq. split.
  - intros [[-> ->] ->]. reflexivity.
  - intros H. injection H. auto.
Qed.

Lemma has_key_not (s m y : Z) (r : SalaryRecord.t) :
  SalaryRecord.has_key s m y r = false <-> key_of r <> (s, m, y).
Proof.
  rewrite <- has_key_iff.
  destruct (SalaryRecord.has_key s m y r); split; congruence.
Qed.

Lemma find_row_first {A} (p : A -> bool) (l : list A) :
  forall i row x,
    find_row p i l = Some (row, x) ->
    exists before after,
      l = (before ++ x :: after)%list
      /\ (i + List.length before)%nat = row
      /\ p x = true
      /\ forall y, In y before -> p y = false.
Proof.
  induction l as [|y l IH]; intros i row x; cbn; [discriminate |].
  destruct (p y) eqn:Hy.
  - intros H. injection H as <- <-. exists [], l. cbn.
    repeat split; [lia | exact Hy | intros z []].
  - intros H. destruct (IH _ _ _ H) as (b & a & -> & Hlen & Hp & Hb).
    exists (y :: b), a. cbn. repeat split; [lia | exact Hp |].
    intros z [<- | Hz]; [exact Hy | apply Hb, Hz].
Qed.

Lemma find_row_none_all {A} (p : A -> bool) (l : list A) (i : nat) :
  find_row p i l = None -> forall y, In y l -> p y = false.
Proof.
  revert i. induction l as [|x l IH]; intros i; cbn; [intros _ y [] |].
  destruct (p x) eqn:Hx; [discriminate |].
  intros H y [<- | Hy]; [exact Hx | eapply IH; eassumption].
Qed.

Lemma find_first {A} (p : A -> bool) (l : list A) (x : A) :
  find p l = Some x ->
  exists before after,
    l = (before ++ x :: after)%list
    /\ p x = true
    /\ forall y, In y before -> p y = false.
Proof.
  induction l as [|y l IH]; cbn; [discriminate |].
  destruct (p y) eqn:Hy.
  - intros H. injection H as <-. exists [], l.
    repeat split; [exact Hy | intros z []].
  - intros H. destruct (IH H) as (b & a & -> & Hp & Hb).
    exists (y :: b), a. repeat split; [exact Hp |].
    intros z [<- | Hz]; [exact Hy | apply Hb, Hz].
Qed.

Lemma remove_nth_middle {A} (before after : list A) (x : A) :
  remove_nth (List.length before) (before ++ x :: after)
  = (before ++ after)%list.
Proof.
  induction before as [|y before IH]; cbn; [reflexivity |].
  rewrite IH. reflexivity.
Qed.

Lemma filter_singleton {A} (p : A -> bool) (l : list A) (x : A) :
  filter p l = [x] ->
  exists before after,
    l = (before ++ x :: after)%list
    /\ forall y, In y (before ++ after) -> p y = false.
Proof.
  induction l as [|y l IH]; cbn; [discriminate |].
  destruct (p y) eqn:Hy.
  - intros H. injection H as -> Hnil. exists [], l. split; [reflexivity |].
    cbn. intros z Hz.
    destruct (p z) eqn:Hpz; [| reflexivity].
    assert (Hin : In z (filter p l)) by (apply filter_In; auto).
    rewrite Hnil in Hin. destruct Hin.
  - intros H. destruct (IH H) as (b & a & -> & Hrest).
    exists (y :: b), a. split; [reflexivity |].
    intros z [<- | Hz]; [exact Hy | apply Hrest, Hz].
Qed.

(** ** Invariants of the tables *)

Lemma next_pk_above (l : list Staff.t) (x : Staff.t) :
  In x l -> Staff.id x < next_pk l.
Proof.
  unfold next_pk. induction l as [|y l IH]; simpl; [tauto |].
  intros [<- | H]; [lia | specialize (IH H); lia].
Qed.

Lemma has_key_set_lop_days (s m y : Z) (v : Q) (r : SalaryRecord.t) :
  SalaryRecord.has_key s m y (SalaryRecord.set_lop_days v r)
  = SalaryRecord.has_key s m y r.
Proof. reflexivity. Qed.

Lemma has_key_true (s m y : Z) (r : SalaryRecord.t) :
  SalaryRecord.has_key s m y r = true ->
  SalaryRecord.staff_id r = s /\ SalaryRecord.month r = m
  /\ SalaryRecord.year r = y.
Proof.
  unfold SalaryRecord.has_key. intros H.
  apply andb_true_iff in H as [H Hy]. apply andb_true_iff in H as [Hs Hm].
  apply Z.eqb_eq in Hs, Hm, Hy. auto.
Qed.

(** Adding a row whose key is not in the table keeps keys unique. *)
Lemma unique_keys_insert (db : Database) (r : SalaryRecord.t) :
  unique_keys db ->
  find_row (SalaryRecord.has_key (SalaryRecord.staff_id r)
                                 (SalaryRecord.month r)
                                 (SalaryRecord.year r))
           O (salary_records db) = None ->
  unique_keys (apply_stmt db (InsertSalaryRecord r)).
Proof.
  intros Hu Hnone s m y. cbn [apply_stmt salary_records].
  rewrite filter_app, length_app. cbn [filter].
  destruct (SalaryRecord.has_key s m y r) eqn:Hk; cbn [List.length].
  - apply has_key_true in Hk as (<- & <- & <-).
    apply find_row_none in Hnone. rewrite Hnone. simpl. lia.
  - specialize (Hu s m y). lia.
Qed.

Section HandlerFacts.
Context {rt : Runtime}.


(** Readers do not touch the session. *)
Lemma float_field_run (f : MultiDict) (k : string) :
  exists r, (forall s, float_field f k s = (r, s))
            /\ forall v, r = inr v -> field_reads f k v.
Proof.
  unfold float_field, field_reads, value_error, ret, raise.
  destruct (form_get f k) as [x|].
  - destruct (py_float x) as [q|]; eexists; split; try reflexivity;
      intros v Hv; congruence.
  - eexists; split; [reflexivity |]. intros v Hv. congruence.
Qed.

Lemma read_deductions_run (f : MultiDict) :
  exists r, (forall s, read_deductions f s = (r, s))
            /\ forall d, r = inr d -> deductions_read f d.
Proof.
  unfold read_deductions, deductions_read, bind.
  destruct (float_field_run f "income_tax") as (r1 & E1 & H1).
  destruct (float_field_run f "loan") as (r2 & E2 & H2).
  destruct (float_field_run f "advance") as (r3 & E3 & H3).
  destruct (float_field_run f "uniform") as (r4 & E4 & H4).
  destruct (float_field_run f "cd") as (r5 & E5 & H5).
  destruct (float_field_run f "hostel") as (r6 & E6 & H6).
  destruct (float_field_run f "misc") as (r7 & E7 & H7).
  destruct r1 as [e|v1];
    [eexists; split; [intros s; rewrite E1; reflexivity | discriminate] |].
  destruct r2 as [e|v2];
    [eexists; split; [intros s; rewrite E1, E2; reflexivity | discriminate] |].
  destruct r3 as [e|v3];
    [eexists; split;
     [intros s; rewrite E1, E2, E3; reflexivity | discriminate] |].
  destruct r4 as [e|v4];
    [eexists; split;
     [intros s; rewrite E1, E2, E3, E4; reflexivity | discriminate] |].
  destruct r5 as [e|v5];
    [eexists; split;
     [intros s; rewrite E1, E2, E3, E4, E5; reflexivity | discriminate] |].
  destruct r6 as [e|v6];
    [eexists; split;
     [intros s; rewrite E1, E2, E3, E4, E5, E6; reflexivity
     | discriminate] |].
  destruct r7 as [e|v7];
    [eexists; split;
     [intros s; rewrite E1, E2, E3, E4, E5, E6, E7; reflexivity
     | discriminate] |].
  eexists; split;
    [intros s; rewrite E1, E2, E3, E4, E5, E6, E7; reflexivity |].
  intros d Hd. injection Hd as <-. cbn.
  repeat split; auto.
Qed.

Lemma map_float_run (l : list string) :
  forallb Py.truthy l = true ->
  exists r, (forall s, map_m float_or_zero l s = (r, s))
            /\ forall vs, r = inr vs ->
                          Forall2 (fun x v => py_float x = Some v) l vs.
Proof.
  induction l as [|x l IH]; cbn [map_m forallb]; intros Ht.
  - eexists; split; [reflexivity |]. intros vs Hvs. injection Hvs as <-.
    constructor.
  - apply andb_true_iff in Ht as [Hx Hl].
    destruct (IH Hl) as (r & Hr & Hspec).
    unfold bind at 1. unfold float_or_zero at 1. rewrite Hx.
    unfold value_error.
    destruct (py_float x) as [v|] eqn:Hv; cbn.
    + destruct r as [e|vs].
      * eexists; split;
          [intros s; unfold bind; rewrite Hr; reflexivity | discriminate].
      * eexists; split;
          [intros s; unfold bind; rewrite Hr; reflexivity |].
        intros vs' Hvs'. injection Hvs' as <-.
        constructor; [exact Hv | apply Hspec; reflexivity].
    + eexists; split; [reflexivity | discriminate].
Qed.

Lemma read_reimbursements_run (f : MultiDict) :
  exists r, (forall s, read_reimbursements f s = (r, s))
            /\ forall l, r = inr l -> reimbursements_read f l.
Proof.
  unfold read_reimbursements, reimbursements_read.
  apply map_float_run.
  apply forallb_forall. intros x Hx.
  apply filter_In in Hx as [_ Hx].
  apply andb_true_iff in Hx as [Hx _]. exact Hx.
Qed.

Ltac run :=
  cbv [bind ret raise lift value_error query execute commit rollback flash
       set_frame get_frame try_except call_engine view fold_left app with_pending
       start_session finish fst snd
       committed pending executed calls flashed frame outcomes
       response flashes database statements engine_calls
       result selected_staff_id selected_month empty_frame].

Lemma d_r_page_cases (req : Request) (db : Database) :
  d_r_case req db (serve d_r_page req db).
Proof.
  unfold serve, d_r_page.
  destruct (negb (is_accounts (current_user req))
            && negb (is_admin (current_user req))).
  { apply dr_no_call; reflexivity. }
  destruct (method req); [apply dr_no_call; reflexivity |].
  unfold d_r_post.
  destruct (form_get (form req) "employee_name") as [staff_db_id|] eqn:Hid;
    [| destruct (form_get (form req) "salary_month");
       apply dr_no_call; reflexivity].
  destruct (form_get (form req) "salary_month") as [month_str|] eqn:Hm;
    [| apply dr_no_call; reflexivity].
  destruct (Py.truthy staff_db_id && Py.truthy month_str);
    [| apply dr_no_call; reflexivity].
  run.
  destruct (parse_year_month month_str) as [[year month]|] eqn:Hym;
    [| apply dr_no_call; reflexivity].
  destruct (py_int staff_db_id) as [pk|] eqn:Hpk;
    [| apply dr_no_call; reflexivity].
  destruct (staff_get pk db) as [s|] eqn:Hs;
    [| apply dr_no_call; reflexivity].
  destruct (read_deductions_run (form req)) as (rd & Hrd & Hd).
  rewrite Hrd.
  destruct rd as [e|d]; [apply dr_no_call; reflexivity |].
  specialize (Hd d eq_refl).
  destruct (read_reimbursements_run (form req)) as (rr & Hrr & Hr).
  rewrite Hrr.
  destruct rr as [e|rb]; [apply dr_no_call; reflexivity |].
  specialize (Hr rb eq_refl).
  destruct (salary_record_first (Staff.id s) month year db)
    as [existing|] eqn:Hex.
  - pose (p := {| prep_staff := s; prep_staff_pk := pk;
                  prep_month_str := month_str; prep_month := month;
                  prep_year := year; prep_existing := Some existing;
                  prep_deductions := d; prep_reimbursements := rb |}).
    assert (Hp : prepares req db p).
    { unfold prepares; cbn.
      split; [exists staff_db_id; split; assumption |].
      repeat (split; [assumption |]). assumption. }
    destruct existing as [row old].
    match goal with
    | |- context [calculate_salary_components ?a] =>
        change a with (prep_args p)
    end.
    destruct (calculate_salary_components (prep_args p))
      as [e|res] eqn:Hc.
    { eapply dr_not_saved with (p := p) (e := e);
        [exact Hp | try rewrite Hc; reflexivity ..]. }
    destruct (commit_outcomes req) as [|[|] o]; run.
    + eapply dr_saved with (p := p) (res := res);
        [exact Hp | exact Hc || reflexivity ..].
    + destruct o as [|[|] o']; run.
      * eapply dr_saved with (p := p) (res := res);
          [exact Hp | exact Hc || reflexivity ..].
      * eapply dr_saved with (p := p) (res := res);
          [exact Hp | exact Hc || reflexivity ..].
      * eapply dr_deleted with (p := p) (res := res);
          [exact Hp | exact Hc || reflexivity ..].
    + eapply dr_not_saved with (p := p) (e := Py.DatabaseError);
        [exact Hp | try rewrite Hc; reflexivity ..].
  - pose (p := {| prep_staff := s; prep_staff_pk := pk;
                  prep_month_str := month_str; prep_month := month;
                  prep_year := year; prep_existing := None;
                  prep_deductions := d; prep_reimbursements := rb |}).
    assert (Hp : prepares req db p).
    { unfold prepares; cbn.
      split; [exists staff_db_id; split; assumption |].
      repeat (split; [assumption |]). assumption. }
    match goal with
    | |- context [calculate_salary_components ?a] =>
        change a with (prep_args p)
    end.
    destruct (calculate_salary_components (prep_args p))
      as [e|res] eqn:Hc.
    { eapply dr_not_saved with (p := p) (e := e);
        [exact Hp | try rewrite Hc; reflexivity ..]. }
    destruct (commit_outcomes req) as [|[|] o]; run.
    + eapply dr_saved with (p := p) (res := res);
        [exact Hp | exact Hc || reflexivity ..].
    + eapply dr_saved with (p := p) (res := res);
        [exact Hp | exact Hc || reflexivity ..].
    + eapply dr_not_saved with (p := p) (e := Py.DatabaseError);
        [exact Hp | try rewrite Hc; reflexivity ..].
Qed.


Lemma lop_entry_run (f : MultiDict) (month year : Z) (x : Staff.t)
      (s : Session) :
  In x (staff (view s)) ->
  exists new,
    adds_pending s (snd (lop_entry f month year x s)) new
    /\ trace (lop_stmt_at month year) (view s) new.
Proof.
  intros Hin. unfold lop_entry.
  destruct (form_get f _) as [lop_value|];
    [| exists []; split; [apply adds_pending_refl | constructor]].
  destruct (Py.truthy lop_value && _);
    [| exists []; split; [apply adds_pending_refl | constructor]].
  unfold bind, value_error.
  destruct (py_float lop_value) as [v|]; cbn;
    [| exists []; split; [apply adds_pending_refl | constructor]].
  destruct (salary_record_first (Staff.id x) month year (view s))
    as [[row old]|] eqn:Hex; cbn.
  - exists [UpdateLopDays row v]. split.
    + unfold adds_pending; cbn; auto.
    + constructor; [eapply lop_update_at; eassumption | constructor].
  - exists [InsertSalaryRecord (new_lop_record x month year v)]. split.
    + unfold adds_pending; cbn; auto.
    + constructor; [apply lop_insert_at; assumption | constructor].
Qed.

Lemma lop_loop_run (f : MultiDict) (month year : Z) (l : list Staff.t) :
  forall s,
    (forall x, In x l -> In x (staff (view s))) ->
    exists new,
      adds_pending s (snd (for_each (lop_entry f month year) l s)) new
      /\ trace (lop_stmt_at month year) (view s) new.
Proof.
  induction l as [|x l IH]; intros s Hin; cbn [for_each].
  - exists []. split; [apply adds_pending_refl | constructor].
  - destruct (lop_entry_run f month year x s (Hin x (or_introl eq_refl)))
      as (n1 & Ha1 & Ht1).
    unfold bind.
    destruct (lop_entry f month year x s) as [[e|[]] s1];
      cbn [snd] in *.
    + exists n1. split; assumption.
    + pose proof (adds_pending_view _ _ _ Ha1) as Hv.
      destruct (IH s1) as (n2 & Ha2 & Ht2).
      { intros y Hy. rewrite Hv. apply staff_kept_fold, Hin. right. exact Hy. }
      exists (n1 ++ n2)%list. split.
      * eapply adds_pending_trans; eassumption.
      * apply trace_app; [exact Ht1 |]. rewrite <- Hv. exact Ht2.
Qed.

Lemma active_staff_In (db : Database) (x : Staff.t) :
  In x (active_staff_by_name db) -> In x (staff db).
Proof.
  unfold active_staff_by_name. intros H.
  apply (Permutation_in _ (order_by_perm _ _)) in H.
  apply filter_In in H. tauto.
Qed.

(** What [lop_page] flushes, for the month it works on. *)
Lemma lop_page_flushed_at (req : Request) (db : Database) :
  exists year month,
    flushed (lop_stmt_at month year) db (serve lop_page req db)
    /\ engine_calls (serve lop_page req db) = [].
Proof.
  unfold serve, lop_page, flushed.
  destruct (negb (is_hr (current_user req))
            && negb (is_admin (current_user req))).
  { exists 0, 0. repeat split; constructor. }
  destruct (today req) as [[today_year today_month] today_day].
  assert (Hbody : forall year month str,
    let out := finish
      ((match method req with
        | POST =>
            try_except
              (for_each (lop_entry (form req) month year)
                        (active_staff_by_name db) ;;
               commit ;;
               flash (LopUpdated str) "success")
              (fun e => rollback ;; flash (ErrorUpdatingLop e) "error")
        | GET => ret tt
        end ;;
        ret (LopPage (active_staff_by_name db) str year month))
         (start_session req db)) in
    (trace (lop_stmt_at month year) db (statements out)
     /\ database out = fold_left apply_stmt (statements out) db)
    /\ engine_calls out = []).
  { intros year month str.
    destruct (method req); [repeat split; constructor |].
    destruct (lop_loop_run (form req) month year (active_staff_by_name db)
                           (start_session req db))
      as (new & (Hc & Hp & He & Hcl & Ho) & Ht).
    { intros x Hx. apply active_staff_In, Hx. }
    cbn in Hc, Hp, He, Hcl, Ho, Ht.
    cbv [bind try_except].
    destruct (for_each (lop_entry (form req) month year)
                       (active_staff_by_name db) (start_session req db))
      as [[e|[]] s1]; cbn [snd] in *.
    - cbn. rewrite Hc, He, Hcl. repeat split; constructor.
    - unfold commit, view. rewrite Ho, Hc, Hp, He, Hcl.
      destruct (commit_outcomes req) as [|[|] o]; cbn;
        repeat split; try assumption; constructor. }
  cbv [bind ret value_error raise].
  destruct (Py.or_else _ _) as [sel|];
    [| exists today_year, today_month; apply Hbody].
  destruct (Py.truthy sel);
    [| exists today_year, today_month; apply Hbody].
  destruct (parse_year_month sel) as [[y m]|];
    [exists y, m; apply Hbody |].
  exists 0, 0. repeat split; constructor.
Qed.

Lemma lop_stmt_at_stmt (month year : Z) (db : Database) (st : stmt) :
  lop_stmt_at month year db st -> lop_stmt db st.
Proof.
  intros [s row old v Hin Hex | s v Hin Hnone];
    [apply lop_update | apply lop_insert; assumption].
Qed.

Lemma lop_page_flushed (req : Request) (db : Database) :
  flushed lop_stmt db (serve lop_page req db)
  /\ engine_calls (serve lop_page req db) = [].
Proof.
  destruct (lop_page_flushed_at req db) as (year & month & [Ht Hdb] & Hc).
  split; [split; [| exact Hdb] | exact Hc].
  eapply trace_weaken; [| exact Ht].
  intros db0 st. apply lop_stmt_at_stmt.
Qed.



Ltac run_all :=
  cbv [bind ret raise lift value_error query execute commit rollback flash
       set_frame get_frame try_except view fold_left app with_pending
       start_session finish fst snd form_index
       float_or_zero float_field_or_zero
       committed pending executed calls flashed frame outcomes
       response flashes database statements engine_calls].

Ltac split_match :=
  match goal with
  | |- context [match ?x with _ => _ end] =>
      lazymatch x with
      | context [match _ with _ => _ end] => fail
      | _ => destruct x
      end
  end.

Ltac quiet_leaf :=
  repeat split;
  first [ reflexivity | apply trace_nil | left; reflexivity ].

Lemma new_staff_flushed (req : Request) (db : Database) :
  flushed app_stmt db (serve new_staff req db)
  /\ engine_calls (serve new_staff req db) = []
  /\ (statements (serve new_staff req db) = []
      \/ exists s,
          statements (serve new_staff req db) = [InsertStaff s]
          /\ Staff.staff_id s = next_staff_id_of (last_staff db)).
Proof.
  unfold serve, new_staff, flushed.
  destruct (negb (is_admin (current_user req))
            && negb (is_accounts (current_user req)));
    [run_all; quiet_leaf |].
  destruct (method req); run_all; [quiet_leaf |].
  repeat (split_match; run_all);
    first [ quiet_leaf
          | repeat split;
            first [ reflexivity
                  | apply trace_cons;
                    [apply st_new_staff; reflexivity | apply trace_nil]
                  | right; eexists; split; reflexivity ] ].
Qed.

Lemma professional_tax_flushed (req : Request) (db : Database) :
  flushed app_stmt db (serve professional_tax req db)
  /\ engine_calls (serve professional_tax req db) = []
  /\ salary_records (database (serve professional_tax req db))
     = salary_records db.
Proof.
  unfold serve, professional_tax, flushed.
  destruct (negb (is_admin (current_user req))
            && negb (is_accounts (current_user req)));
    [run_all; quiet_leaf |].
  destruct (method req); run_all; [quiet_leaf |].
  repeat (split_match; run_all);
    first [ quiet_leaf
          | repeat split;
            first [ reflexivity
                  | apply trace_cons;
                    [apply st_new_slab | apply trace_nil] ] ].
Qed.


Lemma staff_get_In (pk : Z) (db : Database) (x : Staff.t) :
  staff_get pk db = Some x -> In x (staff db) /\ Staff.id x = pk.
Proof.
  unfold staff_get. intros H. apply find_some in H as [Hin Hid].
  split; [exact Hin | apply Z.eqb_eq, Hid].
Qed.

Lemma salary_record_first_some (s m y : Z) (db : Database) (row : nat)
      (r : SalaryRecord.t) :
  salary_record_first s m y db = Some (row, r) ->
  first_with_key db (s, m, y) row r.
Proof.
  unfold salary_record_first, first_with_key. intros H.
  apply find_row_first in H as (before & after & Hl & Hlen & Hp & Hb).
  exists before, after. repeat split; try assumption.
  - apply has_key_iff, Hp.
  - intros r' Hr'. apply has_key_not, Hb, Hr'.
Qed.

Lemma salary_record_first_none (s m y : Z) (db : Database) :
  salary_record_first s m y db = None -> no_record_with_key db (s, m, y).
Proof.
  unfold salary_record_first, no_record_with_key. intros H r Hr.
  apply has_key_not. eapply find_row_none_all; eassumption.
Qed.

Lemma staff_get_first (pk : Z) (db : Database) (x : Staff.t) :
  staff_get pk db = Some x ->
  Staff.id x = pk
  /\ exists before after,
      staff db = (before ++ x :: after)%list
      /\ forall s', In s' before -> Staff.id s' <> Staff.id x.
Proof.
  unfold staff_get. intros H.
  apply find_first in H as (before & after & Hl & Hp & Hb).
  apply Z.eqb_eq in Hp. split; [exact Hp |].
  exists before, after. split; [exact Hl |].
  intros s' Hs'. rewrite Hp. apply Z.eqb_neq, Hb, Hs'.
Qed.

Lemma gross_of_value (s : Staff.t) :
  (gross_of s
   == Staff.base_salary s
      + match Staff.allowances s with Some a => a | None => 0 end)%Q.
Proof.
  unfold gross_of, Py.or_zero.
  destruct (Staff.allowances s) as [a|]; [| reflexivity].
  destruct (Qeq_bool a 0) eqn:E; [| reflexivity].
  apply Qeq_bool_iff in E. rewrite E. reflexivity.
Qed.

(** A month is read from exactly two integer parts around one hyphen. *)
Lemma parse_year_month_sound (s : string) (year month : Z) :
  parse_year_month s = Some (year, month) ->
  exists before after,
    s = before ++ "-" ++ after
    /\ ~ In "-"%char (list_ascii_of_string before)
    /\ ~ In "-"%char (list_ascii_of_string after)
    /\ py_int before = Some year
    /\ py_int after = Some month.
Proof.
  unfold parse_year_month. intros Hparse.
  destruct (split_join "-" s) as [Hjoin Hparts].
  destruct (Py.split "-" s) as [|a [|b [|c rest]]];
    cbn [map] in Hparse; try discriminate.
  - destruct (py_int a); discriminate.
  - destruct (py_int a) as [y|] eqn:Ha; [| discriminate].
    destruct (py_int b) as [m|] eqn:Hb; [| discriminate].
    injection Hparse as <- <-.
    pose proof (Forall_inv Hparts) as Hna.
    pose proof (Forall_inv (Forall_inv_tail Hparts)) as Hnb.
    exists a, b. cbn [String.concat] in Hjoin.
    repeat split; try assumption. symmetry. exact Hjoin.
  - destruct (py_int a); [| discriminate].
    destruct (py_int b); [| discriminate].
    destruct (py_int c); discriminate.
Qed.

(** Any two integers are accepted: neither part is checked against a
    range. *)
Lemma parse_year_month_complete (before after : string) (year month : Z) :
  ~ In "-"%char (list_ascii_of_string before) ->
  ~ In "-"%char (list_ascii_of_string after) ->
  py_int before = Some year ->
  py_int after = Some month ->
  parse_year_month (before ++ "-" ++ after) = Some (year, month).
Proof.
  intros Hnb Hna Hy Hm. unfold parse_year_month.
  change (before ++ "-" ++ after) with (before ++ String "-" after).
  rewrite split_at_sep by exact Hnb.
  rewrite split_no_sep by exact Hna.
  cbn [map]. rewrite Hy, Hm. reflexivity.
Qed.

(** What [d_r_page] gathered, in the words of the statements. *)
Lemma prepares_selected (req : Request) (db : Database) (p : Prepared) :
  prepares req db p ->
  selected_staff req db (prep_staff p)
  /\ selected_period req (prep_year p) (prep_month p)
  /\ stored_lop_days db (Staff.id (prep_staff p), prep_month p, prep_year p)
                     (prep_lop_days p).
Proof.
  intros ((sid & Hsid & Hpk) & Hm & Hym & Hs & Hex & _).
  apply staff_get_first in Hs as (Hid & before & after & Hl & Hb).
  split; [| split].
  - exists sid, before, after. rewrite <- Hid in Hpk.
    repeat (split; [assumption |]). assumption.
  - apply parse_year_month_sound in Hym
      as (b & a & Hstr & Hnb & Hna & Hy & Hmo).
    exists b, a. rewrite Hm, Hstr.
    repeat (split; [assumption || reflexivity |]). assumption.
  - unfold stored_lop_days, prep_lop_days. rewrite <- Hex.
    destruct (salary_record_first _ _ _ db) as [[row r]|] eqn:Hfirst.
    + left. exists row, r. split; [| reflexivity].
      apply salary_record_first_some, Hfirst.
    + right. split; [| reflexivity].
      apply salary_record_first_none, Hfirst.
Qed.

Lemma d_r_page_flushed (req : Request) (db : Database) :
  unique_keys db -> flushed app_stmt db (serve d_r_page req db).
Proof.
  intros Huniq. unfold flushed.
  destruct (d_r_page_cases req db)
    as [Hc Hst Hdb
       | p e Hp Hc Hst Hdb _ _
       | p res row old Hp Hc Hres Hex Hst Hdb _ _
       | p res Hp Hc Hres Hst Hdb _ _].
  - rewrite Hst, Hdb. split; [constructor | reflexivity].
  - rewrite Hst, Hdb. split; [constructor | reflexivity].
  - rewrite Hst, Hdb. split; [| reflexivity].
    constructor; [apply st_delete | constructor].
  - split; [| exact Hdb]. rewrite Hst.
    destruct Hp as (_ & _ & _ & Hs & Hex & _).
    apply staff_get_In in Hs as [Hin _].
    unfold prep_delete, prep_record, prep_lop_days.
    destruct (prep_existing p) as [[row old]|]; cbn [app].
    + constructor; [apply st_delete |].
      constructor; [| constructor].
      eapply st_save with (a := prep_args p);
        [exact Hin | | reflexivity | exact Hres].
      unfold salary_record_first in *. cbn [apply_stmt salary_records].
      apply find_row_filter_nil.
      apply find_row_some in Hex as (_ & _ & _ & Hf).
      rewrite Nat.sub_0_r in Hf. rewrite Hf.
      specialize (Huniq (Staff.id (prep_staff p)) (prep_month p)
                        (prep_year p)).
      destruct (filter _ (salary_records db)) as [|r0 [|r1 rest]];
        [reflexivity | reflexivity | simpl in Huniq; lia].
    + constructor; [| constructor].
      eapply st_save with (a := prep_args p);
        [exact Hin | exact Hex | reflexivity | exact Hres].
Qed.


Lemma handle_flushed (r : route) (req : Request) (db : Database) :
  unique_keys db -> flushed app_stmt db (handle r req db).
Proof.
  intros Huniq. unfold handle, handler_of, login_required.
  destruct (is_authenticated (current_user req)) eqn:Hauth.
  - destruct r; unfold serve; rewrite Hauth.
    + apply new_staff_flushed.
    + destruct (lop_page_flushed req db) as [[Ht Hdb] _].
      split; [| exact Hdb].
      eapply trace_weaken; [| exact Ht]. intros db0 st. apply st_lop.
    + apply d_r_page_flushed, Huniq.
    + apply professional_tax_flushed.
  - destruct r; unfold serve; rewrite Hauth;
      (split; [constructor | reflexivity]).
Qed.


Lemma app_stmt_unique_keys (db : Database) (st : stmt) :
  unique_keys db -> app_stmt db st -> unique_keys (apply_stmt db st).
Proof.
  intros Hu Hst. destruct Hst as [| st [|] | | |].
  - exact Hu.
  - intros s m y. cbn [apply_stmt salary_records].
    rewrite filter_update_nth; [apply Hu | reflexivity].
  - apply unique_keys_insert; assumption.
  - intros s m y. cbn [apply_stmt salary_records].
    eapply Nat.le_trans; [apply filter_remove_nth_length | apply Hu].
  - apply unique_keys_insert; assumption.
  - exact Hu.
Qed.

Lemma app_stmt_staff_pks (db : Database) (st : stmt) :
  staff_pks_distinct db -> app_stmt db st ->
  staff_pks_distinct (apply_stmt db st).
Proof.
  unfold staff_pks_distinct. intros Hn Hst.
  destruct Hst as [| st [|] | | |]; cbn [apply_stmt staff]; try exact Hn.
  rewrite map_app. cbn [map Staff.with_id Staff.id].
  apply NoDup_app; [exact Hn | constructor; [intros [] | constructor] |].
  intros i Hi [<- | []].
  apply in_map_iff in Hi as (x & Hx & Hin).
  apply next_pk_above in Hin. lia.
Qed.

Lemma last_staff_greatest (db : Database) (x : Staff.t) :
  In x (staff db) -> Staff.staff_id x < next_staff_id_of (last_staff db).
Proof.
  intros Hin. unfold last_staff, next_staff_id_of.
  destruct (hd_error _) as [m|] eqn:Hhd.
  - apply order_by_first in Hhd as [_ Hmax].
    + specialize (Hmax x Hin). apply Z.leb_le in Hmax. lia.
    + intros a b. rewrite !Z.leb_le. lia.
    + intros a b c. rewrite !Z.leb_le. lia.
  - apply order_by_first_none in Hhd. rewrite Hhd in Hin. destruct Hin.
Qed.

Lemma app_stmt_staff_ids (db : Database) (st : stmt) :
  staff_ids_increasing db -> app_stmt db st ->
  staff_ids_increasing (apply_stmt db st).
Proof.
  unfold staff_ids_increasing. intros Hs Hst.
  destruct Hst as [s Hid| st [|] | | |]; cbn [apply_stmt staff];
    try exact Hs.
  rewrite map_app. cbn [map Staff.with_id Staff.staff_id].
  apply StronglySorted_snoc; [exact Hs |].
  apply Forall_forall. intros i Hi.
  apply in_map_iff in Hi as (x & <- & Hin).
  rewrite Hid. apply last_staff_greatest, Hin.
Qed.

Lemma app_stmt_gross (db : Database) (st : stmt) :
  echoes_gross ->
  gross_from_staff db -> app_stmt db st ->
  gross_from_staff (apply_stmt db st).
Proof.
  intros Hecho Hg Hst r Hr.
  destruct Hst as [s Hid| st [row v | s month year v Hin Hnone] | row
                  | s month year lop_days d a res Hin Hnone Ha Hres | t];
    cbn [apply_stmt staff salary_records] in *.
  - destruct (Hg r Hr) as (x & Hx & Hk & Hgr).
    exists x. split; [apply in_or_app; left; exact Hx | auto].
  - apply In_update_nth in Hr as (r0 & Hr0 & [-> | ->]);
      destruct (Hg r0 Hr0) as (x & Hx & Hk & Hgr); exists x; auto.
  - apply in_app_or in Hr as [Hr | [<- | []]]; [apply Hg, Hr |].
    exists s. auto.
  - apply Hg. eapply In_remove_nth, Hr.
  - apply in_app_or in Hr as [Hr | [<- | []]]; [apply Hg, Hr |].
    exists s. repeat split; [exact Hin |].
    cbn. rewrite (Hecho _ _ Hres). exact Ha.
  - apply Hg, Hr.
Qed.

Lemma reachable_tables_ok (db : Database) : reachable db -> tables_ok db.
Proof.
  induction 1 as [|r req db Hreach IH].
  - repeat split.
    + intros s m y. simpl. lia.
    + constructor.
    + constructor.
  - destruct (handle_flushed r req db (proj1 IH)) as [Ht ->].
    apply (trace_preserves app_stmt tables_ok); [| exact IH | exact Ht].
    intros db0 st (H1 & H2 & H3) Hst.
    repeat split;
      [eapply app_stmt_unique_keys | eapply app_stmt_staff_pks
       | eapply app_stmt_staff_ids]; eassumption.
Qed.

Lemma reachable_gross (db : Database) :
  echoes_gross -> reachable db -> gross_from_staff db.
Proof.
  intros Hecho. induction 1 as [|r req db Hreach IH].
  - intros r [].
  - destruct (handle_flushed r req db
                (proj1 (reachable_tables_ok db Hreach))) as [Ht ->].
    apply (trace_preserves app_stmt gross_from_staff); [| exact IH | exact Ht].
    intros db0 st Hg Hst. eapply app_stmt_gross; eassumption.
Qed.


(** ** What a request to [d_r_page] does *)

Lemma handle_d_r_cases (req : Request) (db : Database) :
  d_r_case req db (handle RDeductions req db).
Proof.
  unfold handle, handler_of, login_required, serve.
  destruct (is_authenticated (current_user req)).
  - apply d_r_page_cases.
  - apply dr_no_call; reflexivity.
Qed.

Lemma engine_called_by_d_r_only (r : route) (req : Request) (db : Database) :
  r <> RDeductions -> engine_calls (handle r req db) = [].
Proof.
  intros Hr.
  destruct r; [| | congruence |];
    unfold handle, handler_of, login_required, serve;
    (destruct (is_authenticated (current_user req)); [| reflexivity]).
  - apply new_staff_flushed.
  - apply lop_page_flushed.
  - apply professional_tax_flushed.
Qed.

(** Every call to the engine is made on what [d_r_page] gathered, and a
    request makes one call at most. *)
Lemma engine_call_prepared (req : Request) (db : Database) (a : Args.t) :
  In a (engine_calls (handle RDeductions req db)) ->
  exists p, prepares req db p /\ a = prep_args p
            /\ engine_calls (handle RDeductions req db) = [a].
Proof.
  intros Hin.
  destruct (handle_d_r_cases req db)
    as [Hc _ _ | p e Hp Hc _ _ _ _ | p res row old Hp Hc _ _ _ _ _ _
        | p res Hp Hc _ _ _ _ _];
    rewrite Hc in Hin; [destruct Hin | ..];
    destruct Hin as [<- | []]; eauto.
Qed.

(** A flushed insert is the whole save. *)
Lemma d_r_page_saved (req : Request) (db : Database) (r : SalaryRecord.t) :
  In (InsertSalaryRecord r) (statements (handle RDeductions req db)) ->
  exists p res,
    prepares req db p
    /\ engine_calls (handle RDeductions req db) = [prep_args p]
    /\ calculate_salary_components (prep_args p) = inr res
    /\ r = prep_record p res
    /\ statements (handle RDeductions req db)
       = (prep_delete p ++ [InsertSalaryRecord r])%list
    /\ database (handle RDeductions req db)
       = fold_left apply_stmt (statements (handle RDeductions req db)) db
    /\ response (handle RDeductions req db)
       = inr (DRPage (active_staff_by_name db) (Some res)
                     (Some (prep_staff_pk p)) (Some (prep_month_str p)))
    /\ flashes (handle RDeductions req db)
       = [{| msg := SalarySaved (Staff.name (prep_staff p))
                                (Staff.staff_id (prep_staff p))
                                (prep_month_str p);
             category := "success" |}].
Proof.
  intros Hin.
  destruct (handle_d_r_cases req db)
    as [_ Hst _ | p e _ _ Hst _ _ _ | p res row old _ _ _ _ Hst _ _ _
        | p res Hp Hc Hres Hst Hdb Hresp Hfl].
  - rewrite Hst in Hin. destruct Hin.
  - rewrite Hst in Hin. destruct Hin.
  - rewrite Hst in Hin. destruct Hin as [H | []]. discriminate.
  - assert (Hr : r = prep_record p res).
    { rewrite Hst in Hin. apply in_app_or in Hin as [Hin | [Hin | []]].
      - unfold prep_delete in Hin.
        destruct (prep_existing p) as [[row old]|];
          [destruct Hin as [H | []]; discriminate | destruct Hin].
      - injection Hin as <-. reflexivity. }
    subst r. exists p, res.
    repeat (split; [first [assumption | reflexivity] |]). assumption.
Qed.

(** After a save the table holds the saved record and no other for its
    key. *)
Lemma d_r_page_save_replaces (req : Request) (db : Database)
      (r : SalaryRecord.t) :
  unique_keys db ->
  In (InsertSalaryRecord r) (statements (handle RDeductions req db)) ->
  filter (SalaryRecord.has_key (SalaryRecord.staff_id r)
                               (SalaryRecord.month r)
                               (SalaryRecord.year r))
         (salary_records (database (handle RDeductions req db)))
  = [r].
Proof.
  intros Huniq Hin.
  destruct (d_r_page_saved req db r Hin)
    as (p & res & Hp & _ & _ & -> & Hst & -> & _ & _).
  rewrite Hst. clear Hst Hin.
  destruct Hp as (_ & _ & _ & _ & Hex & _).
  unfold salary_record_first in Hex.
  unfold prep_delete. cbn [prep_record new_salary_record
                             SalaryRecord.staff_id SalaryRecord.month
                             SalaryRecord.year].
  set (key := SalaryRecord.has_key (Staff.id (prep_staff p)) (prep_month p)
                                   (prep_year p)) in *.
  assert (Hself : key (prep_record p res) = true).
  { unfold key, SalaryRecord.has_key. cbn. rewrite !Z.eqb_refl. reflexivity. }
  destruct (prep_existing p) as [[row old]|];
    cbn [app fold_left apply_stmt salary_records];
    rewrite filter_app; cbn [filter]; rewrite Hself.
  - apply find_row_some in Hex as (_ & _ & _ & Hf).
    rewrite Nat.sub_0_r in Hf. rewrite Hf.
    specialize (Huniq (Staff.id (prep_staff p)) (prep_month p) (prep_year p)).
    fold key in Huniq.
    destruct (filter key (salary_records db)) as [|r0 [|r1 rest]];
      [reflexivity | reflexivity | simpl in Huniq; lia].
  - apply find_row_none in Hex. rewrite Hex. reflexivity.
Qed.

(** A flushed insert holds the computation of its request. *)
Lemma d_r_page_saved_holds (req : Request) (db : Database)
      (r : SalaryRecord.t) :
  In (InsertSalaryRecord r) (statements (handle RDeductions req db)) ->
  exists a res s,
    engine_calls (handle RDeductions req db) = [a]
    /\ calculate_salary_components a = inr res
    /\ holds_computation r a res
    /\ selected_staff req db s
    /\ SalaryRecord.staff_id r = Staff.id s
    /\ selected_period req (SalaryRecord.year r) (SalaryRecord.month r).
Proof.
  intros Hin.
  destruct (d_r_page_saved req db r Hin)
    as (p & res & Hp & Hc & Hres & -> & _).
  destruct (prepares_selected _ _ _ Hp) as (Hs & Hper & _).
  exists (prep_args p), res, (prep_staff p).
  split; [exact Hc |]. split; [exact Hres |].
  split; [unfold holds_computation; cbn; repeat split |].
  split; [exact Hs |]. split; [reflexivity | exact Hper].
Qed.

(** C1: from a database the application can reach, when two successive
    requests to the deductions-and-reimbursements handler each save a
    breakdown for the same (staff, month, year), the table then holds
    exactly one record for that key, and that record holds the second
    request's computation: its amounts are those the engine returned to
    the second request, its deductions, LOP days and period those passed
    to that call, and its staff member the one the second request
    selects. *)
Theorem d_r_page_upsert (db : Database) (req1 req2 : Request)
        (r1 r2 : SalaryRecord.t) :
  reachable db ->
  In (InsertSalaryRecord r1) (statements (handle RDeductions req1 db)) ->
  In (InsertSalaryRecord r2)
     (statements (handle RDeductions req2
                         (database (handle RDeductions req1 db)))) ->
  SalaryRecord.staff_id r1 = SalaryRecord.staff_id r2 ->
  SalaryRecord.month r1 = SalaryRecord.month r2 ->
  SalaryRecord.year r1 = SalaryRecord.year r2 ->
  filter (SalaryRecord.has_key (SalaryRecord.staff_id r2)
                               (SalaryRecord.month r2)
                               (SalaryRecord.year r2))
         (salary_records
            (database (handle RDeductions req2
                              (database (handle RDeductions req1 db)))))
  = [r2]
  /\ (exists before after,
         salary_records
           (database (handle RDeductions req2
                             (database (handle RDeductions req1 db))))
         = (before ++ r2 :: after)%list
         /\ forall r, In r (before ++ after) -> key_of r <> key_of r2)
  /\ exists a res s,
      engine_calls (handle RDeductions req2
                           (database (handle RDeductions req1 db)))
      = [a]
      /\ calculate_salary_components a = inr res
      /\ holds_computation r2 a res
      /\ selected_staff req2 (database (handle RDeductions req1 db)) s
      /\ SalaryRecord.staff_id r2 = Staff.id s
      /\ selected_period req2 (SalaryRecord.year r2) (SalaryRecord.month r2).
Proof.
  intros Hreach _ Hin2 _ _ _.
  assert (Hu : unique_keys (database (handle RDeductions req1 db))).
  { apply reachable_tables_ok. constructor. exact Hreach. }
  pose proof (d_r_page_save_replaces _ _ _ Hu Hin2) as Hone.
  split; [exact Hone |]. split.
  - apply filter_singleton in Hone as (before & after & Hl & Hrest).
    exists before, after. split; [exact Hl |].
    intros r Hr. apply has_key_not, Hrest, Hr.
  - apply d_r_page_saved_holds, Hin2.
Qed.


(** ** In-place updates *)

Lemma same_but_lop_days_refl (r : SalaryRecord.t) : same_but_lop_days r r.
Proof. unfold same_but_lop_days. repeat split. Qed.

Lemma same_but_lop_days_set (v : Q) (r' r : SalaryRecord.t) :
  same_but_lop_days r' r ->
  same_but_lop_days (SalaryRecord.set_lop_days v r') r.
Proof. unfold same_but_lop_days. cbn. tauto. Qed.

Lemma lop_trace_keeps_rows (l : list stmt) :
  forall db,
    trace lop_stmt db l ->
    forall row cur old,
      nth_error (salary_records db) row = Some cur ->
      same_but_lop_days cur old ->
      exists r',
        nth_error (salary_records (fold_left apply_stmt l db)) row = Some r'
        /\ same_but_lop_days r' old.
Proof.
  induction l as [|st l IH]; intros db Ht row cur old Hrow Hsame;
    cbn [fold_left].
  - exists cur. split; assumption.
  - inversion Ht as [|? ? ? Hst Hrest]; subst.
    destruct Hst as [row' v' | s month year v' _ _].
    + apply (IH _ Hrest row
                (if Nat.eqb row row'
                 then SalaryRecord.set_lop_days v' cur else cur)).
      * cbn [apply_stmt salary_records]. rewrite nth_error_update_nth, Hrow.
        destruct (Nat.eqb row row'); reflexivity.
      * destruct (Nat.eqb row row');
          [apply same_but_lop_days_set |]; exact Hsame.
    + apply (IH _ Hrest row cur); [| exact Hsame].
      cbn [apply_stmt salary_records].
      rewrite nth_error_app1; [exact Hrow |].
      apply nth_error_Some. congruence.
Qed.

Lemma lop_trace_stmts (l : list stmt) :
  forall db,
    trace lop_stmt db l ->
    forall st, In st l ->
               (exists row v, st = UpdateLopDays row v)
               \/ (exists r, st = InsertSalaryRecord r).
Proof.
  induction l as [|st0 l IH]; intros db Ht st Hin; [destruct Hin |].
  inversion Ht as [|? ? ? Hst Hrest]; subst.
  destruct Hin as [<- | Hin]; [| eapply IH; eassumption].
  destruct Hst; [left | right]; eauto.
Qed.

Lemma handle_lop_flushed_at (req : Request) (db : Database) :
  exists year month, flushed (lop_stmt_at month year) db (handle RLop req db).
Proof.
  unfold handle, handler_of, login_required, serve.
  destruct (is_authenticated (current_user req)).
  - destruct (lop_page_flushed_at req db) as (year & month & H & _).
    exists year, month. exact H.
  - exists 0, 0. split; [constructor | reflexivity].
Qed.

Lemma handle_lop_flushed (req : Request) (db : Database) :
  flushed lop_stmt db (handle RLop req db).
Proof.
  destruct (handle_lop_flushed_at req db) as (year & month & Ht & Hdb).
  split; [| exact Hdb].
  eapply trace_weaken; [| exact Ht].
  intros db0 st. apply lop_stmt_at_stmt.
Qed.

Lemma lop_stmt_at_write (month year : Z) (db : Database) (st : stmt) :
  lop_stmt_at month year db st -> lop_write month year db st.
Proof.
  intros [s row old v Hin Hex | s v Hin Hnone].
  - eapply lop_sets; [exact Hin | apply salary_record_first_some, Hex].
  - apply lop_adds with (s := s);
      [exact Hin | apply salary_record_first_none, Hnone | reflexivity].
Qed.

(** A save deletes the record stored for the key, if any, and adds the
    new one. *)
Lemma d_r_page_supersedes (req : Request) (db : Database)
      (r : SalaryRecord.t) :
  In (InsertSalaryRecord r) (statements (handle RDeductions req db)) ->
  supersedes db (handle RDeductions req db) r.
Proof.
  intros Hin.
  destruct (d_r_page_saved req db r Hin)
    as (p & res & Hp & _ & _ & -> & Hst & Hdb & _).
  destruct Hp as (_ & _ & _ & _ & Hex & _).
  unfold supersedes. rewrite Hdb, Hst. clear Hdb Hst Hin.
  unfold prep_delete.
  change (key_of (prep_record p res))
    with (Staff.id (prep_staff p), prep_month p, prep_year p).
  destruct (prep_existing p) as [[row old]|].
  - apply salary_record_first_some in Hex
      as (before & after & Hl & Hlen & Hk & Hb).
    left. exists before, old, after. subst row.
    repeat split; try assumption.
    cbn [app fold_left apply_stmt salary_records].
    rewrite Hl, remove_nth_middle, app_assoc. reflexivity.
  - right. split; [apply salary_record_first_none, Hex |].
    split; reflexivity.
Qed.

(** C4 (amended): the deductions-and-reimbursements handler never updates
    a stored salary record in place: the statements it flushes are deletes
    and inserts, and when it saves a breakdown the record stored for the
    key, if any, is deleted and the new record is added at the end of the
    table.  The loss-of-pay handler does write in place: for the month it
    works on it sets the LOP days of the first record of a staff member's
    key, and it adds a record only for a key that has none; every stored
    row stays where it is, with all its columns but the LOP days
    unchanged. *)
Theorem salary_record_superseded_except_lop_days
        (req : Request) (db : Database) :
  (forall st,
      In st (statements (handle RDeductions req db)) ->
      (exists row, st = DeleteSalaryRecord row)
      \/ (exists r, st = InsertSalaryRecord r))
  /\ (forall r,
         In (InsertSalaryRecord r) (statements (handle RDeductions req db)) ->
         supersedes db (handle RDeductions req db) r)
  /\ (exists year month,
         trace (lop_write month year) db (statements (handle RLop req db)))
  /\ database (handle RLop req db)
     = fold_left apply_stmt (statements (handle RLop req db)) db
  /\ (forall row old,
         nth_error (salary_records db) row = Some old ->
         exists r',
           nth_error (salary_records (database (handle RLop req db))) row
           = Some r'
           /\ same_but_lop_days r' old).
Proof.
  split; [| split; [| split; [| split]]].
  - intros st Hin.
    destruct (handle_d_r_cases req db)
      as [_ Hst _ | p e _ _ Hst _ _ _ | p res row old _ _ _ _ Hst _ _ _
          | p res _ _ _ Hst _ _ _];
      rewrite Hst in Hin.
    + destruct Hin.
    + destruct Hin.
    + destruct Hin as [<- | []]. left. eauto.
    + apply in_app_or in Hin as [Hin | [<- | []]]; [| right; eauto].
      unfold prep_delete in Hin.
      destruct (prep_existing p) as [[row old]|];
        [destruct Hin as [<- | []]; left; eauto | destruct Hin].
  - intros r. apply d_r_page_supersedes.
  - destruct (handle_lop_flushed_at req db) as (year & month & Ht & _).
    exists year, month.
    eapply trace_weaken; [| exact Ht].
    intros db0 st. apply lop_stmt_at_write.
  - apply handle_lop_flushed.
  - intros row old Hrow.
    destruct (handle_lop_flushed req db) as [Ht ->].
    eapply lop_trace_keeps_rows;
      [exact Ht | exact Hrow | apply same_but_lop_days_refl].
Qed.

(** ** The arguments of the engine *)

(** C5 (amended): only the deductions-and-reimbursements handler calls
    the engine, once per request, and it applies no range check: the gross
    salary it passes is the base salary plus allowances (0 when absent) of
    the staff member the request selects, the LOP days are those stored
    for the (staff, month, year) of the request, or 0 when no record is
    stored, and year and month are the integers on either side of the
    hyphen of the submitted month, whatever their values. *)
Theorem engine_inputs_passed_unchecked
        (r : route) (req : Request) (db : Database) (a : Args.t) :
  In a (engine_calls (handle r req db)) ->
  r = RDeductions
  /\ engine_calls (handle r req db) = [a]
  /\ selected_period req (Args.year a) (Args.month a)
  /\ exists s,
      selected_staff req db s
      /\ (Args.gross_salary a
          == Staff.base_salary s
             + match Staff.allowances s with Some x => x | None => 0 end)%Q
      /\ stored_lop_days db (Staff.id s, Args.month a, Args.year a)
                         (Args.lop_days a).
Proof.
  intros Hin.
  assert (Hr : r = RDeductions).
  { destruct r; try reflexivity;
      rewrite engine_called_by_d_r_only in Hin by discriminate;
      destruct Hin. }
  subst r. split; [reflexivity |].
  apply engine_call_prepared in Hin as (p & Hp & -> & Hcalls).
  destruct (prepares_selected _ _ _ Hp) as (Hs & Hper & Hlop).
  split; [exact Hcalls |]. split; [exact Hper |].
  exists (prep_staff p). split; [exact Hs |].
  split; [apply gross_of_value | exact Hlop].
Qed.

(** C6 (amended): when the handler saves a breakdown, the saved row holds
    the net salary exactly as the engine returned it, negative or not, and
    the page is given the engine's result unchanged; the handler does not
    flag a negative value: its only flash is the success message. *)
Theorem net_salary_saved_as_computed
        (req : Request) (db : Database) (r : SalaryRecord.t) :
  In (InsertSalaryRecord r) (statements (handle RDeductions req db)) ->
  exists a res,
    engine_calls (handle RDeductions req db) = [a]
    /\ calculate_salary_components a = inr res
    /\ SalaryRecord.net_salary r = Some (Components.net_salary res)
    /\ In r (salary_records (database (handle RDeductions req db)))
    /\ (exists staff_list pk month_str,
           response (handle RDeductions req db)
           = inr (DRPage staff_list (Some res) pk month_str))
    /\ exists name staff_id month_str,
        flashes (handle RDeductions req db)
        = [{| msg := SalarySaved name staff_id month_str;
              category := "success" |}].
Proof.
  intros Hin.
  destruct (d_r_page_saved req db r Hin)
    as (p & res & _ & Hc & Hres & -> & Hst & Hdb & Hresp & Hfl).
  exists (prep_args p), res.
  split; [exact Hc |]. split; [exact Hres |]. split; [reflexivity |].
  split; [| split; eauto].
  rewrite Hdb, Hst, fold_left_app. cbn [fold_left apply_stmt salary_records].
  apply in_or_app. right. left. reflexivity.
Qed.

Lemma prepared_zero_defaults (req : Request) (db : Database) (p : Prepared) :
  prepares req db p -> zero_defaults (form req) (prep_args p).
Proof.
  intros (_ & _ & _ & _ & _ & Hd & Hr).
  destruct Hd as (H1 & H2 & H3 & H4 & H5 & H6 & H7).
  unfold zero_defaults, field_reads in *.
  cbn [prep_args Args.deductions Args.reimbursements].
  repeat split;
    try (intros Hnone;
         match goal with
         | H : match form_get _ ?k with _ => _ end |- _ = 0%Q =>
             rewrite Hnone in H; exact H
         end).
  intros Hnone. unfold reimbursements_read in Hr. rewrite Hnone in Hr.
  inversion Hr. reflexivity.
Qed.

(** ** Staff ids *)

Lemma StronglySorted_lt_NoDup (l : list Z) :
  StronglySorted Z.lt l -> NoDup l.
Proof.
  induction 1 as [|x l Hs IH Hall]; constructor; [| exact IH].
  intros Hin. rewrite Forall_forall in Hall.
  specialize (Hall x Hin). lia.
Qed.

(** C10: on a database the application can reach, the staff ids grow
    strictly along the staff table in creation order, hence are pairwise
    distinct; a request to the new-staff handler adds at most one staff
    member, whose staff id is 1001 when the table is empty and otherwise
    the greatest staff id of the table plus 1. *)
Theorem staff_ids_sequential (req : Request) (db : Database) :
  reachable db ->
  staff_ids_increasing db
  /\ NoDup (map Staff.staff_id (staff db))
  /\ (staff (database (handle RNewStaff req db)) = staff db
      \/ exists s,
          staff (database (handle RNewStaff req db))
          = (staff db ++ [s])%list
          /\ (staff db = [] -> Staff.staff_id s = 1001)
          /\ (forall m,
                 In m (staff db) ->
                 (forall x, In x (staff db) ->
                            Staff.staff_id x <= Staff.staff_id m) ->
                 Staff.staff_id s = Staff.staff_id m + 1)).
Proof.
  intros Hreach.
  destruct (reachable_tables_ok db Hreach) as (_ & _ & Hinc).
  split; [exact Hinc |].
  split; [apply StronglySorted_lt_NoDup, Hinc |].
  unfold handle, handler_of, login_required, serve.
  destruct (is_authenticated (current_user req)); [| left; reflexivity].
  destruct (new_staff_flushed req db) as ([_ Hdb] & _ & [Hst | Hst]).
  - left. unfold serve in *. rewrite Hdb, Hst. reflexivity.
  - right. destruct Hst as (s & Hst & Hid). unfold serve in *.
    rewrite Hdb, Hst. cbn [fold_left apply_stmt staff].
    eexists. split; [reflexivity |].
    cbn [Staff.with_id Staff.staff_id]. rewrite Hid. split.
    + intros Hnil. unfold last_staff. rewrite Hnil. reflexivity.
    + intros m Hm Hmax.
      pose proof (last_staff_greatest db m Hm) as Hlt.
      unfold last_staff, next_staff_id_of in *.
      destruct (hd_error _) as [m0|] eqn:Hhd.
      * apply order_by_first in Hhd as [Hm0 _].
        -- specialize (Hmax m0 Hm0). lia.
        -- intros x y. rewrite !Z.leb_le. lia.
        -- intros x y z. rewrite !Z.leb_le. lia.
      * apply order_by_first_none in Hhd. rewrite Hhd in Hm. destruct Hm.
Qed.


(** ** The [deductions] column of a staff row *)

Lemma without_deductions_eq (s' s : Staff.t) :
  Staff.without_deductions s' = Staff.without_deductions s ->
  Staff.id s' = Staff.id s
  /\ Staff.name s' = Staff.name s
  /\ Staff.staff_id s' = Staff.staff_id s
  /\ gross_of s' = gross_of s.
Proof.
  destruct s', s; cbn. intros H. injection H. intros; subst.
  repeat split; reflexivity.
Qed.

Lemma forget_deductions_eq (db' db : Database) :
  forget_deductions db' = forget_deductions db ->
  map Staff.without_deductions (staff db')
  = map Staff.without_deductions (staff db)
  /\ salary_records db' = salary_records db.
Proof. unfold forget_deductions. intros H. injection H. auto. Qed.

Lemma staff_get_forget (pk : Z) (db' db : Database) :
  map Staff.without_deductions (staff db')
  = map Staff.without_deductions (staff db) ->
  match staff_get pk db', staff_get pk db with
  | Some s', Some s =>
      Staff.without_deductions s' = Staff.without_deductions s
  | None, None => True
  | _, _ => False
  end.
Proof.
  unfold staff_get.
  generalize (staff db'), (staff db). clear db' db.
  induction l as [|x' l' IH]; intros [|x l] Hmap; try discriminate;
    cbn [find]; [exact I |].
  cbn [map] in Hmap.
  pose proof (f_equal (hd (Staff.without_deductions x)) Hmap) as Hx.
  pose proof (f_equal (@tl _) Hmap) as Hl.
  cbn [hd tl] in Hx, Hl.
  destruct (without_deductions_eq _ _ Hx) as (-> & _).
  destruct (Staff.id x =? pk); [exact Hx | apply IH, Hl].
Qed.

Lemma salary_records_apply (db' db : Database) (st : stmt) :
  salary_records db' = salary_records db ->
  salary_records (apply_stmt db' st) = salary_records (apply_stmt db st).
Proof. intros H. destruct st; cbn; rewrite ?H; reflexivity. Qed.

Lemma salary_records_fold (l : list stmt) :
  forall db' db,
    salary_records db' = salary_records db ->
    salary_records (fold_left apply_stmt l db')
    = salary_records (fold_left apply_stmt l db).
Proof.
  induction l as [|st l IH]; intros db' db H; cbn [fold_left];
    [exact H | apply IH, salary_records_apply, H].
Qed.

Ltac unchanged := (split; [reflexivity | assumption]).

(** [d_r_page] does the same whatever the [deductions] column holds. *)
Lemma d_r_page_ignores_staff_deductions (req : Request) (db' db : Database) :
  forget_deductions db' = forget_deductions db ->
  engine_calls (serve d_r_page req db') = engine_calls (serve d_r_page req db)
  /\ salary_records (database (serve d_r_page req db'))
     = salary_records (database (serve d_r_page req db)).
Proof.
  intros Heq. apply forget_deductions_eq in Heq as [Hstaff Hrecs].
  unfold serve, d_r_page.
  destruct (negb (is_accounts (current_user req))
            && negb (is_admin (current_user req)));
    [unchanged |].
  destruct (method req); [unchanged |].
  unfold d_r_post.
  destruct (form_get (form req) "employee_name") as [staff_db_id|];
    [| destruct (form_get (form req) "salary_month");
       unchanged].
  destruct (form_get (form req) "salary_month") as [month_str|];
    [| unchanged].
  destruct (Py.truthy staff_db_id && Py.truthy month_str);
    [| unchanged].
  run.
  destruct (parse_year_month month_str) as [[year month]|];
    [| unchanged].
  destruct (py_int staff_db_id) as [pk|];
    [| unchanged].
  pose proof (staff_get_forget pk db' db Hstaff) as Hget.
  destruct (staff_get pk db') as [s'|], (staff_get pk db) as [s|];
    try contradiction; [| unchanged].
  destruct (without_deductions_eq _ _ Hget) as (Hid & Hname & Hsid & Hgross).
  unfold new_salary_record.
  rewrite Hid, Hname, Hsid, Hgross.
  unfold salary_record_first. rewrite Hrecs.
  destruct (read_deductions_run (form req)) as (rd & Hrd & _).
  rewrite !Hrd.
  destruct rd as [e|d]; [unchanged |].
  destruct (read_reimbursements_run (form req)) as (rr & Hrr & _).
  rewrite !Hrr.
  destruct rr as [e|rb]; [unchanged |].
  destruct (find_row _ 0%nat (salary_records db)) as [[row old]|];
    (destruct (calculate_salary_components _) as [e|res];
     [unchanged |]);
    (destruct (commit_outcomes req) as [|[|] [|[|] o]]; cbn;
     rewrite ?Hrecs; split; reflexivity).
Qed.


Lemma view_agree (s' s : Session) :
  agree s' s -> salary_records (view s') = salary_records (view s).
Proof.
  intros (Hc & Hp & _). unfold view. rewrite Hp.
  apply salary_records_fold, Hc.
Qed.

Lemma lop_entry_ignores_staff_deductions
      (f : MultiDict) (month year : Z) (x' x : Staff.t) (s' s : Session) :
  Staff.without_deductions x' = Staff.without_deductions x ->
  agree s' s ->
  fst (lop_entry f month year x' s') = fst (lop_entry f month year x s)
  /\ agree (snd (lop_entry f month year x' s'))
           (snd (lop_entry f month year x s)).
Proof.
  intros Hx Hag.
  destruct (without_deductions_eq _ _ Hx) as (Hid & _ & _ & Hgross).
  unfold lop_entry, new_lop_record. rewrite Hid, Hgross.
  destruct (form_get f _) as [lop_value|]; [| split; [reflexivity | exact Hag]].
  destruct (Py.truthy lop_value && _); [| split; [reflexivity | exact Hag]].
  unfold bind, value_error.
  destruct (py_float lop_value) as [v|]; cbn;
    [| split; [reflexivity | exact Hag]].
  unfold salary_record_first. rewrite (view_agree _ _ Hag).
  destruct Hag as (Hc & Hp & Ho).
  destruct (find_row _ 0%nat (salary_records (view s))) as [[row old]|];
    cbn; (split; [reflexivity |]); unfold agree; cbn; rewrite Hp; auto.
Qed.

Lemma lop_loop_ignores_staff_deductions (f : MultiDict) (month year : Z) :
  forall l' l,
    map Staff.without_deductions l' = map Staff.without_deductions l ->
    forall s' s,
      agree s' s ->
      fst (for_each (lop_entry f month year) l' s')
      = fst (for_each (lop_entry f month year) l s)
      /\ agree (snd (for_each (lop_entry f month year) l' s'))
               (snd (for_each (lop_entry f month year) l s)).
Proof.
  induction l' as [|x' l' IH]; intros [|x l] Hmap s' s Hag;
    try discriminate; cbn [for_each].
  - split; [reflexivity | exact Hag].
  - cbn [map] in Hmap.
    pose proof (f_equal (hd (Staff.without_deductions x)) Hmap) as Hx.
    pose proof (f_equal (@tl _) Hmap) as Hl.
    cbn [hd tl] in Hx, Hl.
    destruct (lop_entry_ignores_staff_deductions f month year x' x s' s
                                                 Hx Hag) as [Hr Hag1].
    unfold bind.
    destruct (lop_entry f month year x' s') as [r1' s1'],
             (lop_entry f month year x s) as [r1 s1].
    cbn [fst snd] in Hr, Hag1. subst r1'.
    destruct r1 as [e|[]]; [split; [reflexivity | exact Hag1] |].
    apply IH; assumption.
Qed.

Lemma map_insert_sorted {A B} (g : A -> B) (leb : A -> A -> bool)
      (leb' : B -> B -> bool) (x : A) (l : list A) :
  (forall a b, leb' (g a) (g b) = leb a b) ->
  map g (insert_sorted leb x l) = insert_sorted leb' (g x) (map g l).
Proof.
  intros Hleb. induction l as [|y l IH]; cbn; [reflexivity |].
  rewrite Hleb. destruct (leb x y); cbn; [reflexivity | rewrite IH; reflexivity].
Qed.

Lemma map_order_by {A B} (g : A -> B) (leb : A -> A -> bool)
      (leb' : B -> B -> bool) (l : list A) :
  (forall a b, leb' (g a) (g b) = leb a b) ->
  map g (order_by leb l) = order_by leb' (map g l).
Proof.
  intros Hleb. induction l as [|x l IH]; cbn; [reflexivity |].
  rewrite (map_insert_sorted g leb leb') by exact Hleb.
  unfold order_by in IH. rewrite IH. reflexivity.
Qed.

Lemma map_filter_commute {A B} (g : A -> B) (p : A -> bool)
      (p' : B -> bool) (l : list A) :
  (forall a, p' (g a) = p a) ->
  map g (filter p l) = filter p' (map g l).
Proof.
  intros Hp. induction l as [|x l IH]; cbn; [reflexivity |].
  rewrite Hp. destruct (p x); cbn; rewrite IH; reflexivity.
Qed.

Lemma active_staff_forget (db' db : Database) :
  map Staff.without_deductions (staff db')
  = map Staff.without_deductions (staff db) ->
  map Staff.without_deductions (active_staff_by_name db')
  = map Staff.without_deductions (active_staff_by_name db).
Proof.
  intros Hstaff. unfold active_staff_by_name.
  rewrite !(map_order_by Staff.without_deductions _
              (fun a b => String.leb (Staff.name a) (Staff.name b)))
    by reflexivity.
  rewrite !(map_filter_commute Staff.without_deductions _ Staff.active)
    by reflexivity.
  rewrite Hstaff. reflexivity.
Qed.

(** [lop_page] does the same whatever the [deductions] column holds. *)
Lemma lop_page_ignores_staff_deductions (req : Request) (db' db : Database) :
  forget_deductions db' = forget_deductions db ->
  salary_records (database (serve lop_page req db'))
  = salary_records (database (serve lop_page req db)).
Proof.
  intros Heq. apply forget_deductions_eq in Heq as [Hstaff Hrecs].
  unfold serve, lop_page.
  destruct (negb (is_hr (current_user req))
            && negb (is_admin (current_user req))); [exact Hrecs |].
  destruct (today req) as [[today_year today_month] today_day].
  assert (Hbody : forall year month str,
    salary_records (database (finish
      ((match method req with
        | POST =>
            try_except
              (for_each (lop_entry (form req) month year)
                        (active_staff_by_name db') ;;
               commit ;;
               flash (LopUpdated str) "success")
              (fun e => rollback ;; flash (ErrorUpdatingLop e) "error")
        | GET => ret tt
        end ;;
        ret (LopPage (active_staff_by_name db') str year month))
         (start_session req db'))))
    = salary_records (database (finish
      ((match method req with
        | POST =>
            try_except
              (for_each (lop_entry (form req) month year)
                        (active_staff_by_name db) ;;
               commit ;;
               flash (LopUpdated str) "success")
              (fun e => rollback ;; flash (ErrorUpdatingLop e) "error")
        | GET => ret tt
        end ;;
        ret (LopPage (active_staff_by_name db) str year month))
         (start_session req db))))).
  { intros year month str.
    destruct (method req); [exact Hrecs |].
    destruct (lop_loop_ignores_staff_deductions
                (form req) month year _ _ (active_staff_forget _ _ Hstaff)
                (start_session req db') (start_session req db))
      as [Hr Hag].
    { unfold agree. cbn. auto. }
    cbv [bind try_except].
    destruct (for_each _ (active_staff_by_name db') _) as [r' s1'],
             (for_each _ (active_staff_by_name db) _) as [r s1].
    cbn [fst snd] in Hr, Hag. subst r'.
    pose proof (view_agree _ _ Hag) as Hview.
    destruct Hag as (Hc & Hp & Ho).
    destruct r as [e|[]].
    - cbn. exact Hc.
    - unfold commit. rewrite Ho.
      destruct (outcomes s1) as [|[|] o]; cbn; assumption. }
  cbv [bind ret value_error raise].
  destruct (Py.or_else _ _) as [sel|]; [| apply Hbody].
  destruct (Py.truthy sel); [| apply Hbody].
  destruct (parse_year_month sel) as [[y m]|]; [apply Hbody | exact Hrecs].
Qed.

Lemma handle_ignores_staff_deductions (req : Request) (db' db : Database) :
  forget_deductions db' = forget_deductions db ->
  engine_calls (handle RDeductions req db')
  = engine_calls (handle RDeductions req db)
  /\ salary_records (database (handle RDeductions req db'))
     = salary_records (database (handle RDeductions req db))
  /\ salary_records (database (handle RLop req db'))
     = salary_records (database (handle RLop req db)).
Proof.
  intros Heq.
  pose proof (forget_deductions_eq _ _ Heq) as [_ Hrecs].
  unfold handle, handler_of, login_required, serve.
  destruct (is_authenticated (current_user req)).
  - destruct (d_r_page_ignores_staff_deductions req db' db Heq) as [H1 H2].
    repeat split; [exact H1 | exact H2 |].
    apply lop_page_ignores_staff_deductions, Heq.
  - repeat split; assumption || reflexivity.
Qed.

End HandlerFacts.

(** ** The salary engine *)

(** C3: on valid inputs the engine returns a breakdown whose net salary is
    exactly the gross salary less the total deductions plus the total
    reimbursements, whose total deductions are the LOP amount plus EPF plus
    ESI plus the sum of the seven named deductions, and whose total
    reimbursements are the sum of the reimbursement sequence. *)
Theorem compute_net_salary_exact
        (rate_epf rate_esi esi_ceiling : Q) (base_after_lop : bool)
        (a : Args.t) :
  Engine.valid a ->
  exists b,
    Engine.compute rate_epf rate_esi esi_ceiling base_after_lop a = inr b
    /\ Components.gross_salary b = Args.gross_salary a
    /\ Components.net_salary b
       = (Args.gross_salary a - Components.total_deductions b
          + Components.total_reimbursements b)%Q
    /\ Components.total_deductions b
       = (Components.lop_amount b + Components.epf b + Components.esi b
          + Deductions.total (Args.deductions a))%Q
    /\ Components.total_reimbursements b
       = Engine.sum (Args.reimbursements a).
Proof.
  intros (days & lop_days & Hdays & Hdays_eq & Hgross & Hlop & Hmax).
  unfold Engine.compute. rewrite Hdays, Hdays_eq.
  apply Qle_bool_iff in Hgross, Hlop, Hmax.
  rewrite Hgross, Hlop, Hmax. cbn [andb].
  eexists. repeat split.
Qed.

(** What a breakdown of the engine holds. *)
Lemma compute_result
      (rate_epf rate_esi esi_ceiling : Q) (base_after_lop : bool)
      (a : Args.t) (res : Components.t) :
  Engine.compute rate_epf rate_esi esi_ceiling base_after_lop a = inr res ->
  Components.gross_salary res = Args.gross_salary a
  /\ Components.total_reimbursements res = Engine.sum (Args.reimbursements a)
  /\ Components.net_salary res
     = (Components.gross_salary res - Components.total_deductions res
        + Components.total_reimbursements res)%Q.
Proof.
  unfold Engine.compute.
  destruct (Py.days_in_month _ _); [| discriminate].
  destruct (Args.lop_days a); [| discriminate].
  destruct (_ && _); [| discriminate].
  intros H. injection H as <-. repeat split.
Qed.

(** With the engine of the specification, a row saved by [d_r_page] balances:
    its net salary is its gross salary less its total deductions plus its
    total reimbursements. *)
Lemma saved_record_balances
      (rt : Runtime) (rate_epf rate_esi esi_ceiling : Q) (base_after_lop : bool)
      (req : Request) (db : Database) (r : SalaryRecord.t) :
  (forall a, calculate_salary_components a
             = Engine.compute rate_epf rate_esi esi_ceiling base_after_lop a) ->
  In (InsertSalaryRecord r) (statements (handle RDeductions req db)) ->
  exists deductions reimbursements,
    SalaryRecord.total_deductions r = Some deductions
    /\ SalaryRecord.total_reimbursements r = Some reimbursements
    /\ SalaryRecord.net_salary r
       = Some (SalaryRecord.gross_salary r - deductions + reimbursements)%Q.
Proof.
  intros Hengine Hin.
  destruct (d_r_page_saved req db r Hin)
    as (p & res & _ & _ & Hres & -> & _).
  rewrite Hengine in Hres.
  apply compute_result in Hres as (_ & _ & Hnet).
  cbn. rewrite Hnet. eauto.
Qed.

(** ** The handlers with the engine of the specification *)

Section SpecEngine.
Variable read_int : string -> option Z.
Variable read_float : string -> option Q.
Variable read_date : string -> option datetime.
Variables rate_epf rate_esi esi_ceiling : Q.
Variable base_after_lop : bool.

Let rt : Runtime :=
  Engine.runtime read_int read_float read_date
                 rate_epf rate_esi esi_ceiling base_after_lop.

Lemma compute_echoes_gross : echoes_gross (rt := rt).
Proof.
  intros a res Hres.
  apply (compute_result rate_epf rate_esi esi_ceiling base_after_lop).
  exact Hres.
Qed.

(** C8 (amended): with the engine of the specification, in every call the
    handler makes each of the seven deductions is 0 when its form field is
    absent, and the reimbursements are the submitted entries that are not
    blank, each read as a float: the empty list when there is none, which
    the engine accepts on valid inputs and for which it returns 0 as total
    of reimbursements, the total the saved record then holds.  These are
    not the only defaults: the LOP days are 0 when no record is stored for
    the key of the selected staff member, absent allowances of that staff
    member count as 0 in the gross salary, and blank reimbursement entries
    are dropped. *)
Theorem engine_defaults (req : Request) (db : Database) (a : Args.t) :
  In a (engine_calls (handle (rt := rt) RDeductions req db)) ->
  zero_defaults (form req) a
  /\ Forall2 (fun x v => read_float x = Some v)
             (filter (fun x => negb (blank x))
                     (form_getlist (form req) "reimbursement_amount[]"))
             (Args.reimbursements a)
  /\ (Args.reimbursements a = [] ->
      (Engine.valid a ->
       exists res, calculate_salary_components (Runtime := rt) a = inr res)
      /\ (forall res,
             calculate_salary_components (Runtime := rt) a = inr res ->
             Components.total_reimbursements res = 0%Q)
      /\ (forall r,
             In (InsertSalaryRecord r)
                (statements (handle (rt := rt) RDeductions req db)) ->
             SalaryRecord.total_reimbursements r = Some 0%Q))
  /\ exists s,
      selected_staff (rt := rt) req db s
      /\ (Args.gross_salary a
          == Staff.base_salary s
             + match Staff.allowances s with Some x => x | None => 0 end)%Q
      /\ (no_record_with_key db (Staff.id s, Args.month a, Args.year a) ->
          Args.lop_days a = Some 0%Q).
Proof.
  intros Hin.
  destruct (engine_call_prepared (rt := rt) req db a Hin)
    as (p & Hp & -> & Hcalls).
  split; [eapply prepared_zero_defaults, Hp |].
  destruct (prepares_selected (rt := rt) _ _ _ Hp) as (Hs & _ & Hlop).
  destruct Hp as (_ & _ & _ & _ & _ & _ & Hr).
  split.
  { unfold reimbursements_read in Hr.
    rewrite (filter_ext _ _ kept_iff_not_blank) in Hr. exact Hr. }
  split.
  - intros Hnil. split; [| split].
    + intros (days & lop_days & Hdays & Hlop_eq & Hgross & Hlo & Hhi).
      cbn [calculate_salary_components rt Engine.runtime].
      unfold Engine.compute. rewrite Hdays, Hlop_eq.
      apply Qle_bool_iff in Hgross, Hlo, Hhi.
      rewrite Hgross, Hlo, Hhi. cbn [andb]. eexists. reflexivity.
    + intros res Hres.
      apply compute_result in Hres as (_ & -> & _).
      rewrite Hnil. reflexivity.
    + intros r Hsaved.
      destruct (d_r_page_saved (rt := rt) req db r Hsaved)
        as (p' & res & _ & Hc' & Hres & -> & _).
      assert (Hargs : prep_args p' = prep_args p)
        by (rewrite Hcalls in Hc'; congruence).
      rewrite Hargs in Hres.
      apply compute_result in Hres as (_ & Htotal & _).
      cbn [prep_record new_salary_record SalaryRecord.total_reimbursements].
      rewrite Htotal, Hnil. reflexivity.
  - exists (prep_staff p). split; [exact Hs |].
    split; [apply gross_of_value |].
    cbn [prep_args Args.lop_days Args.month Args.year] in *.
    intros Hnone.
    destruct Hlop as [(row & r & (before & after & Hl & _ & Hk & _) & _)
                     | [_ Hzero]]; [| exact Hzero].
    exfalso. apply (Hnone r); [| exact Hk].
    rewrite Hl. apply in_or_app. right. left. reflexivity.
Qed.

(** C9: with the engine of the specification, on a database the
    application can reach every stored salary record carries as gross
    salary the base salary plus allowances (0 when absent) of the one
    staff member it belongs to, and every call to the engine passes that
    sum for the staff member the request selects.  The [deductions] column
    of the staff table never enters: blanking or changing it in any staff
    row changes neither the arguments passed to the engine nor the salary
    records the two handlers leave. *)
Theorem gross_salary_is_base_plus_allowances (db : Database) :
  reachable (rt := rt) db ->
  (forall r,
      In r (salary_records db) ->
      exists s,
        In s (staff db)
        /\ Staff.id s = SalaryRecord.staff_id r
        /\ (forall s', In s' (staff db) ->
                       Staff.id s' = SalaryRecord.staff_id r -> s' = s)
        /\ (SalaryRecord.gross_salary r
            == Staff.base_salary s
               + match Staff.allowances s with
                 | Some x => x
                 | None => 0
                 end)%Q)
  /\ (forall rte req a,
         In a (engine_calls (handle (rt := rt) rte req db)) ->
         exists s,
           selected_staff (rt := rt) req db s
           /\ (Args.gross_salary a
               == Staff.base_salary s
                  + match Staff.allowances s with
                    | Some x => x
                    | None => 0
                    end)%Q)
  /\ (forall req db',
         forget_deductions db' = forget_deductions db ->
         engine_calls (handle (rt := rt) RDeductions req db')
         = engine_calls (handle (rt := rt) RDeductions req db)
         /\ salary_records (database (handle (rt := rt) RDeductions req db'))
            = salary_records
                (database (handle (rt := rt) RDeductions req db))
         /\ salary_records (database (handle (rt := rt) RLop req db'))
            = salary_records (database (handle (rt := rt) RLop req db))).
Proof.
  intros Hreach. split; [| split].
  - intros r Hr.
    destruct (reachable_gross (rt := rt) db compute_echoes_gross Hreach r Hr)
      as (s & Hs & Hid & Hg).
    destruct (reachable_tables_ok (rt := rt) db Hreach) as (_ & Hpks & _).
    exists s. repeat split; try assumption.
    + intros s' Hs' Hid'.
      unfold staff_pks_distinct in Hpks.
      clear - Hs Hs' Hid Hid' Hpks.
      induction (staff db) as [|x l IH]; [destruct Hs |].
      cbn [map] in Hpks. inversion Hpks as [|? ? Hnotin Hnd]; subst.
      destruct Hs as [-> | Hs], Hs' as [-> | Hs'].
      * reflexivity.
      * exfalso. apply Hnotin. apply in_map_iff. exists s'.
        split; congruence.
      * exfalso. apply Hnotin. apply in_map_iff. exists s.
        split; congruence.
      * apply IH; assumption.
    + rewrite Hg. apply gross_of_value.
  - intros rte req a Ha.
    assert (Hr : rte = RDeductions).
    { destruct rte; try reflexivity;
        rewrite (engine_called_by_d_r_only (rt := rt)) in Ha
          by discriminate;
        destruct Ha. }
    subst rte.
    apply (engine_call_prepared (rt := rt)) in Ha as (p & Hp & -> & _).
    destruct (prepares_selected (rt := rt) _ _ _ Hp) as (Hs & _).
    exists (prep_staff p). split; [exact Hs | apply gross_of_value].
  - intros req db' Heq.
    apply (handle_ignores_staff_deductions (rt := rt)), Heq.
Qed.

End SpecEngine.

(** ** Examples *)

Lemma db_staff_reachable : reachable (rt := Sample.runtime) Sample.db_staff.
Proof. apply reach_step, reach_empty. Qed.

Lemma db_lop_reachable (days : string) :
  reachable (rt := Sample.runtime) (Sample.db_lop days).
Proof. apply reach_step, db_staff_reachable. Qed.

Lemma db_saved_reachable : reachable (rt := Sample.runtime) Sample.db_saved.
Proof. apply reach_step, db_lop_reachable. Qed.

Lemma example_engine_echoes_gross : echoes_gross (rt := Sample.runtime).
Proof. apply compute_echoes_gross. Qed.

(** The slab examples of the specification, upper bound included. *)
Example find_slab_10000 :
  Engine.find_slab true 10000 Sample.slabs = inr 0%Q.
Proof. reflexivity. Qed.

Example find_slab_10001 :
  Engine.find_slab true 10001 Sample.slabs = inr 150%Q.
Proof. reflexivity. Qed.

Example find_slab_25000 :
  Engine.find_slab true 25000 Sample.slabs = inr 200%Q.
Proof. reflexivity. Qed.

Example find_slab_minus_5 :
  Engine.find_slab true (-5) Sample.slabs = inl Py.ValueError.
Proof. reflexivity. Qed.

Lemma sample_slabs_ascending : Engine.ascending Sample.slabs.
Proof.
  unfold Engine.ascending, Sample.slabs.
  repeat (constructor; [| repeat constructor; vm_compute; discriminate]).
  constructor.
Qed.

(** Blank entries: spaces and the no-break space are stripped, so
    [lop_page] skips such an entry and reports success. *)
Example strip_blanks :
  Py.strip (Cases.nbsp ++ " 2.5 " ++ Cases.nbsp) = "2.5"
  /\ blank Cases.nbsp = true /\ blank "" = true /\ blank " 2" = false.
Proof. repeat split. Qed.

Example lop_page_skips_blank_entry :
  statements (Sample.serve_on RLop (Sample.lop_request Cases.nbsp)
                              Sample.db_staff) = []
  /\ flashes (Sample.serve_on RLop (Sample.lop_request Cases.nbsp)
                              Sample.db_staff)
     = [{| msg := LopUpdated "2024-02"; category := "success" |}].
Proof. split; vm_compute; reflexivity. Qed.

(** The scenario of the specification. *)
Example scenario_lop_amount :
  exists b, Sample.engine Sample.scenario = inr b
            /\ (Components.lop_amount b == 2000)%Q
            /\ (Components.net_salary b
                == 30000 - (2000 + 500 + Components.epf b + Components.esi b)
                   + 200)%Q.
Proof. eexists. split; [reflexivity |]. split; vm_compute; reflexivity. Qed.

(** C2: a record is stored for (staff 1, February 2024); a request to the
    deductions-and-reimbursements handler computes a new breakdown, its
    first commit (the delete) succeeds and its second (the insert) fails.
    The handler reports the error, and the table is left without any record
    for the key: the stored record is lost and the persisted state is
    neither the old one nor a complete new one. *)
Theorem failed_insert_loses_stored_record :
  filter (SalaryRecord.has_key 1 2 2024) (salary_records Sample.db_saved)
  = [Sample.first_record]
  /\ statements (Sample.serve_on RDeductions
                   (Sample.d_r_request "700" [true; false]) Sample.db_saved)
     = [DeleteSalaryRecord 0]
  /\ salary_records
       (database (Sample.serve_on RDeductions
                    (Sample.d_r_request "700" [true; false])
                    Sample.db_saved))
     = []
  /\ flashes (Sample.serve_on RDeductions
                (Sample.d_r_request "700" [true; false]) Sample.db_saved)
     = [{| msg := ErrorSavingSalary Py.DatabaseError; category := "error" |}].
Proof. repeat split; vm_compute; reflexivity. Qed.

(** C4, as worded, fails: HR enters three LOP days for a month whose
    breakdown is already saved, and [lop_page] updates the stored row in
    place. *)
Lemma lop_page_updates_in_place :
  ~ never_updated_in_place (rt := Sample.runtime).
Proof.
  intros H.
  apply (H RLop (Sample.lop_request "3") Sample.db_saved
           db_saved_reachable 0%nat 3%Q).
  vm_compute. left. reflexivity.
Qed.

(** C5, as worded, fails: HR enters 45 LOP days for February 2024, they are
    stored, and [d_r_page] passes them to the engine. *)
Lemma engine_inputs_not_validated :
  ~ engine_inputs_validated (rt := Sample.runtime).
Proof.
  intros H.
  destruct (H RDeductions (Sample.d_r_request "500" []) (Sample.db_lop "45")
              Sample.unchecked_args (db_lop_reachable "45"))
    as (_ & days & lop_days & Hdays & Hlop & _ & Hmax).
  - vm_compute. left. reflexivity.
  - vm_compute in Hdays. injection Hdays as <-.
    vm_compute in Hlop. injection Hlop as <-.
    vm_compute in Hmax. apply Hmax. reflexivity.
Qed.

(** C6, as worded, fails: a loan of 50000 on a gross salary of 30000 gives a
    negative net salary, and the only flash is the success message. *)
Lemma negative_net_not_flagged :
  ~ negative_net_flagged (rt := Sample.runtime).
Proof.
  intros H.
  destruct (Sample.engine Sample.negative_args) as [e|res] eqn:Hres;
    [vm_compute in Hres; discriminate |].
  destruct (H (Sample.d_r_request "50000" []) Sample.db_staff
              Sample.negative_args res db_staff_reachable)
    as (_ & f & Hf & Hcat).
  - vm_compute. left. reflexivity.
  - exact Hres.
  - vm_compute in Hres. injection Hres as <-. vm_compute. reflexivity.
  - vm_compute in Hf. destruct Hf as [<- | []]. apply Hcat. reflexivity.
Qed.

(** C8, as worded, fails: with no record stored for the key, [d_r_page]
    passes 0 LOP days to the engine, a default that is none of the zero
    deductions or reimbursements. *)
Lemma lop_days_defaulted :
  ~ only_zero_defaults (rt := Sample.runtime).
Proof.
  intros H.
  destruct (H (Sample.d_r_request "500" []) Sample.db_staff
              Sample.defaulted_args db_staff_reachable)
    as (_ & s & row & r & _ & Hfirst & _).
  - vm_compute. left. reflexivity.
  - unfold salary_record_first in Hfirst.
    change (salary_records Sample.db_staff) with (@nil SalaryRecord.t)
      in Hfirst.
    discriminate.
Qed.

(** C7, as worded, fails: the resolver of the specification does not
    answer for the amount -5, which no slab of the example contains; it
    rejects it as invalid input. *)
Lemma find_slab_rejects_negative :
  ~ find_slab_answers_every_amount true.
Proof.
  intros H.
  destruct (H (-5)%Q Sample.slabs sample_slabs_ascending)
    as [(before & s & after & _ & _ & _ & Hf) | [_ Hf]];
    vm_compute in Hf; discriminate.
Qed.

(** ** Instances of the theorems on the examples *)

Lemma d_r_page_upsert_witness :
  reachable (rt := Sample.runtime) (Sample.db_lop "2")
  /\ In (InsertSalaryRecord Sample.first_record)
        (statements (handle (rt := Sample.runtime) RDeductions
                       (Sample.d_r_request "500" []) (Sample.db_lop "2")))
  /\ In (InsertSalaryRecord Sample.second_record)
        (statements
           (handle (rt := Sample.runtime) RDeductions
              (Sample.d_r_request "700" [])
              (database (handle (rt := Sample.runtime) RDeductions
                           (Sample.d_r_request "500" [])
                           (Sample.db_lop "2")))))
  /\ filter (SalaryRecord.has_key
               (SalaryRecord.staff_id Sample.second_record)
               (SalaryRecord.month Sample.second_record)
               (SalaryRecord.year Sample.second_record))
            (salary_records
               (database
                  (handle (rt := Sample.runtime) RDeductions
                     (Sample.d_r_request "700" [])
                     (database (handle (rt := Sample.runtime) RDeductions
                                  (Sample.d_r_request "500" [])
                                  (Sample.db_lop "2"))))))
     = [Sample.second_record]
  /\ exists a res,
      engine_calls
        (handle (rt := Sample.runtime) RDeductions
           (Sample.d_r_request "700" [])
           (database (handle (rt := Sample.runtime) RDeductions
                        (Sample.d_r_request "500" [])
                        (Sample.db_lop "2"))))
      = [a]
      /\ calculate_salary_components (Runtime := Sample.runtime) a = inr res
      /\ holds_computation Sample.second_record a res.
Proof.
  assert (H1 : In (InsertSalaryRecord Sample.first_record)
        (statements (handle (rt := Sample.runtime) RDeductions
                       (Sample.d_r_request "500" []) (Sample.db_lop "2"))))
    by (vm_compute; right; left; reflexivity).
  assert (H2 : In (InsertSalaryRecord Sample.second_record)
        (statements
           (handle (rt := Sample.runtime) RDeductions
              (Sample.d_r_request "700" [])
              (database (handle (rt := Sample.runtime) RDeductions
                           (Sample.d_r_request "500" [])
                           (Sample.db_lop "2"))))))
    by (vm_compute; right; left; reflexivity).
  split; [apply db_lop_reachable |].
  split; [exact H1 |]. split; [exact H2 |].
  destruct (d_r_page_upsert
              (rt := Sample.runtime) (Sample.db_lop "2")
              (Sample.d_r_request "500" []) (Sample.d_r_request "700" [])
              Sample.first_record Sample.second_record
              (db_lop_reachable "2") H1 H2 eq_refl eq_refl eq_refl)
    as (Hone & _ & a & res & s & Hcalls & Hres & Hholds & _).
  split; [exact Hone |].
  exists a, res. split; [exact Hcalls |]. split; [exact Hres | exact Hholds].
Defined.

Lemma compute_net_salary_exact_witness :
  Engine.valid Sample.scenario
  /\ exists b,
      Sample.engine Sample.scenario = inr b
      /\ Components.net_salary b
         = (30000 - Components.total_deductions b
            + Components.total_reimbursements b)%Q.
Proof.
  assert (Hv : Engine.valid Sample.scenario).
  { exists 30, 2%Q. repeat split; vm_compute; discriminate. }
  split; [exact Hv |].
  destruct (compute_net_salary_exact (12 # 100) (3 # 400) 21000 false
                                     Sample.scenario Hv)
    as (b & Hb & _ & Hnet & _).
  exists b. split; [exact Hb | exact Hnet].
Defined.

Lemma engine_inputs_passed_unchecked_witness :
  In Sample.unchecked_args
     (engine_calls (handle (rt := Sample.runtime) RDeductions
                      (Sample.d_r_request "500" []) (Sample.db_lop "45")))
  /\ exists s,
      selected_staff (rt := Sample.runtime)
                     (Sample.d_r_request "500" []) (Sample.db_lop "45") s
      /\ (30000
          == Staff.base_salary s
             + match Staff.allowances s with Some x => x | None => 0 end)%Q
      /\ stored_lop_days (Sample.db_lop "45") (Staff.id s, 2, 2024)
                         (Some 45%Q).
Proof.
  assert (Hin : In Sample.unchecked_args
                   (engine_calls (handle (rt := Sample.runtime) RDeductions
                                    (Sample.d_r_request "500" [])
                                    (Sample.db_lop "45"))))
    by (vm_compute; left; reflexivity).
  split; [exact Hin |].
  destruct (engine_inputs_passed_unchecked
              (rt := Sample.runtime) RDeductions
              (Sample.d_r_request "500" []) (Sample.db_lop "45")
              Sample.unchecked_args Hin)
    as (_ & _ & _ & s & Hs & Hg & Hl).
  exists s. split; [exact Hs |]. split; [exact Hg | exact Hl].
Defined.

Lemma net_salary_saved_as_computed_witness :
  In (InsertSalaryRecord Sample.negative_record)
     (statements (Sample.serve_on RDeductions
                    (Sample.d_r_request "50000" []) Sample.db_staff))
  /\ exists res,
      Sample.engine Sample.negative_args = inr res
      /\ SalaryRecord.net_salary Sample.negative_record
         = Some (Components.net_salary res)
      /\ In Sample.negative_record
            (salary_records
               (database (Sample.serve_on RDeductions
                            (Sample.d_r_request "50000" [])
                            Sample.db_staff))).
Proof.
  assert (Hin : In (InsertSalaryRecord Sample.negative_record)
                   (statements (Sample.serve_on RDeductions
                                  (Sample.d_r_request "50000" [])
                                  Sample.db_staff)))
    by (vm_compute; left; reflexivity).
  split; [exact Hin |].
  destruct (net_salary_saved_as_computed
              (rt := Sample.runtime) (Sample.d_r_request "50000" [])
              Sample.db_staff Sample.negative_record Hin)
    as (a & res & Hcalls & Hres & Hnet & Hstored & _).
  assert (Ha : a = Sample.negative_args).
  { vm_compute in Hcalls. injection Hcalls as <-. reflexivity. }
  subst a. exists res. split; [exact Hres |]. split; [exact Hnet | exact Hstored].
Defined.

Lemma find_slab_first_match_witness :
  Engine.ascending Sample.slabs
  /\ (0 <= 10001)%Q
  /\ (-5 < 0)%Q
  /\ Engine.find_slab true (-5) Sample.slabs = inl Py.ValueError
  /\ exists before s after,
      Sample.slabs = (before ++ s :: after)%list
      /\ Engine.contains true s 10001 = true
      /\ Engine.find_slab true 10001 Sample.slabs
         = inr (ProfessionalTax.tax_amount s).
Proof.
  assert (Hpos : (0 <= 10001)%Q) by (vm_compute; discriminate).
  assert (Hneg : (-5 < 0)%Q) by reflexivity.
  split; [exact sample_slabs_ascending |].
  split; [exact Hpos |]. split; [exact Hneg |].
  split.
  - exact (proj1 (find_slab_first_match true (-5) Sample.slabs
                                        sample_slabs_ascending) Hneg).
  - destruct (proj2 (find_slab_first_match true 10001 Sample.slabs
                                           sample_slabs_ascending) Hpos)
      as [(before & s & after & Hsplit & _ & Hc & Hf & _) | [Hnone _]].
    + exists before, s, after. split; [exact Hsplit |].
      split; [exact Hc | exact Hf].
    + exfalso.
      specialize (Hnone _ (or_intror (or_introl eq_refl))).
      vm_compute in Hnone. discriminate.
Defined.

Lemma engine_defaults_witness :
  In Sample.defaulted_args
     (engine_calls (handle (rt := Sample.runtime) RDeductions
                      (Sample.d_r_request "500" []) Sample.db_staff))
  /\ zero_defaults (form (Sample.d_r_request "500" [])) Sample.defaulted_args
  /\ (forall r,
         In (InsertSalaryRecord r)
            (statements (handle (rt := Sample.runtime) RDeductions
                           (Sample.d_r_request "500" []) Sample.db_staff)) ->
         SalaryRecord.total_reimbursements r = Some 0%Q)
  /\ (exists s,
         selected_staff (rt := Sample.runtime)
                        (Sample.d_r_request "500" []) Sample.db_staff s
         /\ (no_record_with_key Sample.db_staff (Staff.id s, 2, 2024) ->
             Args.lop_days Sample.defaulted_args = Some 0%Q))
  /\ In Cases.reimbursed_args
        (engine_calls (handle (rt := Sample.runtime) RDeductions
                         Cases.reimbursed_request Sample.db_staff))
  /\ filter (fun x => negb (blank x))
            (form_getlist (form Cases.reimbursed_request)
                          "reimbursement_amount[]")
     = ["200"]
  /\ Forall2 (fun x v => Literal.float x = Some v)
             (filter (fun x => negb (blank x))
                     (form_getlist (form Cases.reimbursed_request)
                                   "reimbursement_amount[]"))
             (Args.reimbursements Cases.reimbursed_args).
Proof.
  assert (Hin : In Sample.defaulted_args
                   (engine_calls (handle (rt := Sample.runtime) RDeductions
                                    (Sample.d_r_request "500" [])
                                    Sample.db_staff)))
    by (vm_compute; left; reflexivity).
  assert (Hin' : In Cases.reimbursed_args
                    (engine_calls (handle (rt := Sample.runtime) RDeductions
                                     Cases.reimbursed_request
                                     Sample.db_staff)))
    by (vm_compute; left; reflexivity).
  split; [exact Hin |].
  destruct (engine_defaults
              Literal.int Literal.float Literal.strptime
              (12 # 100) (3 # 400) 21000 false
              (Sample.d_r_request "500" []) Sample.db_staff
              Sample.defaulted_args Hin)
    as (Hzero & _ & Hempty & s & Hs & _ & Hlop).
  split; [exact Hzero |].
  split; [exact (proj2 (proj2 (Hempty eq_refl))) |].
  split; [exists s; split; [exact Hs | exact Hlop] |].
  split; [exact Hin' |].
  split; [reflexivity |].
  exact (proj1 (proj2 (engine_defaults
                         Literal.int Literal.float Literal.strptime
                         (12 # 100) (3 # 400) 21000 false
                         Cases.reimbursed_request Sample.db_staff
                         Cases.reimbursed_args Hin'))).
Defined.

Lemma gross_salary_is_base_plus_allowances_witness :
  reachable (rt := Sample.runtime) Sample.db_saved
  /\ forall r,
      In r (salary_records Sample.db_saved) ->
      exists s,
        In s (staff Sample.db_saved)
        /\ Staff.id s = SalaryRecord.staff_id r
        /\ (SalaryRecord.gross_salary r
            == Staff.base_salary s
               + match Staff.allowances s with
                 | Some x => x
                 | None => 0
                 end)%Q.
Proof.
  split; [exact db_saved_reachable |].
  intros r Hr.
  destruct (proj1 (gross_salary_is_base_plus_allowances
                     Literal.int Literal.float Literal.strptime
                     (12 # 100) (3 # 400) 21000 false
                     Sample.db_saved db_saved_reachable) r Hr)
    as (s & Hs & Hid & _ & Hg).
  exists s. split; [exact Hs |]. split; [exact Hid | exact Hg].
Defined.

Lemma staff_ids_sequential_witness :
  reachable (rt := Sample.runtime) Sample.db_staff
  /\ map Staff.staff_id (staff Sample.db_staff) = [1001]
  /\ staff_ids_increasing Sample.db_staff
  /\ NoDup (map Staff.staff_id (staff Sample.db_staff)).
Proof.
  split; [exact db_staff_reachable |].
  split; [reflexivity |].
  destruct (staff_ids_sequential
              (rt := Sample.runtime) (Sample.post Sample.staff_form [])
              Sample.db_staff db_staff_reachable)
    as (Hinc & Hnodup & _).
  split; [exact Hinc | exact Hnodup].
Defined.

(** ** Further properties of the handlers *)

Section MoreFacts.
Context {rt : Runtime}.

Ltac run_more :=
  cbv [bind ret raise lift value_error query execute commit rollback flash
       set_frame get_frame try_except call_engine view fold_left app
       with_pending start_session finish fst snd form_index
       float_or_zero float_field_or_zero
       committed pending executed calls flashed frame outcomes
       response flashes database statements engine_calls
       result selected_staff_id selected_month empty_frame].

Ltac split_inner :=
  match goal with
  | |- context [match ?x with _ => _ end] =>
      lazymatch x with
      | context [match _ with _ => _ end] => fail
      | _ => destruct x
      end
  end.

(** X1: a request from a user who is not logged in, or who lacks the role
    the route asks for, changes nothing: no statement is flushed, the
    engine is not called, and the user is sent to the login page or to the
    dashboard. *)
Theorem unauthorized_request_changes_nothing
        (r : route) (req : Request) (db : Database) :
  authorized r (current_user req) = false ->
  database (handle r req db) = db
  /\ statements (handle r req db) = []
  /\ engine_calls (handle r req db) = []
  /\ response (handle r req db)
     = inr (Redirect (if is_authenticated (current_user req)
                      then "routes.dashboard" else "routes.login")).
Proof.
  unfold authorized, handle, handler_of, login_required, serve.
  intros Hauth.
  destruct (is_authenticated (current_user req)) eqn:Hlogin;
    [| destruct r; cbn; rewrite Hlogin; repeat split].
  cbn [andb] in Hauth.
  destruct r; cbn; rewrite Hlogin;
    unfold new_staff, lop_page, d_r_page, professional_tax;
    destruct (is_admin (current_user req)),
             (is_accounts (current_user req)),
             (is_hr (current_user req));
    cbn in Hauth; try discriminate; repeat split.
Qed.

(** X2: a GET request never writes: whatever the route and the user, the
    database is left as it was, no statement is flushed and the engine is
    not called. *)
Theorem get_request_changes_nothing
        (r : route) (req : Request) (db : Database) :
  method req = GET ->
  database (handle r req db) = db
  /\ statements (handle r req db) = []
  /\ engine_calls (handle r req db) = [].
Proof.
  intros Hget.
  unfold handle, handler_of, login_required, serve.
  destruct (is_authenticated (current_user req)) eqn:Hlogin;
    [| destruct r; cbn; rewrite Hlogin; repeat split].
  destruct r; cbn; rewrite Hlogin;
    unfold new_staff, lop_page, d_r_page, professional_tax;
    rewrite Hget; run_more;
    repeat (split_inner; run_more); repeat split.
Qed.

(** The fields [new_staff] reads with [request.form[...]]. *)
Lemma new_staff_needs (req : Request) (db : Database) (k : string) :
  In k ["name"; "category"; "department"; "designation"; "base_salary";
        "date_joined"; "bank_account"; "aadhar"] ->
  form_get (form req) k = None ->
  authorized RNewStaff (current_user req) = true ->
  method req = POST ->
  exists e, response (handle RNewStaff req db) = inl e.
Proof.
  intros Hk Hnone Hauth Hpost.
  unfold authorized in Hauth. apply andb_true_iff in Hauth as [Hlogin Hrole].
  unfold handle, handler_of, login_required, serve, new_staff.
  rewrite Hlogin, Hpost.
  replace (negb (is_admin (current_user req))
           && negb (is_accounts (current_user req))) with false
    by (destruct (is_admin (current_user req)),
                 (is_accounts (current_user req)); try discriminate;
        reflexivity).
  run_more.
  repeat (destruct Hk as [<- | Hk];
          [revert Hnone; repeat (split_inner; run_more);
           intros Hnone; try discriminate; eexists; reflexivity |]).
  destruct Hk.
Qed.

(** X3: when an authorised POST to [new_staff] lacks one of the fields read
    with [request.form[...]], an exception escapes the handler and no staff
    row is stored. *)
Theorem new_staff_missing_field
        (req : Request) (db : Database) (k : string) :
  In k ["name"; "category"; "department"; "designation"; "base_salary";
        "date_joined"; "bank_account"; "aadhar"] ->
  form_get (form req) k = None ->
  authorized RNewStaff (current_user req) = true ->
  method req = POST ->
  (exists e, response (handle RNewStaff req db) = inl e)
  /\ database (handle RNewStaff req db) = db
  /\ flashes (handle RNewStaff req db) = [].
Proof.
  intros Hk Hnone Hauth Hpost.
  destruct (new_staff_needs req db k Hk Hnone Hauth Hpost) as (e & He).
  split; [eauto |].
  revert He.
  unfold handle, handler_of, login_required, serve, new_staff.
  destruct (is_authenticated (current_user req)); [| discriminate].
  destruct (negb (is_admin (current_user req))
            && negb (is_accounts (current_user req))); [discriminate |].
  destruct (method req); [discriminate |].
  run_more.
  repeat (split_inner; run_more); intros He;
    try discriminate; split; reflexivity.
Qed.

(** ** More on [d_r_page] *)

(** X4: when a deduction field is submitted but does not read as a float
    (an empty input, for one), or a reimbursement entry that is not blank
    (not empty, and not made of whitespace characters only) does not,
    [d_r_page] neither calls the engine nor writes: the database is left as
    it was. *)
Theorem d_r_page_malformed_amount
        (req : Request) (db : Database) (x : string) :
  py_float x = None ->
  (exists k,
      In k ["income_tax"; "loan"; "advance"; "uniform"; "cd"; "hostel";
            "misc"]
      /\ form_get (form req) k = Some x)
  \/ (In x (form_getlist (form req) "reimbursement_amount[]")
      /\ blank x = false) ->
  engine_calls (handle RDeductions req db) = []
  /\ statements (handle RDeductions req db) = []
  /\ database (handle RDeductions req db) = db.
Proof.
  intros Hbad Hwhere.
  assert (Hno : forall p, ~ prepares req db p).
  { intros p (_ & _ & _ & _ & _ & Hd & Hr).
    destruct Hwhere as [(k & Hk & Hget) | [Hin Hkeep]].
    - destruct Hd as (H1 & H2 & H3 & H4 & H5 & H6 & H7).
      unfold field_reads in *.
      repeat (destruct Hk as [<- | Hk];
              [rewrite Hget in *; congruence |]).
      destruct Hk.
    - unfold reimbursements_read in Hr.
      assert (Hf : In x (filter (fun y => Py.truthy y && Py.truthy (Py.strip y))
                                (form_getlist (form req)
                                              "reimbursement_amount[]"))).
      { apply filter_In. split; [exact Hin |].
        rewrite kept_iff_not_blank, Hkeep. reflexivity. }
      clear - Hbad Hr Hf.
      induction Hr as [|y v l vs Hy _ IH]; [destruct Hf |].
      destruct Hf as [-> | Hf]; [congruence | apply IH, Hf]. }
  destruct (handle_d_r_cases req db)
    as [Hc Hst Hdb | p e Hp | p res row old Hp | p res Hp];
    [auto | exfalso; eapply Hno; eassumption ..].
Qed.

(** A delete is flushed alone only when the commit after it succeeds and
    the commit after the insert fails. *)
Lemma d_r_page_delete_alone (req : Request) (db : Database) (row : nat) :
  statements (handle RDeductions req db) = [DeleteSalaryRecord row] ->
  exists later, commit_outcomes req = true :: false :: later.
Proof.
  unfold handle, handler_of, login_required, serve, d_r_page.
  destruct (is_authenticated (current_user req)); [| discriminate].
  destruct (negb (is_accounts (current_user req))
            && negb (is_admin (current_user req))); [discriminate |].
  destruct (method req); [discriminate |].
  unfold d_r_post.
  destruct (form_get (form req) "employee_name") as [staff_db_id|];
    [| destruct (form_get (form req) "salary_month"); discriminate].
  destruct (form_get (form req) "salary_month") as [month_str|];
    [| discriminate].
  destruct (Py.truthy staff_db_id && Py.truthy month_str); [| discriminate].
  run_more.
  destruct (parse_year_month month_str) as [[year month]|]; [| discriminate].
  destruct (py_int staff_db_id) as [pk|]; [| discriminate].
  destruct (staff_get pk db) as [s|]; [| discriminate].
  destruct (read_deductions_run (form req)) as (rd & Hrd & _). rewrite Hrd.
  destruct rd as [e|d]; [discriminate |].
  destruct (read_reimbursements_run (form req)) as (rr & Hrr & _). rewrite Hrr.
  destruct rr as [e|rb]; [discriminate |].
  destruct (salary_record_first (Staff.id s) month year db) as [[row0 old]|];
    (destruct (calculate_salary_components _) as [e|res]; [discriminate |]);
    destruct (commit_outcomes req) as [|[|] [|[|] later]]; run_more;
    intros H; try discriminate; eexists; reflexivity.
Qed.

(** X5: [d_r_page] leaves the table with the old record deleted and the new
    one missing only when the commit after the delete succeeds and the
    commit after the insert fails; when no commit fails, a request either
    changes nothing or completes the save: the record stored for the key,
    if any, is deleted and the new record is added. *)
Theorem d_r_page_partial_only_on_failed_insert
        (req : Request) (db : Database) :
  (forall row,
      statements (handle RDeductions req db) = [DeleteSalaryRecord row] ->
      exists later, commit_outcomes req = true :: false :: later)
  /\ ((forall b, In b (commit_outcomes req) -> b = true) ->
      (statements (handle RDeductions req db) = []
       /\ database (handle RDeductions req db) = db)
      \/ exists r,
          In (InsertSalaryRecord r) (statements (handle RDeductions req db))
          /\ supersedes db (handle RDeductions req db) r).
Proof.
  split; [intros row; apply d_r_page_delete_alone |].
  intros Hok.
  destruct (handle_d_r_cases req db)
    as [_ Hst Hdb | p e _ _ Hst Hdb _ _ | p res row old _ _ _ _ Hst _ _ _
        | p res _ _ _ Hst _ _ _].
  - left. split; assumption.
  - left. split; assumption.
  - exfalso.
    destruct (d_r_page_delete_alone req db row Hst) as (later & Hout).
    assert (H : false = true)
      by (apply Hok; rewrite Hout; right; left; reflexivity).
    discriminate.
  - right. exists (prep_record p res).
    assert (Hin : In (InsertSalaryRecord (prep_record p res))
                     (statements (handle RDeductions req db))).
    { rewrite Hst. apply in_or_app. right. left. reflexivity. }
    split; [exact Hin | apply d_r_page_supersedes, Hin].
Qed.

(** X6: the record [d_r_page] saves carries the LOP days that were stored
    for its key before the request (0 when none were), the seven deductions
    as read from the form, and the amounts the engine returned. *)
Theorem d_r_page_saved_record_content
        (req : Request) (db : Database) (r : SalaryRecord.t) :
  In (InsertSalaryRecord r) (statements (handle RDeductions req db)) ->
  SalaryRecord.lop_days r
  = match salary_record_first (SalaryRecord.staff_id r) (SalaryRecord.month r)
                              (SalaryRecord.year r) db with
    | Some (_, stored) => SalaryRecord.lop_days stored
    | None => Some 0%Q
    end
  /\ (exists d,
        deductions_read (form req) d
        /\ SalaryRecord.it r = Some (Deductions.it d)
        /\ SalaryRecord.loan r = Some (Deductions.loan d)
        /\ SalaryRecord.advance r = Some (Deductions.advance d)
        /\ SalaryRecord.uniform r = Some (Deductions.uniform d)
        /\ SalaryRecord.cd r = Some (Deductions.cd d)
        /\ SalaryRecord.hostel r = Some (Deductions.hostel d)
        /\ SalaryRecord.misc r = Some (Deductions.misc d))
  /\ exists a res,
      engine_calls (handle RDeductions req db) = [a]
      /\ calculate_salary_components a = inr res
      /\ Args.lop_days a = SalaryRecord.lop_days r
      /\ SalaryRecord.gross_salary r = Components.gross_salary res
      /\ SalaryRecord.lop_amount r = Some (Components.lop_amount res)
      /\ SalaryRecord.epf r = Some (Components.epf res)
      /\ SalaryRecord.esi r = Some (Components.esi res)
      /\ SalaryRecord.total_deductions r
         = Some (Components.total_deductions res)
      /\ SalaryRecord.total_reimbursements r
         = Some (Components.total_reimbursements res).
Proof.
  intros Hin.
  destruct (d_r_page_saved req db r Hin)
    as (p & res & Hp & Hc & Hres & -> & _).
  destruct Hp as (_ & _ & _ & _ & Hex & Hd & _).
  split; [| split].
  - cbn. rewrite Hex. reflexivity.
  - exists (prep_deductions p). cbn. repeat split; try reflexivity; apply Hd.
  - exists (prep_args p), res. cbn. repeat split; assumption.
Qed.

(** X7: an authorised POST to [d_r_page] without a staff or month selection,
    or for a staff key no staff row has, is turned back to the form with an
    error message; the engine is not called and nothing is written. *)
Theorem d_r_page_rejects_selection (req : Request) (db : Database) :
  authorized RDeductions (current_user req) = true ->
  method req = POST ->
  (Py.truthy_opt (form_get (form req) "employee_name")
   && Py.truthy_opt (form_get (form req) "salary_month") = false
   -> flashes (handle RDeductions req db)
      = [{| msg := MissingSelection; category := "error" |}]
      /\ response (handle RDeductions req db)
         = inr (Redirect "routes.d_r_page")
      /\ engine_calls (handle RDeductions req db) = []
      /\ database (handle RDeductions req db) = db)
  /\ (forall staff_db_id month_str period pk,
         form_get (form req) "employee_name" = Some staff_db_id ->
         form_get (form req) "salary_month" = Some month_str ->
         Py.truthy staff_db_id && Py.truthy month_str = true ->
         parse_year_month month_str = Some period ->
         py_int staff_db_id = Some pk ->
         staff_get pk db = None ->
         flashes (handle RDeductions req db)
         = [{| msg := InvalidStaff; category := "error" |}]
         /\ response (handle RDeductions req db)
            = inr (Redirect "routes.d_r_page")
         /\ engine_calls (handle RDeductions req db) = []
         /\ database (handle RDeductions req db) = db).
Proof.
  intros Hauth Hpost.
  unfold authorized in Hauth. apply andb_true_iff in Hauth as [Hlogin Hrole].
  unfold handle, handler_of, login_required, serve, d_r_page.
  rewrite Hlogin, Hpost.
  replace (negb (is_accounts (current_user req))
           && negb (is_admin (current_user req))) with false
    by (destruct (is_accounts (current_user req)),
                 (is_admin (current_user req)); try discriminate;
        reflexivity).
  unfold d_r_post. split.
  - destruct (form_get (form req) "employee_name") as [a|],
             (form_get (form req) "salary_month") as [b|];
      cbn [Py.truthy_opt]; intros H; try rewrite H; repeat split.
  - intros staff_db_id month_str [year month] pk -> -> -> Hym Hpk Hget.
    run_more. rewrite Hym, Hpk, Hget. repeat split.
Qed.

(** X8: on every database the application can reach, no two salary records
    share a (staff, month, year) key and no two staff rows share a primary
    key, whatever requests were served and whichever of their commits
    failed. *)
Theorem reachable_keys_unique (db : Database) :
  reachable db ->
  (forall s m y r1 r2 i j,
      nth_error (salary_records db) i = Some r1 ->
      nth_error (salary_records db) j = Some r2 ->
      SalaryRecord.has_key s m y r1 = true ->
      SalaryRecord.has_key s m y r2 = true ->
      i = j)
  /\ NoDup (map Staff.id (staff db)).
Proof.
  intros Hreach.
  destruct (reachable_tables_ok db Hreach) as (Huniq & Hpks & _).
  split; [| exact Hpks].
  intros s m y r1 r2 i j Hi Hj H1 H2.
  specialize (Huniq s m y).
  revert i j Hi Hj Huniq.
  induction (salary_records db) as [|r l IH]; intros i j Hi Hj Huniq;
    [destruct i; discriminate |].
  cbn [filter] in Huniq.
  assert (Hnone : forall k r0,
             nth_error l k = Some r0 ->
             SalaryRecord.has_key s m y r0 = true ->
             filter (SalaryRecord.has_key s m y) l <> []).
  { intros k r0 Hk Hr0 Hnil.
    apply nth_error_In in Hk.
    assert (Hin : In r0 (filter (SalaryRecord.has_key s m y) l))
      by (apply filter_In; auto).
    rewrite Hnil in Hin. destruct Hin. }
  destruct (SalaryRecord.has_key s m y r) eqn:Hr.
  - assert (Hnil : filter (SalaryRecord.has_key s m y) l = []).
    { destruct (filter (SalaryRecord.has_key s m y) l);
        [reflexivity | cbn in Huniq; lia]. }
    destruct i as [|i], j as [|j]; try reflexivity; cbn in Hi, Hj;
      exfalso; eapply Hnone; eassumption.
  - destruct i as [|i], j as [|j]; cbn in Hi, Hj; try congruence.
    f_equal. eapply IH; eassumption.
Qed.

End MoreFacts.

(** ** What [lop_page] writes *)

Section LopFacts.
Context {rt : Runtime}.

Lemma find_row_app_other {A} (p : A -> bool) (l : list A) (x : A) (i : nat) :
  p x = false -> find_row p i (l ++ [x]) = find_row p i l.
Proof.
  intros Hx. revert i. induction l as [|y l IH]; intros i; cbn.
  - rewrite Hx. reflexivity.
  - destruct (p y); [reflexivity | apply IH].
Qed.

Lemma find_row_update_other {A} (p : A -> bool) (f : A -> A) (n : nat)
      (l : list A) (a : A) (i : nat) :
  (forall x, p (f x) = p x) ->
  nth_error l n = Some a -> p a = false ->
  find_row p i (update_nth n f l) = find_row p i l.
Proof.
  intros Hf. revert n i.
  induction l as [|y l IH]; intros [|n] i Hn Ha; cbn in *; try discriminate.
  - injection Hn as ->. rewrite Hf, Ha. reflexivity.
  - destruct (p y); [reflexivity | eapply IH; eassumption].
Qed.

Lemma filter_update_other {A} (p : A -> bool) (f : A -> A) (n : nat)
      (l : list A) (a : A) :
  (forall x, p (f x) = p x) ->
  nth_error l n = Some a -> p a = false ->
  filter p (update_nth n f l) = filter p l.
Proof.
  intros Hf. revert n.
  induction l as [|y l IH]; intros [|n] Hn Ha; cbn in *; try discriminate.
  - injection Hn as ->. rewrite Hf, Ha. reflexivity.
  - rewrite (IH n Hn Ha). reflexivity.
Qed.

Lemma find_row_update_self {A} (p : A -> bool) (f : A -> A) (l : list A) :
  (forall x, p (f x) = p x) ->
  forall i row a,
    find_row p i l = Some (row, a) ->
    find_row p i (update_nth (row - i) f l) = Some (row, f a).
Proof.
  intros Hf. induction l as [|y l IH]; intros i row a; cbn; [discriminate |].
  destruct (p y) eqn:Hy.
  - intros H. injection H as <- <-. rewrite Nat.sub_diag. cbn.
    rewrite Hf, Hy. reflexivity.
  - intros H. pose proof (find_row_some p l (S i) row a H) as (Hle & _).
    replace (row - i)%nat with (S (row - S i)) by lia.
    cbn. rewrite Hy. apply IH, H.
Qed.

Lemma has_key_other (s0 m0 y0 s m y : Z) (r : SalaryRecord.t) :
  SalaryRecord.has_key s m y r = true ->
  ~ (s = s0 /\ m = m0 /\ y = y0) ->
  SalaryRecord.has_key s0 m0 y0 r = false.
Proof.
  intros Hk Hne. apply has_key_true in Hk as (Hs & Hm & Hy).
  unfold SalaryRecord.has_key. rewrite Hs, Hm, Hy.
  destruct (s =? s0) eqn:E1, (m =? m0) eqn:E2, (y =? y0) eqn:E3;
    try reflexivity.
  apply Z.eqb_eq in E1, E2, E3. tauto.
Qed.

(** One entry of the form touches the records of its own key only. *)
Lemma lop_effect_other_key (month year : Z) (x : Staff.t) (v : Q)
      (db : Database) (s0 m0 y0 : Z) :
  ~ (Staff.id x = s0 /\ month = m0 /\ year = y0) ->
  let db' := apply_stmt db (lop_effect month year x v db) in
  find_row (SalaryRecord.has_key s0 m0 y0) O (salary_records db')
  = find_row (SalaryRecord.has_key s0 m0 y0) O (salary_records db)
  /\ filter (SalaryRecord.has_key s0 m0 y0) (salary_records db')
     = filter (SalaryRecord.has_key s0 m0 y0) (salary_records db)
  /\ staff db' = staff db
  /\ tax_slabs db' = tax_slabs db.
Proof.
  intros Hne. unfold lop_effect, salary_record_first.
  destruct (find_row _ O (salary_records db)) as [[row old]|] eqn:Hfind;
    cbn [apply_stmt salary_records staff tax_slabs].
  - apply find_row_some in Hfind as (_ & Hnth & Hkey & _).
    rewrite Nat.sub_0_r in Hnth.
    pose proof (has_key_other s0 m0 y0 _ _ _ _ Hkey Hne) as Hother.
    repeat split.
    + eapply find_row_update_other; [reflexivity | eassumption | exact Hother].
    + eapply filter_update_other; [reflexivity | eassumption | exact Hother].
  - assert (Hnew : SalaryRecord.has_key s0 m0 y0
                     (new_lop_record x month year v) = false).
    { apply (has_key_other s0 m0 y0 (Staff.id x) month year); [| exact Hne].
      unfold SalaryRecord.has_key. cbn. rewrite !Z.eqb_refl. reflexivity. }
    repeat split.
    + apply find_row_app_other, Hnew.
    + rewrite filter_app. cbn. rewrite Hnew. apply app_nil_r.
Qed.

(** One entry of the form leaves its value in the first record of its
    key. *)
Lemma lop_effect_own_key (month year : Z) (x : Staff.t) (v : Q)
      (db : Database) :
  exists row r,
    salary_record_first (Staff.id x) month year
                        (apply_stmt db (lop_effect month year x v db))
    = Some (row, r)
    /\ SalaryRecord.lop_days r = Some v
    /\ r = match salary_record_first (Staff.id x) month year db with
           | Some (_, old) => SalaryRecord.set_lop_days v old
           | None => new_lop_record x month year v
           end.
Proof.
  unfold lop_effect, salary_record_first.
  destruct (find_row _ O (salary_records db)) as [[row old]|] eqn:Hfind;
    cbn [apply_stmt salary_records].
  - exists row, (SalaryRecord.set_lop_days v old).
    split; [| split; reflexivity].
    pose proof (find_row_update_self
                  (SalaryRecord.has_key (Staff.id x) month year)
                  (SalaryRecord.set_lop_days v) (salary_records db)
                  (fun _ => eq_refl) O row old Hfind) as H.
    rewrite Nat.sub_0_r in H. exact H.
  - exists (List.length (salary_records db)), (new_lop_record x month year v).
    split; [| split; reflexivity].
    apply find_row_none in Hfind.
    assert (Hgen : forall l i,
               filter (SalaryRecord.has_key (Staff.id x) month year) l = [] ->
               find_row (SalaryRecord.has_key (Staff.id x) month year) i
                        (l ++ [new_lop_record x month year v])
               = Some ((i + List.length l)%nat,
                       new_lop_record x month year v)).
    { induction l as [|y l IH]; intros i Hnil; cbn.
      - unfold SalaryRecord.has_key at 1. cbn. rewrite !Z.eqb_refl. cbn.
        rewrite Nat.add_0_r. reflexivity.
      - cbn in Hnil.
        destruct (SalaryRecord.has_key (Staff.id x) month year y);
          [discriminate |].
        rewrite (IH (S i) Hnil). f_equal. f_equal. lia. }
    apply (Hgen _ O Hfind).
Qed.

(** The loop body, as a function of what the session shows. *)
Lemma lop_entry_effect (f : MultiDict) (month year : Z) (x : Staff.t)
      (s : Session) :
  lop_entry f month year x s
  = match lop_target f x with
    | None => (inr tt, s)
    | Some lop_value =>
        match py_float lop_value with
        | None => (inl Py.ValueError, s)
        | Some v =>
            (inr tt,
             with_pending s (pending s
                             ++ [lop_effect month year x v (view s)]))
        end
    end.
Proof.
  unfold lop_entry, lop_target, lop_effect.
  destruct (form_get f _) as [lop_value|]; [| reflexivity].
  destruct (Py.truthy lop_value && _); [| reflexivity].
  unfold bind, value_error, query, ret, raise, execute.
  destruct (py_float lop_value) as [v|]; [| reflexivity].
  destruct (salary_record_first _ _ _ _) as [[row old]|]; reflexivity.
Qed.

Lemma view_with_pending (s : Session) (st : stmt) :
  view (with_pending s (pending s ++ [st])) = apply_stmt (view s) st.
Proof. unfold view. cbn. rewrite fold_left_app. reflexivity. Qed.

(** The loop, as a function of what the session shows. *)
Lemma lop_loop_effect (f : MultiDict) (month year : Z) (l : list Staff.t) :
  forall s,
    let run := for_each (lop_entry f month year) l s in
    committed (snd run) = committed s
    /\ executed (snd run) = executed s
    /\ flashed (snd run) = flashed s
    /\ calls (snd run) = calls s
    /\ outcomes (snd run) = outcomes s
    /\ match lop_stmts f month year l (view s) with
       | Some sts => fst run = inr tt
                     /\ pending (snd run) = (pending s ++ sts)%list
       | None => fst run = inl Py.ValueError
       end.
Proof.
  induction l as [|x l IH]; intros s; cbn [for_each lop_stmts].
  - cbn. rewrite app_nil_r. auto 10.
  - unfold bind. rewrite lop_entry_effect.
    destruct (lop_target f x) as [lop_value|]; [| apply IH].
    destruct (py_float lop_value) as [v|]; [| cbn; auto 10].
    specialize (IH (with_pending s (pending s
                                    ++ [lop_effect month year x v (view s)]))).
    rewrite view_with_pending in IH. cbn zeta in IH.
    destruct IH as (H1 & H2 & H3 & H4 & H5 & H6).
    repeat (split; [assumption |]).
    destruct (lop_stmts f month year l _) as [sts|]; cbn [option_map];
      [| exact H6].
    destruct H6 as [Hr Hp]. split; [exact Hr |].
    rewrite Hp. cbn. rewrite <- app_assoc. reflexivity.
Qed.

(** An authorised POST to [lop_page], as a function of the database. *)
Lemma lop_page_outcome (req : Request) (db : Database) :
  authorized RLop (current_user req) = true ->
  method req = POST ->
  match lop_selection req with
  | None =>
      response (handle RLop req db) = inl Py.ValueError
      /\ database (handle RLop req db) = db
      /\ statements (handle RLop req db) = []
      /\ flashes (handle RLop req db) = []
  | Some (year, month, text) =>
      response (handle RLop req db)
      = inr (LopPage (active_staff_by_name db) text year month)
      /\ match lop_stmts (form req) month year (active_staff_by_name db) db,
               commit_outcomes req with
         | None, _ =>
             database (handle RLop req db) = db
             /\ statements (handle RLop req db) = []
             /\ flashes (handle RLop req db)
                = [{| msg := ErrorUpdatingLop Py.ValueError;
                      category := "error" |}]
         | Some _, false :: _ =>
             database (handle RLop req db) = db
             /\ statements (handle RLop req db) = []
             /\ flashes (handle RLop req db)
                = [{| msg := ErrorUpdatingLop Py.DatabaseError;
                      category := "error" |}]
         | Some sts, _ =>
             database (handle RLop req db) = fold_left apply_stmt sts db
             /\ statements (handle RLop req db) = sts
             /\ flashes (handle RLop req db)
                = [{| msg := LopUpdated text; category := "success" |}]
         end
  end.
Proof.
  intros Hauth Hpost.
  unfold authorized in Hauth. apply andb_true_iff in Hauth as [Hlogin Hrole].
  unfold handle, handler_of, login_required, serve, lop_page, lop_selection.
  rewrite Hlogin, Hpost.
  replace (negb (is_hr (current_user req))
           && negb (is_admin (current_user req))) with false
    by (destruct (is_hr (current_user req)),
                 (is_admin (current_user req)); try discriminate;
        reflexivity).
  destruct (today req) as [[today_year today_month] today_day].
  assert (Hbody : forall year month text,
    let out := finish
      ((try_except
          (for_each (lop_entry (form req) month year)
                    (active_staff_by_name db) ;;
           commit ;;
           flash (LopUpdated text) "success")
          (fun e => rollback ;; flash (ErrorUpdatingLop e) "error") ;;
        ret (LopPage (active_staff_by_name db) text year month))
         (start_session req db)) in
    response out = inr (LopPage (active_staff_by_name db) text year month)
    /\ match lop_stmts (form req) month year (active_staff_by_name db) db,
             commit_outcomes req with
       | None, _ =>
           database out = db /\ statements out = []
           /\ flashes out = [{| msg := ErrorUpdatingLop Py.ValueError;
                                category := "error" |}]
       | Some _, false :: _ =>
           database out = db /\ statements out = []
           /\ flashes out = [{| msg := ErrorUpdatingLop Py.DatabaseError;
                                category := "error" |}]
       | Some sts, _ =>
           database out = fold_left apply_stmt sts db
           /\ statements out = sts
           /\ flashes out = [{| msg := LopUpdated text;
                                category := "success" |}]
       end).
  { intros year month text.
    pose proof (lop_loop_effect (form req) month year
                                (active_staff_by_name db)
                                (start_session req db)) as Hloop.
    cbn zeta in Hloop. cbv [bind try_except].
    destruct (for_each _ _ _) as [r s1].
    cbn [fst snd start_session committed executed flashed calls outcomes
         pending view fold_left app] in Hloop.
    destruct Hloop as (Hc & He & Hf & Hcl & Ho & Hres).
    destruct (lop_stmts (form req) month year (active_staff_by_name db) db)
      as [sts|].
    - destruct Hres as [-> Hp].
      unfold commit, view. rewrite Ho, Hc, Hp, He.
      destruct (commit_outcomes req) as [|[|] o]; cbn; rewrite ?Hf, ?Hc, ?He;
        repeat split; reflexivity.
    - subst r. cbn. rewrite Hf, Hc, He. repeat split. }
  cbv [bind ret value_error raise].
  destruct (Py.or_else _ _) as [sel|]; [| apply Hbody].
  destruct (Py.truthy sel); [| apply Hbody].
  destruct (parse_year_month sel) as [[y m]|]; [apply Hbody |].
  repeat split.
Qed.

Lemma lop_stmts_fails (f : MultiDict) (month year : Z) (x : Staff.t)
      (lop_value : string) (l : list Staff.t) :
  In x l -> lop_target f x = Some lop_value -> py_float lop_value = None ->
  forall db, lop_stmts f month year l db = None.
Proof.
  intros Hin Ht Hbad.
  induction l as [|x0 l IH]; intros db; [destruct Hin |].
  cbn [lop_stmts].
  destruct Hin as [-> | Hin]; [rewrite Ht, Hbad; reflexivity |].
  destruct (lop_target f x0) as [s0|]; [| apply IH, Hin].
  destruct (py_float s0); [| reflexivity].
  rewrite (IH Hin). reflexivity.
Qed.

Lemma lop_stmts_succeeds (f : MultiDict) (month year : Z) (l : list Staff.t) :
  (forall x lop_value,
      In x l -> lop_target f x = Some lop_value ->
      py_float lop_value <> None) ->
  forall db, lop_stmts f month year l db <> None.
Proof.
  induction l as [|x0 l IH]; intros Hok db; cbn [lop_stmts]; [discriminate |].
  assert (Hl : forall x lop_value,
             In x l -> lop_target f x = Some lop_value ->
             py_float lop_value <> None)
    by (intros x v Hx; apply Hok; right; exact Hx).
  destruct (lop_target f x0) as [s0|] eqn:Ht; [| apply IH, Hl].
  specialize (Hok x0 s0 (or_introl eq_refl) Ht).
  destruct (py_float s0) as [v|]; [| congruence].
  specialize (IH Hl (apply_stmt db (lop_effect month year x0 v db))).
  destruct (lop_stmts f month year l _); [discriminate | congruence].
Qed.

Lemma lop_effect_tables (month year : Z) (x : Staff.t) (v : Q)
      (db : Database) :
  staff (apply_stmt db (lop_effect month year x v db)) = staff db
  /\ tax_slabs (apply_stmt db (lop_effect month year x v db)) = tax_slabs db.
Proof.
  unfold lop_effect.
  destruct (salary_record_first _ _ _ _) as [[row old]|]; split; reflexivity.
Qed.

(** The loop leaves alone every key for which it has no entry. *)
Lemma lop_stmts_frame (f : MultiDict) (month year : Z) (s0 m0 y0 : Z)
      (l : list Staff.t) :
  (forall x, In x l -> lop_target f x <> None ->
             ~ (Staff.id x = s0 /\ month = m0 /\ year = y0)) ->
  forall db sts,
    lop_stmts f month year l db = Some sts ->
    find_row (SalaryRecord.has_key s0 m0 y0) O
             (salary_records (fold_left apply_stmt sts db))
    = find_row (SalaryRecord.has_key s0 m0 y0) O (salary_records db)
    /\ filter (SalaryRecord.has_key s0 m0 y0)
              (salary_records (fold_left apply_stmt sts db))
       = filter (SalaryRecord.has_key s0 m0 y0) (salary_records db).
Proof.
  induction l as [|x l IH]; intros Hne db sts; cbn [lop_stmts].
  - intros H. injection H as <-. split; reflexivity.
  - assert (Hl : forall x', In x' l -> lop_target f x' <> None ->
                            ~ (Staff.id x' = s0 /\ month = m0 /\ year = y0))
      by (intros x' Hx'; apply Hne; right; exact Hx').
    destruct (lop_target f x) as [lop_value|] eqn:Ht; [| apply IH, Hl].
    destruct (py_float lop_value) as [v|]; [| discriminate].
    destruct (lop_stmts f month year l _) as [sts'|] eqn:Hrest;
      [| discriminate].
    intros H. injection H as <-. cbn [fold_left].
    destruct (IH Hl _ _ Hrest) as [Hfind Hfilter].
    destruct (lop_effect_other_key month year x v db s0 m0 y0) as (E1 & E2 & _).
    { apply Hne; [left; reflexivity | rewrite Ht; discriminate]. }
    rewrite Hfind, Hfilter. split; assumption.
Qed.

Lemma lop_stmts_tables (f : MultiDict) (month year : Z) (l : list Staff.t) :
  forall db sts,
    lop_stmts f month year l db = Some sts ->
    staff (fold_left apply_stmt sts db) = staff db
    /\ tax_slabs (fold_left apply_stmt sts db) = tax_slabs db.
Proof.
  induction l as [|x l IH]; intros db sts; cbn [lop_stmts].
  - intros H. injection H as <-. split; reflexivity.
  - destruct (lop_target f x) as [lop_value|]; [| apply IH].
    destruct (py_float lop_value) as [v|]; [| discriminate].
    destruct (lop_stmts f month year l _) as [sts'|] eqn:Hrest;
      [| discriminate].
    intros H. injection H as <-. cbn [fold_left].
    destruct (IH _ _ Hrest) as [-> ->]. apply lop_effect_tables.
Qed.

(** The loop leaves every submitted value in the first record of its key. *)
Lemma lop_stmts_stores (f : MultiDict) (month year : Z) (l : list Staff.t) :
  NoDup (map Staff.id l) ->
  forall db sts x lop_value v,
    lop_stmts f month year l db = Some sts ->
    In x l -> lop_target f x = Some lop_value -> py_float lop_value = Some v ->
    exists row r,
      salary_record_first (Staff.id x) month year
                          (fold_left apply_stmt sts db) = Some (row, r)
      /\ SalaryRecord.lop_days r = Some v
      /\ r = match salary_record_first (Staff.id x) month year db with
             | Some (_, old) => SalaryRecord.set_lop_days v old
             | None => new_lop_record x month year v
             end.
Proof.
  induction l as [|x0 l IH]; intros Hnd db sts x lop_value v Hsts Hin Ht Hv;
    [destruct Hin |].
  cbn [map] in Hnd. inversion Hnd as [|? ? Hfresh Hnd']; subst.
  assert (Hother : forall x', In x' l -> Staff.id x' <> Staff.id x0).
  { intros x' Hx' Heq. apply Hfresh. rewrite <- Heq.
    apply in_map, Hx'. }
  cbn [lop_stmts] in Hsts.
  destruct (lop_target f x0) as [s0|] eqn:Ht0.
  - destruct (py_float s0) as [v0|] eqn:Hv0; [| discriminate].
    destruct (lop_stmts f month year l _) as [sts'|] eqn:Hrest;
      [| discriminate].
    injection Hsts as <-. cbn [fold_left].
    destruct Hin as [-> | Hin].
    + rewrite Ht in Ht0. injection Ht0 as <-.
      rewrite Hv in Hv0. injection Hv0 as <-.
      destruct (lop_effect_own_key month year x v db) as (row & r & Hf & Hl & Hr).
      exists row, r. split; [| split; assumption].
      unfold salary_record_first in *.
      destruct (lop_stmts_frame f month year (Staff.id x) month year l)
        with (db := apply_stmt db (lop_effect month year x v db))
             (sts := sts') as [Hfind _].
      * intros x' Hx' _ (Heq & _). eapply Hother; eassumption.
      * exact Hrest.
      * rewrite Hfind. exact Hf.
    + destruct (IH Hnd' _ _ x lop_value v Hrest Hin Ht Hv)
        as (row & r & Hf & Hl & Hr).
      exists row, r. split; [exact Hf |]. split; [exact Hl |].
      rewrite Hr. unfold salary_record_first.
      destruct (lop_effect_other_key month year x0 v0 db (Staff.id x)
                                     month year) as (E & _).
      { intros (Heq & _). apply (Hother x Hin). symmetry. exact Heq. }
      cbn zeta in E. rewrite E. reflexivity.
  - destruct Hin as [-> | Hin]; [congruence |].
    eapply IH; eassumption.
Qed.

Lemma active_staff_In_iff (db : Database) (x : Staff.t) :
  In x (active_staff_by_name db) <-> In x (staff db) /\ Staff.active x = true.
Proof.
  unfold active_staff_by_name. rewrite order_by_In. apply filter_In.
Qed.

Lemma NoDup_map_filter {A B} (g : A -> B) (p : A -> bool) (l : list A) :
  NoDup (map g l) -> NoDup (map g (filter p l)).
Proof.
  induction l as [|x l IH]; cbn; intros Hnd; [constructor |].
  inversion Hnd as [|? ? Hfresh Hnd']; subst.
  destruct (p x); [| apply IH, Hnd'].
  cbn. constructor; [| apply IH, Hnd'].
  intros Hin. apply Hfresh.
  apply in_map_iff in Hin as (y & Hy & Hin).
  apply filter_In in Hin as [Hin _].
  apply in_map_iff. exists y. split; assumption.
Qed.

Lemma active_staff_NoDup (db : Database) :
  NoDup (map Staff.id (staff db)) ->
  NoDup (map Staff.id (active_staff_by_name db)).
Proof.
  intros Hnd. unfold active_staff_by_name.
  eapply Permutation_NoDup.
  - apply Permutation_map, Permutation_sym, order_by_perm.
  - apply NoDup_map_filter, Hnd.
Qed.

(** X9: [lop_page] saves all the submitted LOP values or none: when the
    value submitted for one active staff member is not blank (not empty,
    and not made of whitespace characters only) and does not read as a
    float, the request reports the error and the database is left as it
    was, whatever the other entries are. *)
Theorem lop_page_all_or_nothing
        (req : Request) (db : Database) (x : Staff.t) (lop_value : string) :
  authorized RLop (current_user req) = true ->
  method req = POST ->
  lop_selection req <> None ->
  In x (staff db) -> Staff.active x = true ->
  form_get (form req) ("lop_" ++ Py.str (Staff.id x)) = Some lop_value ->
  blank lop_value = false ->
  py_float lop_value = None ->
  database (handle RLop req db) = db
  /\ statements (handle RLop req db) = []
  /\ flashes (handle RLop req db)
     = [{| msg := ErrorUpdatingLop Py.ValueError; category := "error" |}].
Proof.
  intros Hauth Hpost Hsel Hin Hact Hget Hblank Hbad.
  assert (Ht : lop_target (form req) x = Some lop_value).
  { unfold lop_target.
    rewrite Hget, entered_iff_not_blank, Hblank. reflexivity. }
  pose proof (lop_page_outcome req db Hauth Hpost) as Hout.
  destruct (lop_selection req) as [[[year month] text]|]; [| congruence].
  destruct Hout as [_ Hout].
  rewrite (lop_stmts_fails (form req) month year x lop_value) in Hout;
    [exact Hout | | exact Ht | exact Hbad].
  apply active_staff_In_iff. split; assumption.
Qed.

Lemma lop_stmts_stores_on_page
      (req : Request) (db : Database) (year month : Z) (text : string)
      (x : Staff.t) (lop_value : string) (v : Q) :
  NoDup (map Staff.id (staff db)) ->
  authorized RLop (current_user req) = true ->
  method req = POST ->
  lop_selection req = Some (year, month, text) ->
  (forall x' lop_value',
      In x' (staff db) -> Staff.active x' = true ->
      lop_target (form req) x' = Some lop_value' ->
      py_float lop_value' <> None) ->
  hd true (commit_outcomes req) = true ->
  In x (staff db) -> Staff.active x = true ->
  lop_target (form req) x = Some lop_value ->
  py_float lop_value = Some v ->
  exists row r,
    salary_record_first (Staff.id x) month year (database (handle RLop req db))
    = Some (row, r)
    /\ SalaryRecord.lop_days r = Some v
    /\ r = match salary_record_first (Staff.id x) month year db with
           | Some (_, old) => SalaryRecord.set_lop_days v old
           | None => new_lop_record x month year v
           end.
Proof.
  intros Hnd Hauth Hpost Hsel Hok Hcommit Hin Hact Ht Hv.
  pose proof (lop_page_outcome req db Hauth Hpost) as Hout.
  rewrite Hsel in Hout. destruct Hout as [_ Hout].
  pose proof (lop_stmts_succeeds (form req) month year
                                 (active_staff_by_name db)) as Hsome.
  destruct (lop_stmts (form req) month year (active_staff_by_name db) db)
    as [sts|] eqn:Hsts.
  - assert (Hdb : database (handle RLop req db) = fold_left apply_stmt sts db).
    { destruct (commit_outcomes req) as [|[|] o];
        [apply Hout | apply Hout | discriminate]. }
    rewrite Hdb.
    apply (lop_stmts_stores (form req) month year (active_staff_by_name db)
                            (active_staff_NoDup db Hnd) db sts x lop_value v
                            Hsts);
      [apply active_staff_In_iff; split; assumption | exact Ht | exact Hv].
  - exfalso. apply (Hsome) with (db := db); [| exact Hsts].
    intros x' v' Hx'. apply active_staff_In_iff in Hx' as [Hx' Hact'].
    apply Hok; assumption.
Qed.

(** X10: when staff primary keys are distinct, every submitted value reads
    as a float and the commit succeeds, an authorised POST to [lop_page]
    leaves, for each active staff member with a non-blank entry, that value
    as the LOP days of the record of (staff, month, year): the stored
    record with only its LOP days changed, or a new record with the staff
    member's gross salary when none was stored. *)
Theorem lop_page_stores_submitted_days
        (req : Request) (db : Database) (year month : Z) (text : string)
        (x : Staff.t) (lop_value : string) (v : Q) :
  NoDup (map Staff.id (staff db)) ->
  authorized RLop (current_user req) = true ->
  method req = POST ->
  lop_selection req = Some (year, month, text) ->
  (forall x' lop_value',
      In x' (staff db) -> Staff.active x' = true ->
      lop_target (form req) x' = Some lop_value' ->
      py_float lop_value' <> None) ->
  hd true (commit_outcomes req) = true ->
  In x (staff db) -> Staff.active x = true ->
  lop_target (form req) x = Some lop_value ->
  py_float lop_value = Some v ->
  exists row r,
    salary_record_first (Staff.id x) month year (database (handle RLop req db))
    = Some (row, r)
    /\ SalaryRecord.lop_days r = Some v
    /\ r = match salary_record_first (Staff.id x) month year db with
           | Some (_, old) => SalaryRecord.set_lop_days v old
           | None => new_lop_record x month year v
           end
    /\ flashes (handle RLop req db)
       = [{| msg := LopUpdated text; category := "success" |}].
Proof.
  intros Hnd Hauth Hpost Hsel Hok Hcommit Hin Hact Ht Hv.
  destruct (lop_stmts_stores_on_page req db year month text x lop_value v)
    as (row & r & Hfirst & Hdays & Hr); try assumption.
  exists row, r. repeat (split; [assumption |]).
  pose proof (lop_page_outcome req db Hauth Hpost) as Hout.
  rewrite Hsel in Hout. destruct Hout as [_ Hout].
  destruct (lop_stmts (form req) month year (active_staff_by_name db) db)
    as [sts|] eqn:Hsts.
  - destruct (commit_outcomes req) as [|[|] o];
      [apply Hout | apply Hout | discriminate].
  - exfalso.
    apply (lop_stmts_succeeds (form req) month year (active_staff_by_name db))
      with (db := db); [| exact Hsts].
    intros x' v' Hx'. apply active_staff_In_iff in Hx' as [Hx' Hact'].
    apply Hok; assumption.
Qed.

(** X11: an authorised POST to [lop_page] changes salary records of the
    selected month only, and only those of active staff members with a
    non-blank entry: the records of any other (staff, month, year) key,
    the staff table and the slab table are left as they were. *)
Theorem lop_page_touches_submitted_keys_only
        (req : Request) (db : Database) (s0 m0 y0 : Z) :
  authorized RLop (current_user req) = true ->
  method req = POST ->
  (forall year month text,
      lop_selection req = Some (year, month, text) ->
      month <> m0 \/ year <> y0
      \/ forall x, In x (staff db) -> Staff.active x = true ->
                   Staff.id x = s0 -> lop_target (form req) x = None) ->
  filter (SalaryRecord.has_key s0 m0 y0)
         (salary_records (database (handle RLop req db)))
  = filter (SalaryRecord.has_key s0 m0 y0) (salary_records db)
  /\ staff (database (handle RLop req db)) = staff db
  /\ tax_slabs (database (handle RLop req db)) = tax_slabs db.
Proof.
  intros Hauth Hpost Hkey.
  pose proof (lop_page_outcome req db Hauth Hpost) as Hout.
  destruct (lop_selection req) as [[[year month] text]|];
    [| destruct Hout as (_ & -> & _); repeat split].
  specialize (Hkey year month text eq_refl).
  destruct Hout as [_ Hout].
  destruct (lop_stmts (form req) month year (active_staff_by_name db) db)
    as [sts|] eqn:Hsts;
    [| destruct Hout as (-> & _); repeat split].
  assert (Hdb : database (handle RLop req db) = db
                \/ database (handle RLop req db)
                   = fold_left apply_stmt sts db).
  { destruct (commit_outcomes req) as [|[|] o];
      [right | right | left]; apply Hout. }
  destruct Hdb as [-> | ->]; [repeat split |].
  destruct (lop_stmts_tables _ _ _ _ _ _ Hsts) as [Hstaff Htax].
  split; [| split; assumption].
  eapply (lop_stmts_frame (form req) month year s0 m0 y0); [| exact Hsts].
  intros x Hx Htarget (Hid & Hm & Hy).
  apply active_staff_In_iff in Hx as [Hx Hact].
  destruct Hkey as [Hne | [Hne | Hnone]]; [congruence | congruence |].
  apply Htarget, Hnone; assumption.
Qed.

End LopFacts.

(** ** The read-only handlers *)

Section ReadFacts.
Context {rt : Runtime}.

Lemma api_get_lop_lookup (req : Request) (db : Database) (s m y : Z) :
  is_authenticated (current_user req) = true ->
  is_accounts (current_user req) || is_hr (current_user req)
  || is_admin (current_user req) = true ->
  arg_int (args req) "staff_id" = Some s ->
  arg_int (args req) "month" = Some m ->
  arg_int (args req) "year" = Some y ->
  s <> 0 -> m <> 0 -> y <> 0 ->
  lop_api_response req db
  = inr (ApiLop match salary_record_first s m y db with
                | Some (_, r) =>
                    match SalaryRecord.lop_days r with
                    | Some lop_days => lop_days
                    | None => 0%Q
                    end
                | None => 0%Q
                end None 200).
Proof.
  intros Hlogin Hrole Hs Hm Hy Hs0 Hm0 Hy0.
  unfold lop_api_response, run_request, require_login, api_get_lop.
  rewrite Hlogin, Hrole, Hs, Hm, Hy. cbn [negb truthy_int].
  apply Z.eqb_neq in Hs0, Hm0, Hy0. rewrite Hs0, Hm0, Hy0.
  reflexivity.
Qed.

(** X12: what HR saves through [lop_page] is what [api_get_lop] answers:
    after an authorised POST in which every submitted value reads as a
    float and the commit succeeds, a query by a user with a role for the
    primary key of an active staff member with a non-blank entry, the month
    and the year (none of them 0) answers the submitted LOP days. *)
Theorem lop_page_then_api_get_lop
        (req query : Request) (db : Database) (year month : Z) (text : string)
        (x : Staff.t) (lop_value : string) (v : Q) :
  NoDup (map Staff.id (staff db)) ->
  authorized RLop (current_user req) = true ->
  method req = POST ->
  lop_selection req = Some (year, month, text) ->
  (forall x' lop_value',
      In x' (staff db) -> Staff.active x' = true ->
      lop_target (form req) x' = Some lop_value' ->
      py_float lop_value' <> None) ->
  hd true (commit_outcomes req) = true ->
  In x (staff db) -> Staff.active x = true ->
  lop_target (form req) x = Some lop_value ->
  py_float lop_value = Some v ->
  is_authenticated (current_user query) = true ->
  is_accounts (current_user query) || is_hr (current_user query)
  || is_admin (current_user query) = true ->
  arg_int (args query) "staff_id" = Some (Staff.id x) ->
  arg_int (args query) "month" = Some month ->
  arg_int (args query) "year" = Some year ->
  Staff.id x <> 0 -> month <> 0 -> year <> 0 ->
  lop_api_response query (database (handle RLop req db))
  = inr (ApiLop v None 200).
Proof.
  intros Hnd Hauth Hpost Hsel Hok Hcommit Hin Hact Ht Hv
         Hlogin Hrole Hs Hm Hy Hs0 Hm0 Hy0.
  rewrite (api_get_lop_lookup query _ (Staff.id x) month year) by assumption.
  destruct (lop_stmts_stores_on_page req db year month text x lop_value v)
    as (row & r & -> & -> & _); try assumption.
  reflexivity.
Qed.

(** X13: [api_get_lop] answers 0 LOP days and "missing params" whenever one
    of staff_id, month and year is absent, is not an integer or is 0,
    whatever is stored; a logged-in user without a role gets status 403;
    and the handler never writes. *)
Theorem api_get_lop_missing_params (req : Request) (db : Database) :
  (is_authenticated (current_user req) = true ->
   is_accounts (current_user req) || is_hr (current_user req)
   || is_admin (current_user req) = true ->
   truthy_int (arg_int (args req) "staff_id")
   && truthy_int (arg_int (args req) "month")
   && truthy_int (arg_int (args req) "year") = false ->
   lop_api_response req db = inr (ApiLop 0 (Some "missing params") 200))
  /\ (is_authenticated (current_user req) = true ->
      is_accounts (current_user req) || is_hr (current_user req)
      || is_admin (current_user req) = false ->
      lop_api_response req db = inr (ApiError "Access denied" 403))
  /\ committed (snd (run_request (require_login ApiLogin api_get_lop) req db))
     = db
  /\ pending (snd (run_request (require_login ApiLogin api_get_lop) req db))
     = [].
Proof.
  unfold lop_api_response, run_request, require_login, api_get_lop.
  split; [| split].
  - intros -> -> Hmiss. cbn [negb].
    destruct (arg_int (args req) "staff_id") as [s|],
             (arg_int (args req) "month") as [m|],
             (arg_int (args req) "year") as [y|]; try reflexivity.
    rewrite Hmiss. reflexivity.
  - intros -> ->. reflexivity.
  - destruct (is_authenticated (current_user req)); [| split; reflexivity].
    destruct (negb _); [split; reflexivity |].
    destruct (arg_int (args req) "staff_id") as [s|],
             (arg_int (args req) "month") as [m|],
             (arg_int (args req) "year") as [y|]; try (split; reflexivity).
    destruct (_ && _); split; reflexivity.
Qed.

(** X14: the LOP days [api_get_lop] answers for a staff key, month and year
    are the LOP days [d_r_page] passes to the engine for the same
    selection, with 0 where [d_r_page] passes [None], the NULL of a stored
    record. *)
Theorem api_get_lop_matches_engine_argument
        (req query : Request) (db : Database) (a : Args.t)
        (staff_db_id : string) :
  In a (engine_calls (handle RDeductions req db)) ->
  form_get (form req) "employee_name" = Some staff_db_id ->
  form_get (args query) "staff_id" = Some staff_db_id ->
  arg_int (args query) "month" = Some (Args.month a) ->
  arg_int (args query) "year" = Some (Args.year a) ->
  py_int staff_db_id <> Some 0 -> Args.month a <> 0 -> Args.year a <> 0 ->
  is_authenticated (current_user query) = true ->
  is_accounts (current_user query) || is_hr (current_user query)
  || is_admin (current_user query) = true ->
  lop_api_response query db
  = inr (ApiLop match Args.lop_days a with
                | Some lop_days => lop_days
                | None => 0%Q
                end None 200).
Proof.
  intros Hin Hform Hquery Hm Hy Hs0 Hm0 Hy0 Hlogin Hrole.
  apply engine_call_prepared in Hin as (p & Hp & -> & _).
  destruct Hp as ((sid & Hsid & Hpk) & _ & _ & Hs & Hex & _).
  rewrite Hform in Hsid. injection Hsid as <-.
  apply staff_get_In in Hs as [_ Hid].
  cbn [prep_args Args.month Args.year Args.lop_days] in *.
  rewrite (api_get_lop_lookup query db (prep_staff_pk p) (prep_month p)
                              (prep_year p)); try assumption.
  - unfold prep_lop_days. rewrite <- Hex, Hid.
    destruct (salary_record_first (prep_staff_pk p) (prep_month p)
                                  (prep_year p) db) as [[row r]|];
      reflexivity.
  - unfold arg_int. rewrite Hquery. exact Hpk.
  - congruence.
Qed.

End ReadFacts.

(** ** Slabs, the overview and the fixer *)

Section PageFacts.
Context {rt : Runtime}.

Ltac run_page :=
  cbv [bind ret raise lift value_error query execute commit rollback flash
       set_frame get_frame try_except call_engine view fold_left app
       with_pending start_session finish fst snd form_index
       float_or_zero float_field_or_zero
       committed pending executed calls flashed frame outcomes
       response flashes database statements engine_calls
       result selected_staff_id selected_month empty_frame].

(** X15: a slab added through [professional_tax] is listed: after an
    authorised POST whose three fields read as floats and whose commit
    succeeds, the slab table is the old one with the new slab appended, and
    the page then shows the old slabs and the new one, each once, in
    ascending order of [range_from]. *)
Theorem professional_tax_add_then_list
        (req view_req : Request) (db : Database)
        (from_str to_str tax_str : string) (lo hi tax : Q) :
  authorized RProfessionalTax (current_user req) = true ->
  method req = POST ->
  form_get (form req) "range_from" = Some from_str ->
  form_get (form req) "range_to" = Some to_str ->
  form_get (form req) "tax_amount" = Some tax_str ->
  py_float from_str = Some lo ->
  py_float to_str = Some hi ->
  py_float tax_str = Some tax ->
  hd true (commit_outcomes req) = true ->
  authorized RProfessionalTax (current_user view_req) = true ->
  method view_req = GET ->
  let slab := {| ProfessionalTax.range_from := lo;
                 ProfessionalTax.range_to := hi;
                 ProfessionalTax.tax_amount := tax |} in
  tax_slabs (database (handle RProfessionalTax req db))
  = (tax_slabs db ++ [slab])%list
  /\ exists listed,
      response (handle RProfessionalTax view_req
                       (database (handle RProfessionalTax req db)))
      = inr (ProfessionalTaxPage listed)
      /\ Permutation listed (slab :: tax_slabs db)
      /\ Engine.ascending listed.
Proof.
  intros Hauth Hpost Hfrom Hto Htax Hlo Hhi Hamount Hcommit Hauth' Hget slab.
  unfold authorized in Hauth, Hauth'.
  apply andb_true_iff in Hauth as [Hlogin Hrole].
  apply andb_true_iff in Hauth' as [Hlogin' Hrole'].
  assert (Hdb : database (handle RProfessionalTax req db)
                = apply_stmt db (InsertProfessionalTax slab)).
  { unfold handle, handler_of, login_required, serve, professional_tax.
    rewrite Hlogin, Hpost.
    replace (negb (is_admin (current_user req))
             && negb (is_accounts (current_user req))) with false
      by (destruct (is_admin (current_user req)),
                   (is_accounts (current_user req)); try discriminate;
          reflexivity).
    run_page. rewrite Hfrom, Hlo, Hto, Hhi, Htax, Hamount.
    destruct (commit_outcomes req) as [|[|] o];
      [reflexivity | reflexivity | discriminate]. }
  rewrite Hdb. split; [reflexivity |].
  exists (slabs_by_range_from (apply_stmt db (InsertProfessionalTax slab))).
  split; [| split].
  - unfold handle, handler_of, login_required, serve, professional_tax.
    rewrite Hlogin', Hget.
    replace (negb (is_admin (current_user view_req))
             && negb (is_accounts (current_user view_req))) with false
      by (destruct (is_admin (current_user view_req)),
                   (is_accounts (current_user view_req)); try discriminate;
          reflexivity).
    reflexivity.
  - eapply perm_trans; [apply slabs_by_range_from_perm |].
    cbn [apply_stmt tax_slabs].
    apply Permutation_sym, Permutation_cons_append.
  - apply slabs_by_range_from_ascending.
Qed.

Lemma period_desc_total (a b : SalaryRecord.t) :
  period_desc a b = true \/ period_desc b a = true.
Proof.
  unfold period_desc.
  rewrite !orb_true_iff, !andb_true_iff, !Z.ltb_lt, !Z.eqb_eq, !Z.leb_le.
  lia.
Qed.

Lemma period_desc_trans (a b c : SalaryRecord.t) :
  period_desc a b = true -> period_desc b c = true -> period_desc a c = true.
Proof.
  unfold period_desc.
  rewrite !orb_true_iff, !andb_true_iff, !Z.ltb_lt, !Z.eqb_eq, !Z.leb_le.
  lia.
Qed.

Lemma with_days_in_month_run (r : SalaryRecord.t) (s : Session) :
  with_days_in_month r s
  = (match Py.days_in_month (SalaryRecord.year r) (SalaryRecord.month r) with
     | Some days => inr (r, days)
     | None => inl Py.ValueError
     end, s).
Proof.
  unfold with_days_in_month, bind, value_error, ret, raise.
  destruct (Py.days_in_month _ _); reflexivity.
Qed.

(** Attaching the days of the month does not touch the session; it raises
    exactly when a record's month is outside 1..12. *)
Lemma with_days_run (l : list SalaryRecord.t) :
  exists res,
    (forall s, map_m with_days_in_month l s = (res, s))
    /\ match res with
       | inr listed =>
           map fst listed = l
           /\ Forall (fun rd => Py.days_in_month (SalaryRecord.year (fst rd))
                                                 (SalaryRecord.month (fst rd))
                                = Some (snd rd)) listed
       | inl e =>
           e = Py.ValueError
           /\ Exists (fun r => Py.days_in_month (SalaryRecord.year r)
                                                (SalaryRecord.month r) = None) l
       end.
Proof.
  induction l as [|r l (res & Hrun & Hres)].
  - exists (inr []). split; [reflexivity |]. split; constructor.
  - destruct (Py.days_in_month (SalaryRecord.year r) (SalaryRecord.month r))
      as [days|] eqn:Hdays.
    + destruct res as [e|listed].
      * exists (inl e). split.
        -- intros s. cbn [map_m]. unfold bind.
           rewrite with_days_in_month_run, Hdays, Hrun. reflexivity.
        -- destruct Hres as [-> Hex]. split; [reflexivity | right; exact Hex].
      * exists (inr ((r, days) :: listed)). split.
        -- intros s. cbn [map_m]. unfold bind.
           rewrite with_days_in_month_run, Hdays, Hrun. reflexivity.
        -- destruct Hres as [Hmap Hall]. split.
           ++ cbn. rewrite Hmap. reflexivity.
           ++ constructor; [exact Hdays | exact Hall].
    + exists (inl Py.ValueError). split.
      * intros s. cbn [map_m]. unfold bind.
        rewrite with_days_in_month_run, Hdays. reflexivity.
      * split; [reflexivity | left; exact Hdays].
Qed.

(** X16: for a user with the accounts or admin role, [salary_overview]
    lists the joined salary records that match the month and the year
    asked for (no filter for a value that is absent, not an integer or 0),
    each once, latest period first, each with the number of days of its
    month; it raises instead as soon as one of them has a month outside
    1..12. *)
Theorem salary_overview_lists (req : Request) (db : Database) :
  is_authenticated (current_user req) = true ->
  is_accounts (current_user req) || is_admin (current_user req) = true ->
  let month := arg_int (args req) "month" in
  let year := arg_int (args req) "year" in
  let matching :=
    filter_if SalaryRecord.year year
              (filter_if SalaryRecord.month month (joined_records db)) in
  (Forall (fun r => Py.days_in_month (SalaryRecord.year r)
                                     (SalaryRecord.month r) <> None)
          matching ->
   exists listed,
     overview_response req db = inr (OverviewPage listed month year)
     /\ Permutation (map fst listed) matching
     /\ StronglySorted (fun a b => period_desc a b = true) (map fst listed)
     /\ Forall (fun rd => Py.days_in_month (SalaryRecord.year (fst rd))
                                           (SalaryRecord.month (fst rd))
                          = Some (snd rd)) listed)
  /\ (Exists (fun r => Py.days_in_month (SalaryRecord.year r)
                                        (SalaryRecord.month r) = None)
             matching ->
      overview_response req db = inl Py.ValueError).
Proof.
  intros Hlogin Hrole month year matching.
  unfold overview_response, run_request, require_login, salary_overview.
  rewrite Hlogin.
  replace (negb (is_accounts (current_user req))
           && negb (is_admin (current_user req))) with false
    by (destruct (is_accounts (current_user req)),
                 (is_admin (current_user req)); try discriminate;
        reflexivity).
  unfold bind, query, ret. cbn [view start_session pending committed fold_left].
  fold month year. unfold overview_records. fold matching.
  destruct (with_days_run (order_by period_desc matching))
    as (res & Hrun & Hres).
  rewrite Hrun. cbn [fst].
  assert (Hperm : Permutation (order_by period_desc matching) matching)
    by apply order_by_perm.
  split.
  - intros Hvalid. destruct res as [e|listed].
    + exfalso. destruct Hres as [_ Hex].
      apply Exists_exists in Hex as (r & Hr & Hnone).
      rewrite Forall_forall in Hvalid.
      apply (Hvalid r); [| exact Hnone].
      eapply Permutation_in; eassumption.
    + destruct Hres as [Hmap Hall]. exists listed.
      split; [reflexivity |]. rewrite Hmap.
      split; [exact Hperm |]. split; [| exact Hall].
      apply order_by_sorted;
        [apply period_desc_total | apply period_desc_trans].
  - intros Hinvalid. destruct res as [e|listed].
    + destruct Hres as [-> _]. reflexivity.
    + exfalso. destruct Hres as [Hmap Hall].
      apply Exists_exists in Hinvalid as (r & Hr & Hnone).
      apply (Permutation_in _ (Permutation_sym Hperm)) in Hr.
      rewrite <- Hmap in Hr. apply in_map_iff in Hr as (rd & <- & Hrd).
      rewrite Forall_forall in Hall. rewrite (Hall rd Hrd) in Hnone.
      discriminate.
Qed.

Lemma app_stmt_records_have_staff (db : Database) (st : stmt) :
  records_have_staff db -> app_stmt db st ->
  records_have_staff (apply_stmt db st).
Proof.
  intros Hg Hst r Hr.
  destruct Hst as [s Hid| st [row v | s month year v Hin Hnone] | row
                  | s month year lop_days d a res Hin Hnone Ha Hres | t];
    cbn [apply_stmt staff salary_records] in *.
  - destruct (Hg r Hr) as (x & Hx & Hk).
    exists x. split; [apply in_or_app; left; exact Hx | exact Hk].
  - apply In_update_nth in Hr as (r0 & Hr0 & [-> | ->]);
      destruct (Hg r0 Hr0) as (x & Hx & Hk); exists x; auto.
  - apply in_app_or in Hr as [Hr | [<- | []]]; [apply Hg, Hr |].
    exists s. auto.
  - apply Hg. eapply In_remove_nth, Hr.
  - apply in_app_or in Hr as [Hr | [<- | []]]; [apply Hg, Hr |].
    exists s. auto.
  - apply Hg, Hr.
Qed.

Lemma reachable_records_have_staff (db : Database) :
  reachable db -> records_have_staff db.
Proof.
  induction 1 as [|r req db Hreach IH].
  - intros r [].
  - destruct (handle_flushed r req db
                (proj1 (reachable_tables_ok db Hreach))) as [Ht ->].
    apply (trace_preserves app_stmt records_have_staff);
      [| exact IH | exact Ht].
    intros db0 st Hg Hst. eapply app_stmt_records_have_staff; eassumption.
Qed.

Lemma filter_unique_pk (l : list Staff.t) (s : Staff.t) :
  NoDup (map Staff.id l) -> In s l ->
  filter (fun s' => Staff.id s' =? Staff.id s) l = [s].
Proof.
  induction l as [|x l IH]; intros Hnd Hin; [destruct Hin |].
  cbn [map] in Hnd. inversion Hnd as [|? ? Hfresh Hnd']; subst.
  cbn [filter]. destruct Hin as [-> | Hin].
  - rewrite Z.eqb_refl. f_equal.
    clear IH Hnd Hnd'. induction l as [|y l IH]; [reflexivity |].
    cbn [filter]. destruct (Staff.id y =? Staff.id s) eqn:E.
    + exfalso. apply Hfresh. left. apply Z.eqb_eq, E.
    + apply IH. intros H. apply Hfresh. right. exact H.
  - destruct (Staff.id x =? Staff.id s) eqn:E; [| apply IH; assumption].
    exfalso. apply Hfresh. apply Z.eqb_eq in E. rewrite E.
    apply in_map, Hin.
Qed.

(** X17: on every database the application can reach each salary record
    references exactly one staff row, so the join of [salary_overview]
    neither drops nor repeats a record. *)
Theorem reachable_join_keeps_records (db : Database) :
  reachable db ->
  joined_records db = salary_records db
  /\ forall r, In r (salary_records db) ->
               exists s, filter (fun s' => Staff.id s'
                                           =? SalaryRecord.staff_id r)
                                (staff db) = [s].
Proof.
  intros Hreach.
  pose proof (reachable_records_have_staff db Hreach) as Hhave.
  destruct (reachable_tables_ok db Hreach) as (_ & Hpks & _).
  unfold staff_pks_distinct in Hpks.
  assert (Hone : forall r, In r (salary_records db) ->
                           exists s, filter (fun s' => Staff.id s'
                                                       =? SalaryRecord.staff_id r)
                                            (staff db) = [s]).
  { intros r Hr. destruct (Hhave r Hr) as (s & Hs & Hid).
    exists s. rewrite <- Hid. apply filter_unique_pk; assumption. }
  split; [| exact Hone].
  unfold joined_records.
  induction (salary_records db) as [|r l IH]; [reflexivity |].
  cbn [flat_map]. destruct (Hone r (or_introl eq_refl)) as (s & ->).
  cbn. f_equal. apply IH.
  intros r' Hr'. apply Hone. right. exact Hr'.
Qed.

(** X18: [fixer] applies nothing: for an admin, a POST with a staff id and
    an increment above 0 is answered with the message that the increment
    was applied, and no request to [fixer] writes anything, so every
    salary stays as it was. *)
Theorem fixer_applies_nothing (req : Request) (db : Database) :
  committed (snd (run_request
                    (require_login (FixerRedirect "routes.login" None) fixer)
                    req db)) = db
  /\ pending (snd (run_request
                     (require_login (FixerRedirect "routes.login" None) fixer)
                     req db)) = []
  /\ forall staff_id increment,
      is_authenticated (current_user req) = true ->
      is_admin (current_user req) = true ->
      method req = POST ->
      form_get (form req) "staff_id" = Some staff_id ->
      Py.truthy staff_id = true ->
      reads_or_zero (form_get (form req) "increment_value") increment ->
      (0 < increment)%Q ->
      fixer_response req db
      = inr (FixerRedirect
               "routes.fixer"
               (Some (IncrementApplied
                        increment staff_id
                        (form_get (form req) "effective_date")))).
Proof.
  unfold fixer_response, run_request, require_login, fixer.
  split; [| split].
  - destruct (is_authenticated (current_user req)); [| reflexivity].
    destruct (negb (is_admin (current_user req))); [reflexivity |].
    run_page.
    destruct (method req); [reflexivity |].
    destruct (form_get (form req) "increment_value") as [x|];
      [destruct (Py.truthy x); [destruct (py_float x) |] |];
      try reflexivity;
      (destruct (form_get (form req) "staff_id") as [sid|]; [| reflexivity]);
      destruct (negb (Py.truthy sid) || _); reflexivity.
  - destruct (is_authenticated (current_user req)); [| reflexivity].
    destruct (negb (is_admin (current_user req))); [reflexivity |].
    run_page.
    destruct (method req); [reflexivity |].
    destruct (form_get (form req) "increment_value") as [x|];
      [destruct (Py.truthy x); [destruct (py_float x) |] |];
      try reflexivity;
      (destruct (form_get (form req) "staff_id") as [sid|]; [| reflexivity]);
      destruct (negb (Py.truthy sid) || _); reflexivity.
  - intros staff_id increment -> -> -> Hsid Htruthy Hreads Hpos.
    cbn [negb]. run_page. rewrite Hsid, Htruthy. cbn [negb orb].
    assert (Hle : Qle_bool increment 0 = false).
    { destruct (Qle_bool increment 0) eqn:E; [| reflexivity].
      apply Qle_bool_iff in E. exfalso.
      apply (Qlt_irrefl 0). eapply Qlt_le_trans; eassumption. }
    unfold reads_or_zero in Hreads.
    destruct (form_get (form req) "increment_value") as [x|].
    + destruct (Py.truthy x).
      * rewrite Hreads, Hle. reflexivity.
      * subst increment. exfalso. apply (Qlt_irrefl 0), Hpos.
    + subst increment. exfalso. apply (Qlt_irrefl 0), Hpos.
Qed.

End PageFacts.

(** ** Staff rows and submitted months *)

Section StaffFacts.
Context {rt : Runtime}.

Ltac run_staff :=
  cbv [bind ret raise lift value_error query execute commit rollback flash
       set_frame get_frame try_except call_engine view fold_left app
       with_pending start_session finish fst snd form_index
       float_or_zero float_field_or_zero
       committed pending executed calls flashed frame outcomes
       response flashes database statements engine_calls
       result selected_staff_id selected_month empty_frame].

Ltac split_eqn :=
  match goal with
  | |- context [match ?x with _ => _ end] =>
      lazymatch x with
      | context [match _ with _ => _ end] => fail
      | _ => destruct x eqn:?
      end
  end.

(** X19: the staff row [new_staff] stores holds the submitted fields: the
    texts as given, the base salary, allowances and deductions as floats
    with 0 for an empty or (for the last two) absent field, the joining
    date as parsed, [active] only when the checkbox reads "on", and the
    next staff id; the row gets a fresh primary key and is appended to the
    staff table. *)
Theorem new_staff_stores_form (req : Request) (db : Database) (s : Staff.t) :
  In (InsertStaff s) (statements (handle RNewStaff req db)) ->
  let f := form req in
  form_get f "name" = Some (Staff.name s)
  /\ form_get f "category" = Some (Staff.category s)
  /\ form_get f "department" = Some (Staff.department s)
  /\ form_get f "designation" = Some (Staff.designation s)
  /\ form_get f "bank_account" = Some (Staff.bank_account s)
  /\ form_get f "aadhar" = Some (Staff.aadhar s)
  /\ form_get f "base_salary" <> None
  /\ reads_or_zero (form_get f "base_salary") (Staff.base_salary s)
  /\ (exists a, Staff.allowances s = Some a
                /\ reads_or_zero (form_get f "allowances") a)
  /\ (exists d, Staff.deductions s = Some d
                /\ reads_or_zero (form_get f "deductions") d)
  /\ (exists joined, form_get f "date_joined" = Some joined
                     /\ py_strptime joined = Some (Staff.date_joined s))
  /\ Staff.pf_number s = form_get f "pf_number"
  /\ Staff.esi_number s = form_get f "esi_number"
  /\ Staff.active s = match form_get f "active" with
                      | Some v => String.eqb v "on"
                      | None => false
                      end
  /\ Staff.staff_id s = next_staff_id_of (last_staff db)
  /\ staff (database (handle RNewStaff req db))
     = (staff db ++ [Staff.with_id (next_pk (staff db)) s])%list
  /\ flashes (handle RNewStaff req db)
     = [{| msg := StaffAdded (Staff.name s) (Staff.staff_id s);
           category := "success" |}]
  /\ response (handle RNewStaff req db)
     = inr (Redirect "routes.staff_details").
Proof.
  unfold handle, handler_of, login_required, serve, new_staff, reads_or_zero.
  destruct (is_authenticated (current_user req)); [| intros []].
  destruct (negb (is_admin (current_user req))
            && negb (is_accounts (current_user req))); [intros [] |].
  destruct (method req); [intros [] |].
  run_staff.
  repeat (split_eqn; run_staff);
    intros Hin; try (destruct Hin; fail);
    destruct Hin as [Hin | []]; injection Hin as <-;
    cbn [Staff.name Staff.category Staff.department Staff.designation
         Staff.bank_account Staff.aadhar Staff.base_salary Staff.allowances
         Staff.deductions Staff.date_joined Staff.pf_number Staff.esi_number
         Staff.active Staff.staff_id];
    repeat match goal with
           | H : Py.truthy _ = _ |- _ => rewrite H
           | |- _ /\ _ => split
           | |- exists _, _ => eexists
           end;
    try reflexivity; try assumption; try discriminate.
Qed.

(** A trace of [lop_page] writes salary records only. *)
Lemma lop_trace_tables (l : list stmt) :
  forall db, trace lop_stmt db l ->
             staff (fold_left apply_stmt l db) = staff db
             /\ tax_slabs (fold_left apply_stmt l db) = tax_slabs db.
Proof.
  induction l as [|st l IH]; intros db Ht; cbn [fold_left];
    [split; reflexivity |].
  inversion Ht as [|? ? ? Hst Hrest]; subst.
  destruct (IH _ Hrest) as [-> ->].
  destruct Hst; split; reflexivity.
Qed.

Lemma professional_tax_statements (req : Request) (db : Database) :
  database (serve professional_tax req db) = db
  \/ exists t, database (serve professional_tax req db)
               = apply_stmt db (InsertProfessionalTax t).
Proof.
  unfold serve, professional_tax.
  destruct (negb (is_admin (current_user req))
            && negb (is_accounts (current_user req))); [left; reflexivity |].
  destruct (method req); run_staff; [left; reflexivity |].
  repeat (split_eqn; run_staff);
    first [left; reflexivity | right; eexists; reflexivity].
Qed.

(** X20: every handler writes to its own table only, and staff rows are
    never changed or removed: [new_staff] appends at most one staff row and
    leaves the salary records and the slabs as they were; [lop_page] and
    [d_r_page] leave the staff table and the slabs as they were;
    [professional_tax] leaves the staff table and the salary records as
    they were. *)
Theorem handlers_write_their_own_table
        (r : route) (req : Request) (db : Database) :
  (exists added, staff (database (handle r req db)) = (staff db ++ added)%list
                 /\ (List.length added <= 1)%nat
                 /\ (r <> RNewStaff -> added = []))
  /\ (r = RNewStaff \/ r = RProfessionalTax ->
      salary_records (database (handle r req db)) = salary_records db)
  /\ (r <> RProfessionalTax ->
      tax_slabs (database (handle r req db)) = tax_slabs db).
Proof.
  destruct r.
  - assert (H : database (handle RNewStaff req db) = db
                \/ exists s, database (handle RNewStaff req db)
                             = apply_stmt db (InsertStaff s)).
    { unfold handle, handler_of, login_required, serve.
      destruct (is_authenticated (current_user req)); [| left; reflexivity].
      destruct (new_staff_flushed req db) as ([_ Hdb] & _ & [Hst | Hst]);
        unfold serve in *.
      - left. rewrite Hdb, Hst. reflexivity.
      - right. destruct Hst as (s & Hst & _). exists s.
        rewrite Hdb, Hst. reflexivity. }
    destruct H as [-> | (s & ->)].
    + split; [exists []; rewrite app_nil_r; cbn; auto |].
      split; reflexivity.
    + cbn [apply_stmt staff salary_records tax_slabs].
      split; [eexists; split; [reflexivity |]; cbn; split; [lia | congruence] |].
      split; reflexivity.
  - destruct (handle_lop_flushed req db) as [Ht ->].
    destruct (lop_trace_tables _ _ Ht) as [-> ->].
    split; [exists []; rewrite app_nil_r; cbn; auto |].
    split; [intros [H | H]; discriminate | reflexivity].
  - assert (H : staff (database (handle RDeductions req db)) = staff db
                /\ tax_slabs (database (handle RDeductions req db))
                   = tax_slabs db).
    { destruct (handle_d_r_cases req db)
        as [_ _ -> | p e _ _ _ -> _ _ | p res row old _ _ _ _ _ -> _ _
            | p res _ _ _ Hst -> _ _].
      - split; reflexivity.
      - split; reflexivity.
      - split; reflexivity.
      - rewrite Hst. unfold prep_delete.
        destruct (prep_existing p) as [[row old]|]; split; reflexivity. }
    destruct H as [-> ->].
    split; [exists []; rewrite app_nil_r; cbn; auto |].
    split; [intros [H | H]; discriminate | reflexivity].
  - assert (H : database (handle RProfessionalTax req db) = db
                \/ exists t, database (handle RProfessionalTax req db)
                             = apply_stmt db (InsertProfessionalTax t)).
    { unfold handle, handler_of, login_required, serve.
      destruct (is_authenticated (current_user req)); [| left; reflexivity].
      apply professional_tax_statements. }
    destruct H as [-> | (t & ->)];
      (split; [exists []; rewrite app_nil_r; cbn; auto |]);
      (split; [reflexivity | congruence]).
Qed.

(** X21: [lop_page] and [d_r_page] read a month from a text exactly when it
    is made of two parts around one hyphen, each part an integer for
    [int]: the year is the part before the hyphen and the month the part
    after it.  A text with no hyphen, or with a second one (a leading minus
    sign, a day), is refused, and neither integer is checked against a
    range: any two integers are accepted. *)
Theorem parse_year_month_two_parts (s : string) (year month : Z) :
  parse_year_month s = Some (year, month)
  <-> exists before after,
      s = before ++ "-" ++ after
      /\ ~ In "-"%char (list_ascii_of_string before)
      /\ ~ In "-"%char (list_ascii_of_string after)
      /\ py_int before = Some year
      /\ py_int after = Some month.
Proof.
  split; [apply parse_year_month_sound |].
  intros (before & after & -> & Hnb & Hna & Hy & Hm).
  apply parse_year_month_complete; assumption.
Qed.

End StaffFacts.

(** ** Instances of the further properties *)

Lemma unauthorized_request_changes_nothing_witness :
  database (handle (rt := Sample.runtime) RLop
                   (Cases.post_by Cases.visitor [("lop_1", "2")])
                   Sample.db_staff)
  = Sample.db_staff.
Proof.
  apply (unauthorized_request_changes_nothing
           (rt := Sample.runtime) RLop
           (Cases.post_by Cases.visitor [("lop_1", "2")]) Sample.db_staff).
  reflexivity.
Defined.

Lemma get_request_changes_nothing_witness :
  database (handle (rt := Sample.runtime) RDeductions
                   (Cases.get_with [("month", "2024-02")]) Sample.db_saved)
  = Sample.db_saved.
Proof.
  apply (get_request_changes_nothing
           (rt := Sample.runtime) RDeductions
           (Cases.get_with [("month", "2024-02")]) Sample.db_saved).
  reflexivity.
Defined.

Lemma new_staff_missing_field_witness :
  database (handle (rt := Sample.runtime) RNewStaff
                   (Sample.post Cases.short_staff_form []) empty_db)
  = empty_db.
Proof.
  apply (new_staff_missing_field
           (rt := Sample.runtime)
           (Sample.post Cases.short_staff_form []) empty_db "aadhar").
  - cbn. tauto.
  - reflexivity.
  - reflexivity.
  - reflexivity.
Defined.

Lemma d_r_page_malformed_amount_witness :
  engine_calls (handle (rt := Sample.runtime) RDeductions
                       (Sample.d_r_request "" []) Sample.db_staff)
  = [].
Proof.
  apply (d_r_page_malformed_amount
           (rt := Sample.runtime) (Sample.d_r_request "" []) Sample.db_staff
           "").
  - reflexivity.
  - left. exists "loan". split; [cbn; tauto | reflexivity].
Defined.

Lemma d_r_page_partial_only_on_failed_insert_witness :
  exists later,
    commit_outcomes (Sample.d_r_request "700" [true; false])
    = true :: false :: later.
Proof.
  apply (proj1 (d_r_page_partial_only_on_failed_insert
                  (rt := Sample.runtime)
                  (Sample.d_r_request "700" [true; false])
                  Sample.db_saved) 0%nat).
  vm_compute. reflexivity.
Defined.

Lemma d_r_page_saved_record_content_witness :
  SalaryRecord.lop_days Sample.second_record
  = match salary_record_first 1 2 2024 Sample.db_saved with
    | Some (_, stored) => SalaryRecord.lop_days stored
    | None => Some 0%Q
    end.
Proof.
  apply (d_r_page_saved_record_content
           (rt := Sample.runtime) (Sample.d_r_request "700" [])
           Sample.db_saved Sample.second_record).
  vm_compute. right. left. reflexivity.
Defined.

Lemma d_r_page_rejects_selection_witness :
  flashes (handle (rt := Sample.runtime) RDeductions
                  (Sample.post [("salary_month", "2024-02")] [])
                  Sample.db_staff)
  = [{| msg := MissingSelection; category := "error" |}].
Proof.
  apply (d_r_page_rejects_selection
           (rt := Sample.runtime)
           (Sample.post [("salary_month", "2024-02")] []) Sample.db_staff);
    reflexivity.
Defined.

Lemma reachable_keys_unique_witness :
  NoDup (map Staff.id (staff Sample.db_saved)).
Proof.
  apply (reachable_keys_unique (rt := Sample.runtime) Sample.db_saved).
  exact db_saved_reachable.
Defined.

Lemma lop_page_all_or_nothing_witness :
  database (handle (rt := Sample.runtime) RLop (Sample.lop_request "two")
                   Sample.db_staff)
  = Sample.db_staff.
Proof.
  apply (lop_page_all_or_nothing
           (rt := Sample.runtime) (Sample.lop_request "two") Sample.db_staff
           Cases.asha "two").
  - reflexivity.
  - reflexivity.
  - vm_compute. discriminate.
  - vm_compute. left. reflexivity.
  - reflexivity.
  - reflexivity.
  - reflexivity.
  - reflexivity.
Defined.

Lemma sample_lop_values_read (days : string) :
  Literal.float days <> None ->
  forall x' lop_value',
    In x' (staff Sample.db_staff) -> Staff.active x' = true ->
    lop_target (form (Sample.lop_request days)) x'
    = Some lop_value' ->
    py_float (Runtime := Sample.runtime) lop_value' <> None.
Proof.
  intros Hdays x' v' [<- | []] _ Ht.
  unfold lop_target in Ht. cbn in Ht.
  destruct (Py.truthy days && _); [| discriminate].
  injection Ht as <-. exact Hdays.
Qed.

Lemma sample_staff_pks : NoDup (map Staff.id (staff Sample.db_staff)).
Proof. vm_compute. constructor; [intros [] | constructor]. Qed.

Lemma lop_page_stores_submitted_days_witness :
  exists row r,
    salary_record_first 1 2 2024
                        (database (handle (rt := Sample.runtime) RLop
                                          (Sample.lop_request "3")
                                          Sample.db_saved))
    = Some (row, r)
    /\ SalaryRecord.lop_days r = Some 3%Q.
Proof.
  destruct (lop_page_stores_submitted_days
              (rt := Sample.runtime) (Sample.lop_request "3") Sample.db_saved
              2024 2 "2024-02" Cases.asha "3" 3%Q)
    as (row & r & Hfirst & Hdays & _).
  - vm_compute. constructor; [intros [] | constructor].
  - reflexivity.
  - reflexivity.
  - reflexivity.
  - intros x' v' Hin. apply (sample_lop_values_read "3");
      [vm_compute; discriminate | exact Hin].
  - reflexivity.
  - vm_compute. left. reflexivity.
  - reflexivity.
  - reflexivity.
  - reflexivity.
  - exists row, r. split; [exact Hfirst | exact Hdays].
Defined.

Lemma lop_page_touches_submitted_keys_only_witness :
  filter (SalaryRecord.has_key 1 2 2024)
         (salary_records
            (database (handle (rt := Sample.runtime) RLop
                              (Sample.post [("lop_month", "2024-03");
                                            ("lop_1", "5")] [])
                              Sample.db_saved)))
  = filter (SalaryRecord.has_key 1 2 2024) (salary_records Sample.db_saved).
Proof.
  apply (lop_page_touches_submitted_keys_only
           (rt := Sample.runtime)
           (Sample.post [("lop_month", "2024-03"); ("lop_1", "5")] [])
           Sample.db_saved 1 2 2024).
  - reflexivity.
  - reflexivity.
  - intros year month text Hsel. vm_compute in Hsel.
    injection Hsel as <- <- <-. left. discriminate.
Defined.

Lemma lop_page_then_api_get_lop_witness :
  lop_api_response (rt := Sample.runtime) Cases.lop_query
                   (database (handle (rt := Sample.runtime) RLop
                                     (Sample.lop_request "3")
                                     Sample.db_staff))
  = inr (ApiLop 3 None 200).
Proof.
  apply (lop_page_then_api_get_lop
           (rt := Sample.runtime) (Sample.lop_request "3") Cases.lop_query
           Sample.db_staff 2024 2 "2024-02" Cases.asha "3" 3%Q);
    try reflexivity; try discriminate.
  - exact sample_staff_pks.
  - apply (sample_lop_values_read "3"). vm_compute. discriminate.
  - vm_compute. left. reflexivity.
Defined.

Lemma api_get_lop_matches_engine_argument_witness :
  lop_api_response (rt := Sample.runtime) Cases.lop_query (Sample.db_lop "45")
  = inr (ApiLop 45 None 200).
Proof.
  apply (api_get_lop_matches_engine_argument
           (rt := Sample.runtime) (Sample.d_r_request "500" [])
           Cases.lop_query (Sample.db_lop "45") Sample.unchecked_args "1");
    try reflexivity; try (vm_compute; discriminate).
  vm_compute. left. reflexivity.
Defined.

Lemma professional_tax_add_then_list_witness :
  tax_slabs (database (handle (rt := Sample.runtime) RProfessionalTax
                              (Sample.post Cases.slab_form []) empty_db))
  = [{| ProfessionalTax.range_from := 10001;
        ProfessionalTax.range_to := 20000;
        ProfessionalTax.tax_amount := 150 |}].
Proof.
  apply (professional_tax_add_then_list
           (rt := Sample.runtime) (Sample.post Cases.slab_form [])
           (Cases.get_with []) empty_db "10001" "20000" "150"
           10001 20000 150);
    reflexivity.
Defined.

Lemma salary_overview_lists_witness :
  overview_response (rt := Sample.runtime) (Cases.get_with [])
                    Cases.db_month_13
  = inl Py.ValueError.
Proof.
  apply (salary_overview_lists
           (rt := Sample.runtime) (Cases.get_with []) Cases.db_month_13).
  - reflexivity.
  - reflexivity.
  - vm_compute. left. reflexivity.
Defined.

Lemma reachable_join_keeps_records_witness :
  joined_records Sample.db_saved = salary_records Sample.db_saved.
Proof.
  apply (reachable_join_keeps_records (rt := Sample.runtime) Sample.db_saved).
  exact db_saved_reachable.
Defined.

Lemma new_staff_stores_form_witness :
  form_get Sample.staff_form "name" = Some (Staff.name Cases.asha)
  /\ Staff.staff_id Cases.asha = 1001.
Proof.
  destruct (new_staff_stores_form
              (rt := Sample.runtime) (Sample.post Sample.staff_form [])
              empty_db (Staff.with_id 0 Cases.asha))
    as (Hname & _ & _ & _ & _ & _ & _ & _ & _ & _ & _ & _ & _ & _ & Hid & _).
  - vm_compute. left. reflexivity.
  - split; [exact Hname | exact Hid].
Defined.

Lemma parse_year_month_two_parts_witness :
  (exists before after,
      "2024-02" = before ++ "-" ++ after
      /\ Literal.int before = Some 2024
      /\ Literal.int after = Some 2)
  /\ parse_year_month (rt := Sample.runtime) "2024-13" = Some (2024, 13).
Proof.
  split.
  - destruct (proj1 (parse_year_month_two_parts
                       (rt := Sample.runtime) "2024-02" 2024 2) eq_refl)
      as (before & after & Hs & _ & _ & Hy & Hm).
    exists before, after. split; [exact Hs |]. split; [exact Hy | exact Hm].
  - apply (proj2 (parse_year_month_two_parts
                    (rt := Sample.runtime) "2024-13" 2024 13)).
    exists "2024", "13".
    repeat split; [vm_compute; intuition discriminate ..].
Defined.
